(** * consolidate-ship-data: the reshape-and-join pipeline of [main.py]

    A shallow embedding of [create_consolidated_json] and of the pandas and
    Python string operations it calls, followed by the properties of the
    pipeline.

    Boundary of the embedding.  The inputs are what [pd.read_csv] hands back:
    a table of cells, a missing file, or a file pandas cannot read (a file
    of zero bytes is one).  Python strings are lists of Unicode code points.
    A numeric column is float64 or, when every one of its cells is a whole
    number, int64: a float cell is a rational, an int64 cell an integer, the
    missing value is the cell [NaN].  [json.dump] writes every value of the
    model but one: the [numpy.int64] that line 65 reads from an int64 column.
    Columns of other dtypes (booleans, dates) are outside the model.
    pandas is taken at version 2, where [melt] refuses a table that has a
    column named [value].
    The Unicode case table behind [str.lower], the digit table behind [int]
    and the date parser behind [pd.to_datetime] are library data: they are the
    fields of the class [PyLib], with an instance for ASCII text.  The [print]
    calls of steps 1 to 3 that only echo data (lines 15-17, 35, 48-50, 72-73,
    85-87, 95, 103, 112, 133, 147) are not recorded; the warnings, the two
    error handlers and everything printed from line 155 on are. *)

From Stdlib Require Import List NArith ZArith QArith Bool String Ascii Lia.
From Stdlib Require Import Sorting.Sorted Sorting.Permutation.
Import ListNotations.

Set Implicit Arguments.
Set Warnings "-register-all".
Local Open Scope N_scope.

(* ================================================================== *)
(** ** Python strings *)
(* ================================================================== *)

(** A Python [str] is a sequence of code points. *)
Definition pystr : Type := list N.

(** An ASCII literal as a [pystr]. *)
Definition ustr (s : string) : pystr :=
  map N_of_ascii (list_ascii_of_string s).

Definition HYPHEN : N := 45.      (* '-'  U+002D *)
Definition EN_DASH : N := 8211.   (* '–' *)
Definition EM_DASH : N := 8212.   (* '—' *)
Definition SPACE : N := 32.       (* ' '  U+0020 *)
Definition COLON : N := 58.       (* ':' *)
Definition UNDERSCORE : N := 95.  (* '_' *)
Definition TAB : N := 9.

Fixpoint str_eqb (s t : pystr) : bool :=
  match s, t with
  | [], [] => true
  | c :: s', d :: t' => (c =? d) && str_eqb s' t'
  | _, _ => false
  end.

(** [c in s] for a one-character [c]. *)
Definition contains (c : N) (s : pystr) : bool := existsb (N.eqb c) s.

(** [x in l] on a list of strings. *)
Definition str_in (x : pystr) (l : list pystr) : bool := existsb (str_eqb x) l.

(** [str.isspace] on one code point: the characters [str.strip()] removes. *)
Definition is_whitespace (c : N) : bool :=
  ((9 <=? c) && (c <=? 13)) || ((28 <=? c) && (c <=? 32))
  || (c =? 133) || (c =? 160) || (c =? 5760)
  || ((8192 <=? c) && (c <=? 8202))
  || (c =? 8232) || (c =? 8233) || (c =? 8239) || (c =? 8287) || (c =? 12288).

Fixpoint lstrip (s : pystr) : pystr :=
  match s with
  | c :: s' => if is_whitespace c then lstrip s' else s
  | [] => []
  end.

Definition rstrip (s : pystr) : pystr := rev (lstrip (rev s)).

(** [s.strip()] *)
Definition strip (s : pystr) : pystr := rstrip (lstrip s).

(** [s.replace(a, b)] for one-character [a] and [b]. *)
Definition replace_char (a b : N) (s : pystr) : pystr :=
  map (fun c => if c =? a then b else c) s.

(** [s.replace(a, '')] for a one-character [a]. *)
Definition remove_char (a : N) (s : pystr) : pystr :=
  filter (fun c => negb (c =? a)) s.

(** [s.split(sep)[0]]: the text before the first [sep], all of [s] when there
    is none.  [split] always returns at least one field, so the index never
    fails. *)
Fixpoint first_field (sep : N) (s : pystr) : pystr :=
  match s with
  | [] => []
  | c :: s' => if c =? sep then [] else c :: first_field sep s'
  end.

(** Python compares strings code point by code point. *)
Fixpoint str_compare (s t : pystr) : comparison :=
  match s, t with
  | [], [] => Eq
  | [], _ :: _ => Lt
  | _ :: _, [] => Gt
  | c :: s', d :: t' =>
      match c ?= d with
      | Eq => str_compare s' t'
      | r => r
      end
  end.

Definition str_leb (s t : pystr) : bool :=
  match str_compare s t with Gt => false | _ => true end.

Definition str_lt (s t : pystr) : Prop := str_compare s t = Lt.

Definition str_le (s t : pystr) : Prop := s = t \/ str_lt s t.

(** [sorted(l)] on strings: a stable insertion sort. *)
Fixpoint insert_sorted (x : pystr) (l : list pystr) : list pystr :=
  match l with
  | [] => [x]
  | y :: l' => if str_leb y x then y :: insert_sorted x l' else x :: l
  end.

Definition sorted (l : list pystr) : list pystr :=
  fold_left (fun acc x => insert_sorted x acc) l [].

(** [Series.unique()]: the distinct values in order of first appearance. *)
Fixpoint unique_from (seen : list pystr) (l : list pystr) : list pystr :=
  match l with
  | [] => []
  | x :: l' =>
      if str_in x seen then unique_from seen l'
      else x :: unique_from (x :: seen) l'
  end.

Definition unique (l : list pystr) : list pystr := unique_from [] l.

(* ================================================================== *)
(** ** Python dictionaries *)
(* ================================================================== *)

(** A [dict] with [str] keys keeps its keys in insertion order; assigning to
    a key that is present replaces the value where it stands. *)
Definition dict (V : Type) : Type := list (pystr * V).

Fixpoint dict_get {V} (d : dict V) (k : pystr) : option V :=
  match d with
  | [] => None
  | (k', v) :: d' => if str_eqb k k' then Some v else dict_get d' k
  end.

(** [d[k] = v] *)
Fixpoint dict_set {V} (d : dict V) (k : pystr) (v : V) : dict V :=
  match d with
  | [] => [(k, v)]
  | (k', v') :: d' =>
      if str_eqb k k' then (k', v) :: d' else (k', v') :: dict_set d' k v
  end.

Definition dict_keys {V} (d : dict V) : list pystr := map fst d.

(* ================================================================== *)
(** ** Cells and tables *)
(* ================================================================== *)

(** One cell of a table read by pandas: the missing value, a text, an
    element of a float64 column, or an element of an int64 column (a column
    pandas found to hold whole numbers only, none missing). *)
Inductive cell : Type :=
| NaN
| Str (s : pystr)
| Num (q : Q)
| Int (z : Z).

(** [pd.notna] *)
Definition notna (c : cell) : bool :=
  match c with NaN => false | _ => true end.

Definition row : Type := list cell.

Record DataFrame : Type := {
  columns : list pystr;
  rows : list row
}.

Fixpoint index_of (name : pystr) (cols : list pystr) : option nat :=
  match cols with
  | [] => None
  | c :: cols' =>
      if str_eqb name c then Some O
      else option_map S (index_of name cols')
  end.

Definition cell_at (k : nat) (r : row) : cell := nth k r NaN.

Fixpoint set_cell (k : nat) (v : cell) (r : row) : row :=
  match r, k with
  | [], _ => []
  | _ :: r', O => v :: r'
  | c :: r', S k' => c :: set_cell k' v r'
  end.

(** The exceptions the script can meet. *)
Inductive exn : Type :=
| FileNotFoundError (filename : pystr)
| KeyError (key : pystr)
| AttributeError    (* [.str] on a column without strings, [.strip] on a number *)
| TypeError         (* item assignment on something that is not a [dict];
                       [json.dump] on a [numpy.int64] *)
| ValueError        (* [melt] on a table with a [value] column;
                       [pd.to_datetime] on a frame of several columns *)
| ReadError.        (* [pd.read_csv] gives up on the file's contents *)

(** What [pd.read_csv] finds at a path: no file, a file it raises on (a
    file of zero bytes is one: [EmptyDataError]), or a table. *)
Inductive csv_source : Type :=
| NoFile
| Unreadable
| Table (df : DataFrame).

(* ================================================================== *)
(** ** Library data: case table, integer syntax, date parser *)
(* ================================================================== *)

Class PyLib : Type := {
  (** [str.lower] *)
  str_lower : pystr -> pystr;
  (** [int(s)]; [None] is [ValueError]. *)
  py_int : pystr -> option Z;
  (** [pandas.Timestamp] *)
  Datetime : Type;
  (** [pd.to_datetime(column, dayfirst=True, errors='coerce')]; [None] is
      [NaT]. *)
  to_datetime : list cell -> list (option Datetime);
  (** [.dt.hour] *)
  dt_hour : Datetime -> Z;
  (** [.astype(str)] *)
  dt_str : Datetime -> pystr
}.

(* ================================================================== *)
(** ** The output document *)
(* ================================================================== *)

(** What [json.dump] walks and writes. *)
Inductive json : Type :=
| JNull
| JNaN
| JNumber (q : Q)
| JString (s : pystr)
| JArray (l : list json)
| JObject (members : list (pystr * json)).

Definition json_of_cell (c : cell) : json :=
  match c with
  | NaN => JNaN
  | Str s => JString s
  | Num q => JNumber q
  | Int z => JNumber (inject_Z z)
  end.

(** The entries an event row contributes to [ais_data]. *)
Definition EventRecord : Type := dict cell.

Definition K_TIME_RANGE : pystr := ustr "time_range".
Definition K_EXTERNAL : pystr := ustr "external_environment_factors".
Definition K_HUMAN : pystr := ustr "human_factors".
Definition K_INTERNAL : pystr := ustr "internal_environment_factors".
Definition K_SHIP : pystr := ustr "ship_factors".
Definition K_AIS_DATA : pystr := ustr "ais_data".
Definition K_FINAL_SCORE : pystr := ustr "final_score".

(** The keys of [hourly_record], in insertion order. *)
Definition record_keys : list pystr :=
  [K_TIME_RANGE; K_EXTERNAL; K_HUMAN; K_INTERNAL; K_SHIP; K_AIS_DATA;
   K_FINAL_SCORE].

(** The four keys whose value is a [dict]. *)
Definition bucket_keys : list pystr := [K_EXTERNAL; K_HUMAN; K_INTERNAL; K_SHIP].

(** The dictionary [hourly_record] of line 114, one field per key. *)
Record HourlyRecord : Type := {
  time_range : pystr;
  external_environment_factors : dict cell;
  human_factors : dict cell;
  internal_environment_factors : dict cell;
  ship_factors : dict cell;
  ais_data : list EventRecord;
  final_score : option cell
}.

Definition json_of_dict (d : dict cell) : json :=
  JObject (map (fun kv => (fst kv, json_of_cell (snd kv))) d).

Definition json_of_record (h : HourlyRecord) : json :=
  JObject
    [ (K_TIME_RANGE, JString (time_range h));
      (K_EXTERNAL, json_of_dict (external_environment_factors h));
      (K_HUMAN, json_of_dict (human_factors h));
      (K_INTERNAL, json_of_dict (internal_environment_factors h));
      (K_SHIP, json_of_dict (ship_factors h));
      (K_AIS_DATA, JArray (map json_of_dict (ais_data h)));
      (K_FINAL_SCORE,
         match final_score h with
         | None => JNull
         | Some c => json_of_cell c
         end) ].

(** Member lookup in a JSON object. *)
Definition json_member (k : pystr) (j : json) : option json :=
  match j with
  | JObject members => dict_get members k
  | _ => None
  end.

(* ================================================================== *)
(** ** Effects: the console, the output file, exceptions *)
(* ================================================================== *)

Inductive message : Type :=
| WarnFinalScoreMissing              (* 'Final Score' row not found in the CSV *)
| WarnAisMissing                     (* AIS.csv not found, proceeding without AIS data *)
| WarnSkipTimeRange (t : pystr)      (* Skipping invalid time range: {t} *)
| WarnUnknownCategory (c : pystr)    (* Unknown category: {c} *)
| Success (filename : pystr) (n : nat)  (* Successfully created ... with {n} time periods! *)
| SampleHeader                       (* Sample output structure for first time period: *)
| SampleItems (key : pystr) (n : nat)     (*    {key}: {n} items *)
| SampleRecords (key : pystr) (n : nat)   (*    {key}: {n} records *)
| SampleValue (key : pystr) (value : json)  (*    {key}: {value} *)
| ErrRequiredFile                    (* Error: Could not find a required file. *)
| ErrMakeSure (filename : pystr)     (* Please make sure '{filename}' is in the same folder ... *)
| ErrUnexpected (e : exn).           (* An unexpected error occurred: {e} *)

(** What [consolidated_ship_data.json] holds once it has been opened for
    writing: the text of a whole document, or the beginning of that text, cut
    at the value [json.dump] could not write. *)
Inductive file_content : Type :=
| Whole (doc : json)
| CutShort (doc : json).

Record world : Type := {
  stdout : list message;
  (** the contents of [consolidated_ship_data.json], if it has been opened *)
  output_file : option file_content
}.

Inductive outcome (A : Type) : Type :=
| Return (a : A)
| Raise (e : exn).
Arguments Return {A} a.
Arguments Raise {A} e.

Definition M (A : Type) : Type := world -> world * outcome A.

Definition ret {A} (a : A) : M A := fun w => (w, Return a).

Definition bind {A B} (m : M A) (f : A -> M B) : M B :=
  fun w =>
    match m w with
    | (w', Return a) => f a w'
    | (w', Raise e) => (w', Raise e)
    end.

Definition raise {A} (e : exn) : M A := fun w => (w, Raise e).

(** [try: m  except <handled>: h] *)
Definition try_except {A} (m : M A) (handler : exn -> option (M A)) : M A :=
  fun w =>
    match m w with
    | (w', Return a) => (w', Return a)
    | (w', Raise e) =>
        match handler e with
        | Some h => h w'
        | None => (w', Raise e)
        end
    end.

Definition print (m : message) : M unit :=
  fun w => ({| stdout := stdout w ++ [m]; output_file := output_file w |},
            Return tt).

Fixpoint print_all (ms : list message) : M unit :=
  match ms with
  | [] => ret tt
  | m :: ms' => bind (print m) (fun _ => print_all ms')
  end.

(** The score of the record is a [numpy.int64]: what [.iloc[0]] reads from
    an int64 column.  (The values [iterrows] and [to_dict] hand over are
    Python numbers.) *)
Definition int64_score (h : HourlyRecord) : bool :=
  match final_score h with
  | Some (Int _) => true
  | _ => false
  end.

(** [with open(name, 'w') as f: json.dump(final_json_data, f, indent=4)]:
    [open] empties the file, [json.dump] writes the text piece by piece and
    raises [TypeError] at the first [numpy.int64] it meets. *)
Definition write_json (final_json_data : list HourlyRecord) : M unit :=
  let doc := JArray (map json_of_record final_json_data) in
  fun w =>
    if existsb int64_score final_json_data
    then ({| stdout := stdout w; output_file := Some (CutShort doc) |},
          Raise TypeError)
    else ({| stdout := stdout w; output_file := Some (Whole doc) |},
          Return tt).

Declare Scope py_scope.
Delimit Scope py_scope with py.
Notation "x <- m ;; k" := (bind m (fun x => k))
  (at level 61, m at next level, right associativity) : py_scope.
Notation "m ;; k" := (bind m (fun _ => k))
  (at level 61, right associativity) : py_scope.
Local Open Scope py_scope.

(* ================================================================== *)
(** ** The pipeline of [create_consolidated_json] *)
(* ================================================================== *)

Definition FACTOR_CATEGORY : pystr := ustr "Factor Category".
Definition FACTOR : pystr := ustr "Factor".
Definition TIMESTAMP : pystr := ustr "Timestamp".
Definition VALUE : pystr := ustr "value".
Definition FACTORS_CSV : pystr := ustr "4-21-day-result.csv".
Definition AIS_CSV : pystr := ustr "AIS.csv".
Definition output_filename : pystr := ustr "consolidated_ship_data.json".

(** [pd.read_csv(filename, ...)] *)
Definition read_csv (filename : pystr) (src : csv_source) : M DataFrame :=
  match src with
  | NoFile => raise (FileNotFoundError filename)
  | Unreadable => raise ReadError
  | Table df => ret df
  end.

(** [df.columns = df.columns.str.strip()] *)
Definition strip_columns (df : DataFrame) : DataFrame :=
  {| columns := map strip (columns df); rows := rows df |}.

(** [df.rename(columns={'Unnamed: 0': 'Factor Category', 'Unnamed: 1': 'Factor'})] *)
Definition rename_column (c : pystr) : pystr :=
  if str_eqb c (ustr "Unnamed: 0") then FACTOR_CATEGORY
  else if str_eqb c (ustr "Unnamed: 1") then FACTOR
  else c.

Definition rename_unnamed (df : DataFrame) : DataFrame :=
  {| columns := map rename_column (columns df); rows := rows df |}.

(** [Series.ffill()] on column [k]: a scan that carries the last value seen. *)
Fixpoint ffill (k : nat) (last : cell) (rs : list row) : list row :=
  match rs with
  | [] => []
  | r :: rs' =>
      match cell_at k r with
      | NaN => set_cell k last r :: ffill k last rs'
      | c => r :: ffill k c rs'
      end
  end.

(** [df.dropna(how='all')] *)
Definition dropna_all (rs : list row) : list row :=
  filter (fun r => existsb notna r) rs.

Definition ffill_dropna (k : nat) (df : DataFrame) : DataFrame :=
  {| columns := columns df; rows := dropna_all (ffill k NaN (rows df)) |}.

(** Lines 26-29: forward-fill the category column, drop the empty rows. *)
Definition fill_categories (df : DataFrame) : M DataFrame :=
  match index_of FACTOR_CATEGORY (columns df) with
  | None => raise (KeyError FACTOR_CATEGORY)
  | Some k => ret (ffill_dropna k df)
  end.

Definition id_vars : list pystr := [FACTOR_CATEGORY; FACTOR].

(** Line 33. *)
Definition time_vars (df : DataFrame) : list pystr :=
  filter (fun col => negb (str_in col id_vars)
                     && contains COLON col && contains HYPHEN col)
         (columns df).

(** A row of [factors_long_df]. *)
Record FactorRecord : Type := {
  fr_category : cell;      (* 'Factor Category' *)
  fr_factor : cell;        (* 'Factor' *)
  fr_time_range : pystr;   (* 'time_range' *)
  fr_value : cell          (* 'value' *)
}.

Definition column_cell (df : DataFrame) (col : pystr) (r : row) : cell :=
  match index_of col (columns df) with
  | Some k => cell_at k r
  | None => NaN
  end.

(** The long row [melt] makes of table row [r] and time column [tv]. *)
Definition melt_row (df : DataFrame) (tv : pystr) (r : row) : FactorRecord :=
  {| fr_category := column_cell df FACTOR_CATEGORY r;
     fr_factor := column_cell df FACTOR r;
     fr_time_range := tv;
     fr_value := column_cell df tv r |}.

(** The long table: column by column, the rows in table order. *)
Definition melted (df : DataFrame) (tvs : list pystr) : list FactorRecord :=
  flat_map (fun tv => map (melt_row df tv) (rows df)) tvs.

(** [df.melt(id_vars=id_vars, value_vars=tvs, var_name='time_range',
    value_name='value')]: the name of the value column must be new, then the
    two label columns must be there. *)
Definition melt (df : DataFrame) (tvs : list pystr) : M (list FactorRecord) :=
  if str_in VALUE (columns df) then raise ValueError
  else
    match index_of FACTOR_CATEGORY (columns df), index_of FACTOR (columns df) with
    | Some _, Some _ => ret (melted df tvs)
    | None, _ => raise (KeyError FACTOR_CATEGORY)
    | _, None => raise (KeyError FACTOR)
    end.

(** [long.dropna(subset=['Factor', 'value'])] *)
Definition dropna_factor_value (l : list FactorRecord) : list FactorRecord :=
  filter (fun r => notna (fr_factor r) && notna (fr_value r)) l.

(** Line 54. *)
Definition normalize_time_range (s : pystr) : pystr :=
  strip
    (remove_char SPACE
       (replace_char EM_DASH HYPHEN
          (replace_char EN_DASH HYPHEN
             (replace_char EM_DASH HYPHEN
                (replace_char EN_DASH HYPHEN s))))).

Definition is_str (c : cell) : bool :=
  match c with Str _ => true | _ => false end.

Definition is_int (c : cell) : bool :=
  match c with Int _ => true | _ => false end.

(** How many of the headers are [name]. *)
Definition count_of (name : pystr) (cols : list pystr) : nat :=
  List.length (filter (str_eqb name) cols).

(** Whether pandas gave column [k] a string dtype when the table was read:
    [.str] raises on any other. *)
Definition has_str_accessor (k : nat) (rs : list row) : bool :=
  match rs with
  | [] => true
  | _ :: _ => existsb (fun r => is_str (cell_at k r)) rs
  end.

Section Pipeline.

Context {lib : PyLib}.

(** The test of line 58 on one category cell:
    [.str.strip().str.lower() == 'final score']. *)
Definition is_final_score (c : cell) : bool :=
  match c with
  | Str s => str_eqb (str_lower (strip s)) (ustr "final score")
  | _ => false
  end.

(** Lines 58-70.  [named] is the table as read (its dtypes), [df] the table
    after the forward fill. *)
Definition final_score_map (named df : DataFrame) (tvs : list pystr)
  : M (dict cell) :=
  match index_of FACTOR_CATEGORY (columns df) with
  | None => raise (KeyError FACTOR_CATEGORY)
  | Some k =>
      if has_str_accessor k (rows named) then
        match filter (fun r => is_final_score (cell_at k r)) (rows df) with
        | final_score_row :: _ =>
            ret (fold_left
                   (fun m col =>
                      match index_of col (columns df) with
                      | Some kc =>
                          let score := cell_at kc final_score_row in
                          if notna score
                          then dict_set m (normalize_time_range col) score
                          else m
                      | None => m
                      end)
                   tvs [])
        | [] => print WarnFinalScoreMissing ;; ret []
        end
      else raise AttributeError
  end.

(** [ais_df]: the event rows that have a timestamp, each with its parsed
    timestamp. *)
Record AisFrame : Type := {
  ais_columns : list pystr;
  ais_rows : list (Datetime * row)
}.

(** [ais_df.dropna(subset=['Timestamp'])] *)
Definition dropna_timestamp (l : list (option Datetime * row))
  : list (Datetime * row) :=
  flat_map (fun p => match fst p with
                     | Some d => [(d, snd p)]
                     | None => []
                     end) l.

(** Lines 77-90. *)
Definition load_ais (src : csv_source) : M AisFrame :=
  try_except
    (df0 <- read_csv AIS_CSV src ;;
     let df := strip_columns df0 in
     match index_of TIMESTAMP (columns df) with
     | None => raise (KeyError TIMESTAMP)
     | Some k =>
         if Nat.ltb 1 (count_of TIMESTAMP (columns df))
         then (* [ais_df['Timestamp']] is a frame of several columns *)
           raise ValueError
         else
           let parsed := to_datetime (map (cell_at k) (rows df)) in
           ret {| ais_columns := columns df;
                  ais_rows := dropna_timestamp (combine parsed (rows df)) |}
     end)
    (fun e => match e with
              | FileNotFoundError _ =>
                  (* ais_df = pd.DataFrame() *)
                  Some (print WarnAisMissing ;;
                        ret {| ais_columns := []; ais_rows := [] |})
              | _ => None
              end).

(** [ais_df.empty]: some axis has length zero. *)
Definition ais_empty (a : AisFrame) : bool :=
  match ais_columns a, ais_rows a with
  | _ :: _, _ :: _ => false
  | _, _ => true
  end.

(** One row of [ais_in_hour.to_dict(orient='records')], its timestamp turned
    into text. *)
Definition event_record (cols : list pystr) (p : Datetime * row) : EventRecord :=
  let cells :=
    match index_of TIMESTAMP cols with
    | Some k => set_cell k (Str (dt_str (fst p))) (snd p)
    | None => snd p
    end in
  fold_left (fun d kv => dict_set d (fst kv) (snd kv)) (combine cols cells) [].

(** Lines 125-129. *)
Definition ais_in_hour (ais_df : AisFrame) (start_hour : Z) : list EventRecord :=
  if ais_empty ais_df then []
  else map (event_record (ais_columns ais_df))
           (filter (fun p => (dt_hour (fst p) =? start_hour)%Z) (ais_rows ais_df)).

(** Line 100. *)
Definition format_category_name (name : cell) : pystr :=
  match name with
  | Str s => replace_char SPACE UNDERSCORE (str_lower (strip s))
  | _ => ustr "unknown"
  end.

(** [hourly_record[category][factor] = value], for a [category] that is a key
    of [hourly_record]: the assignment needs [hourly_record[category]] to be
    a [dict]. *)
Definition assign_factor (h : HourlyRecord) (category factor : pystr)
    (value : cell) : M HourlyRecord :=
  if str_eqb category K_EXTERNAL then
    ret {| time_range := time_range h;
           external_environment_factors :=
             dict_set (external_environment_factors h) factor value;
           human_factors := human_factors h;
           internal_environment_factors := internal_environment_factors h;
           ship_factors := ship_factors h;
           ais_data := ais_data h;
           final_score := final_score h |}
  else if str_eqb category K_HUMAN then
    ret {| time_range := time_range h;
           external_environment_factors := external_environment_factors h;
           human_factors := dict_set (human_factors h) factor value;
           internal_environment_factors := internal_environment_factors h;
           ship_factors := ship_factors h;
           ais_data := ais_data h;
           final_score := final_score h |}
  else if str_eqb category K_INTERNAL then
    ret {| time_range := time_range h;
           external_environment_factors := external_environment_factors h;
           human_factors := human_factors h;
           internal_environment_factors :=
             dict_set (internal_environment_factors h) factor value;
           ship_factors := ship_factors h;
           ais_data := ais_data h;
           final_score := final_score h |}
  else if str_eqb category K_SHIP then
    ret {| time_range := time_range h;
           external_environment_factors := external_environment_factors h;
           human_factors := human_factors h;
           internal_environment_factors := internal_environment_factors h;
           ship_factors := dict_set (ship_factors h) factor value;
           ais_data := ais_data h;
           final_score := final_score h |}
  else raise TypeError.

(** Lines 136-143: the body of the loop over [factors_in_hour]. *)
Definition add_factor (h : HourlyRecord) (r : FactorRecord) : M HourlyRecord :=
  let category := format_category_name (fr_category r) in
  factor <- match fr_factor r with
            | Str s => ret (strip s)
            | Num _ | Int _ => raise AttributeError
            | NaN => ret (ustr "Unknown")
            end ;;
  let value := fr_value r in
  if str_in category record_keys
  then assign_factor h category factor value
  else print (WarnUnknownCategory category) ;; ret h.

Fixpoint add_factors (h : HourlyRecord) (rs : list FactorRecord)
  : M HourlyRecord :=
  match rs with
  | [] => ret h
  | r :: rs' => h' <- add_factor h r ;; add_factors h' rs'
  end.

(** Line 132. *)
Definition factors_in_hour (long : list FactorRecord) (tr : pystr)
  : list FactorRecord :=
  filter (fun r => str_eqb (fr_time_range r) tr) long.

(** Lines 111-146: the record of one bucket whose hour parsed. *)
Definition hourly_record (long : list FactorRecord) (scores : dict cell)
    (ais_df : AisFrame) (tr : pystr) (start_hour : Z) : M HourlyRecord :=
  let norm_time_range := normalize_time_range tr in
  add_factors
    {| time_range := tr;
       external_environment_factors := [];
       human_factors := [];
       internal_environment_factors := [];
       ship_factors := [];
       ais_data := ais_in_hour ais_df start_hour;
       final_score := dict_get scores norm_time_range |}
    (factors_in_hour long tr).

(** Lines 102-147: the loop over [unique_time_ranges]. *)
Fixpoint for_time_ranges (long : list FactorRecord) (scores : dict cell)
    (ais_df : AisFrame) (trs : list pystr) (final_json_data : list HourlyRecord)
  : M (list HourlyRecord) :=
  match trs with
  | [] => ret final_json_data
  | tr :: trs' =>
      match py_int (first_field COLON tr) with
      | None =>
          print (WarnSkipTimeRange tr) ;;
          for_time_ranges long scores ais_df trs' final_json_data
      | Some start_hour =>
          h <- hourly_record long scores ais_df tr start_hour ;;
          for_time_ranges long scores ais_df trs' (final_json_data ++ [h])
      end
  end.

(** Lines 13-23: the table as named by the script. *)
Definition named_table (df0 : DataFrame) : DataFrame :=
  rename_unnamed (strip_columns df0).

(** Lines 38-46: [factors_long_df]. *)
Definition factors_long_df (factors_df : DataFrame) : M (list FactorRecord) :=
  melted <- melt factors_df (time_vars factors_df) ;;
  ret (dropna_factor_value melted).

(** Line 94. *)
Definition unique_time_ranges (long : list FactorRecord) : list pystr :=
  sorted (unique (map fr_time_range long)).

(** Steps 1 to 3 (lines 12-147): from the two files to [final_json_data]. *)
Definition consolidate (factors ais : csv_source) : M (list HourlyRecord) :=
  df0 <- read_csv FACTORS_CSV factors ;;
  let named := named_table df0 in
  factors_df <- fill_categories named ;;
  long <- factors_long_df factors_df ;;
  scores <- final_score_map named factors_df (time_vars factors_df) ;;
  ais_df <- load_ais ais ;;
  for_time_ranges long scores ais_df (unique_time_ranges long) [].

(** Lines 158-165: what the script prints of [first_record], one line per
    key. *)
Definition sample_lines (first_record : HourlyRecord) : list message :=
  [ SampleValue K_TIME_RANGE (JString (time_range first_record));
    SampleItems K_EXTERNAL
      (List.length (external_environment_factors first_record));
    SampleItems K_HUMAN (List.length (human_factors first_record));
    SampleItems K_INTERNAL
      (List.length (internal_environment_factors first_record));
    SampleItems K_SHIP (List.length (ship_factors first_record));
    SampleRecords K_AIS_DATA (List.length (ais_data first_record));
    SampleValue K_FINAL_SCORE
      match final_score first_record with
      | None => JNull
      | Some c => json_of_cell c
      end ].

(** Lines 156-165. *)
Definition print_sample (final_json_data : list HourlyRecord) : M unit :=
  match final_json_data with
  | [] => ret tt
  | first_record :: _ =>
      print SampleHeader ;; print_all (sample_lines first_record)
  end.

(** The whole of [create_consolidated_json]: steps 1 to 4 under the two
    handlers of lines 167-171. *)
Definition create_consolidated_json (factors ais : csv_source) : M unit :=
  try_except
    (final_json_data <- consolidate factors ais ;;
     write_json final_json_data ;;
     print (Success output_filename (List.length final_json_data)) ;;
     print_sample final_json_data)
    (fun e => Some match e with
                   | FileNotFoundError filename =>
                       print ErrRequiredFile ;; print (ErrMakeSure filename)
                   | _ => print (ErrUnexpected e)
                   end).

End Pipeline.

(* ================================================================== *)
(** ** The library on ASCII text *)
(* ================================================================== *)

(** An instance of [PyLib] for the sample runs.  [lower] and [int] agree
    with Python on ASCII strings ([int] takes a digit outside ASCII for a
    syntax error, which Python does not).  The date parser agrees with pandas
    on a column of text written [DD/MM/YYYY HH:MM] with a year from 1678 to
    2261; any other cell it takes for unparsable, which pandas does not
    always do (a number is read as nanoseconds, other formats are tried). *)
Module AsciiLib.

Definition lower_char (c : N) : N :=
  if (65 <=? c) && (c <=? 90) then c + 32 else c.

Definition lower (s : pystr) : pystr := map lower_char s.

Definition is_digit (c : N) : bool := (48 <=? c) && (c <=? 57).

Definition digit_value (c : N) : Z := Z.of_N (c - 48).

(** Decimal digits, single underscores allowed between two digits. *)
Fixpoint digits (acc : Z) (after_digit : bool) (s : pystr) : option Z :=
  match s with
  | [] => if after_digit then Some acc else None
  | c :: s' =>
      if is_digit c then digits (10 * acc + digit_value c)%Z true s'
      else if (c =? UNDERSCORE) && after_digit then digits acc false s'
      else None
  end.

(** [int(s)]: surrounding whitespace, an optional sign, then the digits. *)
Definition int (s : pystr) : option Z :=
  match strip s with
  | [] => None
  | c :: s' =>
      if c =? 45 then option_map Z.opp (digits 0 false s')
      else if c =? 43 then digits 0 false s'
      else digits 0 false (c :: s')
  end.

Record stamp : Type := {
  year : Z; month : Z; day : Z; hour : Z; minute : Z
}.

Definition number (ds : pystr) : option Z :=
  if forallb is_digit ds then digits 0 false ds else None.

Definition in_range (lo hi : Z) (o : option Z) : option Z :=
  match o with
  | Some z => if ((lo <=? z) && (z <=? hi))%Z then Some z else None
  | None => None
  end.

Definition leap_year (y : Z) : bool :=
  ((y mod 4 =? 0) && negb (y mod 100 =? 0) || (y mod 400 =? 0))%Z.

Definition days_in_month (y m : Z) : Z :=
  if (m =? 2)%Z then (if leap_year y then 29 else 28)
  else if ((m =? 4) || (m =? 6) || (m =? 9) || (m =? 11))%Z then 30
  else 31.

Definition parse_stamp (c : cell) : option stamp :=
  match c with
  | Str [d1; d2; s1; m1; m2; s2; y1; y2; y3; y4; sp; h1; h2; co; n1; n2] =>
      if (s1 =? 47) && (s2 =? 47) && (sp =? SPACE) && (co =? COLON) then
        match in_range 1678 2261 (number [y1; y2; y3; y4]),
              in_range 1 12 (number [m1; m2]),
              in_range 0 23 (number [h1; h2]), in_range 0 59 (number [n1; n2])
        with
        | Some y, Some m, Some h, Some n =>
            match in_range 1 (days_in_month y m) (number [d1; d2]) with
            | Some d =>
                Some {| year := y; month := m; day := d; hour := h;
                        minute := n |}
            | None => None
            end
        | _, _, _, _ => None
        end
      else None
  | _ => None
  end.

Definition digit_char (z : Z) : N := 48 + Z.to_N (z mod 10).

Definition two_digits (z : Z) : pystr := [digit_char (z / 10); digit_char z].

Definition four_digits (z : Z) : pystr :=
  two_digits (z / 100) ++ two_digits z.

(** [YYYY-MM-DD HH:MM:00] *)
Definition stamp_str (t : stamp) : pystr :=
  four_digits (year t) ++ [HYPHEN] ++ two_digits (month t) ++ [HYPHEN]
  ++ two_digits (day t) ++ [SPACE] ++ two_digits (hour t) ++ [COLON]
  ++ two_digits (minute t) ++ [COLON] ++ ustr "00".

#[global] Instance ascii_lib : PyLib := {|
  str_lower := lower;
  py_int := int;
  Datetime := stamp;
  to_datetime := map parse_stamp;
  dt_hour := hour;
  dt_str := stamp_str
|}.

End AsciiLib.

(* ================================================================== *)
(** ** Sample inputs *)
(* ================================================================== *)

Definition Txt (s : string) : cell := Str (ustr s).

(** A factor table in the layout the script expects: two unnamed label
    columns, the category written once per group, a "Final Score" row. *)
Definition sample_table : DataFrame :=
  {| columns := [ustr "Unnamed: 0"; ustr "Unnamed: 1";
                 ustr "0:00 - 1:00"; ustr "1:00 - 2:00 "; ustr "Notes"];
     rows :=
       [ [Txt "Ship Factors";  Txt "Speed";   Num (25 # 2); Num 13;        NaN];
         [NaN;               Txt " Draft";  Num 7;        NaN;           Txt "m"];
         [NaN;               NaN;         NaN;          NaN;           NaN];
         [Txt "Human Factors"; Txt "Fatigue"; Num (3 # 10); Num (4 # 10);  NaN];
         [Txt "Final Score";   NaN;         Num (82 # 100); Num (9 # 10); NaN] ] |}.

Definition sample_ais : DataFrame :=
  {| columns := [ustr "MMSI"; ustr " Timestamp"];
     rows :=
       [ [Num 563001; Txt "01/01/2024 00:45"];
         [Num 563001; Txt "01/01/2024 01:10"];
         [Num 563002; Txt "not a date"] ] |}.

Definition initial_world : world := {| stdout := []; output_file := None |}.

(* ================================================================== *)
(** ** Vocabulary of the properties *)
(* ================================================================== *)

(** The three dash glyphs the script folds together. *)
Definition is_dash (c : N) : bool :=
  (c =? HYPHEN) || (c =? EN_DASH) || (c =? EM_DASH).

(** [differ_only blank s t]: [s] and [t] are the same text up to which dash
    glyph stands at a dash position and up to characters accepted by [blank],
    which either side may have where the other has none. *)
Inductive differ_only (blank : N -> bool) : pystr -> pystr -> Prop :=
| differ_nil : differ_only blank [] []
| differ_same c s t :
    differ_only blank s t -> differ_only blank (c :: s) (c :: t)
| differ_dash c d s t :
    is_dash c = true -> is_dash d = true ->
    differ_only blank s t -> differ_only blank (c :: s) (d :: t)
| differ_blank_left c s t :
    blank c = true -> differ_only blank s t -> differ_only blank (c :: s) t
| differ_blank_right c s t :
    blank c = true -> differ_only blank s t -> differ_only blank s (c :: t).

(** Only U+0020. *)
Definition is_space (c : N) : bool := c =? SPACE.

(** What the four replacements of line 54 do to one character. *)
Definition fold_dash (c : N) : N :=
  if (c =? EN_DASH) || (c =? EM_DASH) then HYPHEN else c.

(** The position of the category column once the headers are named. *)
Definition category_index (df0 : DataFrame) : option nat :=
  index_of FACTOR_CATEGORY (columns (named_table df0)).

(** The value [factors_df] holds after line 29. *)
Definition factors_table (df0 : DataFrame) : DataFrame :=
  match category_index df0 with
  | Some k => ffill_dropna k (named_table df0)
  | None => named_table df0
  end.

(** The value [factors_long_df] holds after line 46: the reshaped factor
    data. *)
Definition reshaped (df0 : DataFrame) : list FactorRecord :=
  dropna_factor_value
    (melted (factors_table df0) (time_vars (factors_table df0))).

(** [w'] is [w] after some more printing; the output file is untouched. *)
Definition printed (w w' : world) : Prop :=
  output_file w' = output_file w /\ exists l, stdout w' = stdout w ++ l.

(** [hourly_record[key]] for the keys that hold a [dict]. *)
Definition bucket (key : pystr) (h : HourlyRecord) : option (dict cell) :=
  if str_eqb key K_EXTERNAL then Some (external_environment_factors h)
  else if str_eqb key K_HUMAN then Some (human_factors h)
  else if str_eqb key K_INTERNAL then Some (internal_environment_factors h)
  else if str_eqb key K_SHIP then Some (ship_factors h)
  else None.

(** The document holds, in the object of bucket [tr], under category [key],
    the member [name] with value [v]. *)
Definition doc_has_factor (doc : json) (tr key name : pystr) (v : cell) : Prop :=
  exists items item members,
    doc = JArray items /\ In item items /\
    json_member K_TIME_RANGE item = Some (JString tr) /\
    json_member key item = Some (JObject members) /\
    dict_get members name = Some (json_of_cell v).

Fixpoint distinct (l : list pystr) : bool :=
  match l with
  | [] => true
  | x :: l' => negb (str_in x l') && distinct l'
  end.

Definition rectangular (df : DataFrame) : bool :=
  forallb (fun r => Nat.eqb (List.length r) (List.length (columns df))) (rows df).

Section Vocabulary.

Context {lib : PyLib}.

(** The leading text of a label, up to its first colon, parses as an
    integer. *)
Definition hour_parses (t : pystr) : bool :=
  match py_int (first_field COLON t) with
  | Some _ => true
  | None => false
  end.

(** The key under which line 137 files a record. *)
Definition factor_name (r : FactorRecord) : pystr :=
  match fr_factor r with
  | Str s => strip s
  | _ => ustr "Unknown"
  end.

(** The canonical name of a record's category. *)
Definition canonical (r : FactorRecord) : pystr :=
  format_category_name (fr_category r).

(** Record [r] belongs to bucket [tr], category [key], factor [name]. *)
Definition lands_in (tr key name : pystr) (r : FactorRecord) : bool :=
  str_eqb (fr_time_range r) tr && str_eqb (canonical r) key
  && str_eqb (factor_name r) name.

(** What one pass of the inner loop does to the dictionary under [key]. *)
Definition file_record (key : pystr) (d : dict cell) (r : FactorRecord)
  : dict cell :=
  if str_eqb (canonical r) key
  then dict_set d (factor_name r) (fr_value r)
  else d.

(** [h] is the record the outer loop builds for its label: the events of
    the parsed hour, the score found under the normalized label, and in each
    dictionary the label's records filed in table order. *)
Definition built_from (long : list FactorRecord) (scores : dict cell)
    (ais_df : AisFrame) (h : HourlyRecord) : Prop :=
  exists start_hour,
    py_int (first_field COLON (time_range h)) = Some start_hour
    /\ ais_data h = ais_in_hour ais_df start_hour
    /\ final_score h = dict_get scores (normalize_time_range (time_range h))
    /\ forall key d,
         bucket key h = Some d ->
         d = fold_left (file_record key) (factors_in_hour long (time_range h)) [].

(** A record the inner loop can process: its factor name is text, and its
    category does not name one of the three entries of [hourly_record] that
    are not dictionaries. *)
Definition processable (r : FactorRecord) : bool :=
  is_str (fr_factor r)
  && negb (str_in (canonical r) [K_TIME_RANGE; K_AIS_DATA; K_FINAL_SCORE]).

(** A well-formed factor table: a rectangle under distinct headers, none of
    them the name [melt] gives its value column, with the two label columns,
    a category column of text, and only processable records. *)
Definition well_formed (df0 : DataFrame) : bool :=
  rectangular df0
  && distinct (columns (named_table df0))
  && negb (str_in (ustr "value") (columns (named_table df0)))
  && match category_index df0, index_of FACTOR (columns (named_table df0)) with
     | Some k, Some _ => has_str_accessor k (rows df0)
     | _, _ => false
     end
  && forallb processable (reshaped df0).

(** An event log the loader accepts: no file, or a table in which exactly
    one header is [Timestamp] once the blanks around it are gone. *)
Definition ais_loadable (ais : csv_source) : bool :=
  match ais with
  | NoFile => true
  | Unreadable => false
  | Table t => Nat.eqb (count_of TIMESTAMP (map strip (columns t))) 1
  end.

(** No row of the table has the category "final score", whatever its case
    and the blanks around it. *)
Definition no_final_score_row (df0 : DataFrame) : bool :=
  match category_index df0 with
  | Some k => forallb (fun r => negb (is_final_score (cell_at k r))) (rows df0)
  | None => true
  end.

End Vocabulary.

(** Two rows with the same category and factor name in one time column. *)
Definition duplicate_table : DataFrame :=
  {| columns := [ustr "Factor Category"; ustr "Factor"; ustr "0:00 - 1:00"];
     rows :=
       [ [Txt "Ship Factors"; Txt "Speed"; Num 1];
         [NaN;                Txt "Speed"; Num 2] ] |}.

(** The two records [duplicate_table] reshapes into, and the hourly record
    the run builds from them. *)
Definition speed_first : FactorRecord :=
  {| fr_category := Txt "Ship Factors"; fr_factor := Txt "Speed";
     fr_time_range := ustr "0:00 - 1:00"; fr_value := Num 1 |}.

Definition speed_last : FactorRecord :=
  {| fr_category := Txt "Ship Factors"; fr_factor := Txt "Speed";
     fr_time_range := ustr "0:00 - 1:00"; fr_value := Num 2 |}.

Definition duplicate_hour : HourlyRecord :=
  {| time_range := ustr "0:00 - 1:00";
     external_environment_factors := [];
     human_factors := [];
     internal_environment_factors := [];
     ship_factors := [(ustr "Speed", Num 2)];
     ais_data := [];
     final_score := None |}.

(** A "Final Score" row that carries a label in the factor column. *)
Definition labelled_score_table : DataFrame :=
  {| columns := [ustr "Factor Category"; ustr "Factor"; ustr "0:00 - 1:00"];
     rows :=
       [ [Txt "Ship Factors"; Txt "Speed"; Num (25 # 2)];
         [Txt "Final Score";  Txt "Total"; Num (82 # 100)] ] |}.

(** A table without a "Final Score" row. *)
Definition unscored_table : DataFrame :=
  {| columns := [ustr "Factor Category"; ustr "Factor";
                 ustr "10:00 - 11:00"; ustr "2:00 - 3:00"; ustr "x:00 - y:00"];
     rows :=
       [ [Txt "Ship Factors"; Txt "Speed"; Num 11; Num 12; Num 13];
         [Txt "Weather";      Txt "Wind";  Num 4;  NaN;    Num 5] ] |}.

Definition header_only_ais : DataFrame :=
  {| columns := [ustr "MMSI"; ustr "Timestamp"]; rows := [] |}.

(** An event log of one header line that does not name [Timestamp]. *)
Definition header_only_untimed_ais : DataFrame :=
  {| columns := [ustr "MMSI"; ustr "Time"]; rows := [] |}.

(** A table whose numbers are all whole: pandas reads its time column as
    int64. *)
Definition integer_score_table : DataFrame :=
  {| columns := [ustr "Factor Category"; ustr "Factor"; ustr "0:00 - 1:00"];
     rows :=
       [ [Txt "Ship Factors"; Txt "Speed"; Int 12];
         [Txt "Final Score";  NaN;         Int 1] ] |}.

(* ================================================================== *)
(** ** Further vocabulary: outcomes, scores, events *)
(* ================================================================== *)

(** A computation that may print but leaves the output file alone, whether
    it returns or raises. *)
Definition keeps_file {A} (m : M A) : Prop :=
  forall w, printed w (fst (m w)).

(** What the handlers of lines 167-171 print for an exception. *)
Definition error_lines (e : exn) : list message :=
  match e with
  | FileNotFoundError filename => [ErrRequiredFile; ErrMakeSure filename]
  | _ => [ErrUnexpected e]
  end.

(** What the script prints once the document is written (lines 155-165). *)
Definition closing_lines (out : list HourlyRecord) : list message :=
  Success output_filename (List.length out)
  :: match out with
     | [] => []
     | first_record :: _ => SampleHeader :: sample_lines first_record
     end.

(** The exception the factor table's headers make lines 26 and 38 raise, if
    any. *)
Definition label_error (df0 : DataFrame) : option exn :=
  match category_index df0 with
  | None => Some (KeyError FACTOR_CATEGORY)
  | Some _ =>
      if str_in VALUE (columns (named_table df0)) then Some ValueError
      else
        match index_of FACTOR (columns (named_table df0)) with
        | None => Some (KeyError FACTOR)
        | Some _ => None
        end
  end.

(** The exception an event log makes the loader raise past its own
    handler, if any. *)
Definition load_error (ais : csv_source) : option exn :=
  match ais with
  | NoFile => None
  | Unreadable => Some ReadError
  | Table t =>
      match index_of TIMESTAMP (map strip (columns t)) with
      | Some _ =>
          if Nat.ltb 1 (count_of TIMESTAMP (map strip (columns t)))
          then Some ValueError
          else None
      | None => Some (KeyError TIMESTAMP)
      end
  end.

(** One step of the loop of lines 63-67, for the score row [r]. *)
Definition score_step (df : DataFrame) (r : row) (m : dict cell) (col : pystr)
  : dict cell :=
  let score := column_cell df col r in
  if notna score then dict_set m (normalize_time_range col) score else m.

Section MoreVocabulary.

Context {lib : PyLib}.

(** The rows of an event table that keep a timestamp, as line 83 leaves
    them. *)
Definition loaded_events (t : DataFrame) : list (Datetime * row) :=
  match index_of TIMESTAMP (map strip (columns t)) with
  | Some k =>
      dropna_timestamp
        (combine (to_datetime (map (cell_at k) (rows t))) (rows t))
  | None => []
  end.

(** The row line 65 reads the scores from: the first "final score" row of
    the filled table. *)
Definition score_row (df0 : DataFrame) : option row :=
  match category_index df0 with
  | Some k =>
      hd_error (filter (fun r => is_final_score (cell_at k r))
                       (rows (factors_table df0)))
  | None => None
  end.

(** No score of the table is an element of an int64 column. *)
Definition no_int64_score (df0 : DataFrame) : bool :=
  match score_row df0 with
  | Some r =>
      forallb (fun col => negb (is_int (column_cell (factors_table df0) col r)))
              (time_vars (factors_table df0))
  | None => true
  end.

(** An event log that brings no event: no file, or a loadable table none of
    whose rows has a timestamp the parser accepts (a table without rows is
    one). *)
Definition without_events (ais : csv_source) : bool :=
  match ais with
  | NoFile => true
  | Unreadable => false
  | Table t =>
      ais_loadable ais
      && match loaded_events t with [] => true | _ :: _ => false end
  end.

End MoreVocabulary.

(** Two half-hour buckets that start in the same hour. *)
Definition half_hour_table : DataFrame :=
  {| columns := [ustr "Factor Category"; ustr "Factor";
                 ustr "1:00 - 1:30"; ustr "1:30 - 2:00"];
     rows := [ [Txt "Ship Factors"; Txt "Speed"; Num 9; Num 10] ] |}.

(** Two headers that normalize to the same key, each with a score. *)
Definition colliding_table : DataFrame :=
  {| columns := [ustr "Factor Category"; ustr "Factor";
                 ustr "0:00 - 1:00"; ustr "0:00-1:00"];
     rows :=
       [ [Txt "Ship Factors"; Txt "Speed"; Num 9; Num 10];
         [Txt "Final Score";  NaN;         Num (5 # 10); Num (9 # 10)] ] |}.

(** A table without the factor column, one without any time column. *)
Definition no_factor_table : DataFrame :=
  {| columns := [ustr "Factor Category"; ustr "0:00 - 1:00"];
     rows := [ [Txt "Ship Factors"; Num 9] ] |}.

Definition no_time_table : DataFrame :=
  {| columns := [ustr "Factor Category"; ustr "Factor"; ustr "Notes"];
     rows := [ [Txt "Ship Factors"; Txt "Speed"; Txt "knots"] ] |}.

(** The sample table as it looks with its headers already named, blanks
    around them. *)
Definition sample_table_named : DataFrame :=
  {| columns := [ustr " Factor Category"; ustr "Factor  ";
                 ustr " 0:00 - 1:00"; ustr "1:00 - 2:00"; ustr "Notes "];
     rows := rows sample_table |}.

(** An event log without the [Timestamp] column. *)
Definition untimed_ais : DataFrame :=
  {| columns := [ustr "MMSI"; ustr "Time"];
     rows := [ [Num 563001; Txt "01/01/2024 00:45"] ] |}.

(* ================================================================== *)
(** ** Strings: equality, stripping, order *)
(* ================================================================== *)

Lemma str_eqb_eq (s t : pystr) : str_eqb s t = true <-> s = t.
Proof.
  revert t; induction s as [|c s IH]; intros [|d t]; simpl;
    try (split; congruence).
  rewrite andb_true_iff, N.eqb_eq, IH. split.
  - intros [-> ->]; reflexivity.
  - intros E; injection E; auto.
Qed.

Lemma str_eqb_refl (s : pystr) : str_eqb s s = true.
Proof. apply str_eqb_eq; reflexivity. Qed.

Lemma str_eqb_neq (s t : pystr) : str_eqb s t = false <-> s <> t.
Proof.
  rewrite <- str_eqb_eq. destruct (str_eqb s t); split; congruence.
Qed.

Lemma str_eqb_sym (s t : pystr) : str_eqb s t = str_eqb t s.
Proof.
  destruct (str_eqb s t) eqn:E.
  - apply str_eqb_eq in E; subst; symmetry; apply str_eqb_refl.
  - symmetry; apply str_eqb_neq; apply str_eqb_neq in E; congruence.
Qed.

Lemma str_in_In (x : pystr) (l : list pystr) : str_in x l = true <-> In x l.
Proof.
  unfold str_in; rewrite existsb_exists; split.
  - intros (y & Hy & E); apply str_eqb_eq in E; subst; assumption.
  - intros H; exists x; split; [assumption | apply str_eqb_refl].
Qed.

Lemma str_in_not_In (x : pystr) (l : list pystr) :
  str_in x l = false <-> ~ In x l.
Proof.
  rewrite <- str_in_In. destruct (str_in x l); split; congruence.
Qed.

Lemma lstrip_idem (s : pystr) : lstrip (lstrip s) = lstrip s.
Proof.
  induction s as [|c s IH]; simpl; [reflexivity|].
  destruct (is_whitespace c) eqn:E; [assumption|]. simpl; rewrite E; reflexivity.
Qed.

Lemma lstrip_app_solid (a b : pystr) (c : N) :
  is_whitespace c = false -> lstrip (a ++ c :: b) = lstrip a ++ c :: b.
Proof.
  intros Hc; induction a as [|x a IH]; simpl.
  - rewrite Hc; reflexivity.
  - destruct (is_whitespace x); [assumption | reflexivity].
Qed.

Lemma rstrip_cons_solid (c : N) (s : pystr) :
  is_whitespace c = false -> rstrip (c :: s) = c :: rstrip s.
Proof.
  intros Hc; unfold rstrip; simpl.
  rewrite lstrip_app_solid by assumption.
  rewrite rev_app_distr; reflexivity.
Qed.

Lemma rstrip_idem (s : pystr) : rstrip (rstrip s) = rstrip s.
Proof.
  unfold rstrip; rewrite rev_involutive, lstrip_idem; reflexivity.
Qed.

Lemma lstrip_head (s : pystr) :
  lstrip s = [] \/ exists c s', lstrip s = c :: s' /\ is_whitespace c = false.
Proof.
  induction s as [|c s IH]; simpl; [left; reflexivity|].
  destruct (is_whitespace c) eqn:E; [assumption|].
  right; exists c, s; split; [reflexivity | assumption].
Qed.

(** [strip] leaves a stripped string alone. *)
Lemma strip_idem (s : pystr) : strip (strip s) = strip s.
Proof.
  unfold strip. destruct (lstrip_head s) as [E | (c & s' & E & Hc)]; rewrite E.
  - reflexivity.
  - rewrite rstrip_cons_solid by assumption. simpl; rewrite Hc.
    rewrite <- rstrip_cons_solid by assumption. apply rstrip_idem.
Qed.

Lemma lstrip_Forall (P : N -> Prop) (s : pystr) :
  Forall P s -> Forall P (lstrip s).
Proof.
  induction 1 as [|c s Hc Hs IH]; simpl; [constructor|].
  destruct (is_whitespace c); [assumption | constructor; assumption].
Qed.

Lemma strip_Forall (P : N -> Prop) (s : pystr) :
  Forall P s -> Forall P (strip s).
Proof.
  intros H; unfold strip, rstrip.
  apply Forall_rev, lstrip_Forall, Forall_rev, lstrip_Forall, H.
Qed.

Lemma replace_char_absent (a b : N) (s : pystr) :
  Forall (fun c => c <> a) s -> replace_char a b s = s.
Proof.
  induction 1 as [|c s Hc Hs IH]; simpl; [reflexivity|].
  apply N.eqb_neq in Hc; rewrite Hc. f_equal; exact IH.
Qed.

Lemma remove_char_absent (a : N) (s : pystr) :
  Forall (fun c => c <> a) s -> remove_char a s = s.
Proof.
  induction 1 as [|c s Hc Hs IH]; simpl; [reflexivity|].
  apply N.eqb_neq in Hc; rewrite Hc; simpl. f_equal; exact IH.
Qed.

Lemma replace_dashes (s : pystr) :
  replace_char EM_DASH HYPHEN
    (replace_char EN_DASH HYPHEN
       (replace_char EM_DASH HYPHEN (replace_char EN_DASH HYPHEN s)))
  = map fold_dash s.
Proof.
  unfold replace_char; rewrite !map_map. apply map_ext; intros c.
  unfold fold_dash.
  destruct (c =? EN_DASH) eqn:E1; [reflexivity|].
  destruct (c =? EM_DASH) eqn:E2; simpl; [reflexivity|].
  rewrite E1, E2; reflexivity.
Qed.

Lemma normalize_time_range_eq (s : pystr) :
  normalize_time_range s = strip (remove_char SPACE (map fold_dash s)).
Proof. unfold normalize_time_range; rewrite replace_dashes; reflexivity. Qed.

Lemma fold_dash_clean (c : N) :
  fold_dash c <> EN_DASH /\ fold_dash c <> EM_DASH.
Proof.
  unfold fold_dash.
  destruct (c =? EN_DASH) eqn:E1; simpl; [split; discriminate|].
  destruct (c =? EM_DASH) eqn:E2; simpl; [split; discriminate|].
  apply N.eqb_neq in E1, E2; split; assumption.
Qed.

Lemma fold_dash_absent (s : pystr) :
  Forall (fun c => c <> EN_DASH /\ c <> EM_DASH) s -> map fold_dash s = s.
Proof.
  induction 1 as [|c s [H1 H2] Hs IH]; simpl; [reflexivity|].
  unfold fold_dash at 1. apply N.eqb_neq in H1, H2; rewrite H1, H2; simpl.
  f_equal; exact IH.
Qed.

(** A normalized key holds no en dash, no em dash and no space. *)
Lemma normalize_time_range_clean (s : pystr) :
  Forall (fun c => c <> EN_DASH /\ c <> EM_DASH /\ c <> SPACE)
         (normalize_time_range s).
Proof.
  rewrite normalize_time_range_eq. apply strip_Forall.
  apply Forall_forall; intros c Hc.
  apply filter_In in Hc; destruct Hc as [Hc Hs].
  apply in_map_iff in Hc; destruct Hc as (d & <- & _).
  destruct (fold_dash_clean d) as [H1 H2].
  repeat split; try assumption.
  apply negb_true_iff, N.eqb_neq in Hs; assumption.
Qed.

Lemma fold_dash_is_dash (c : N) : is_dash c = true -> fold_dash c = HYPHEN.
Proof.
  unfold is_dash, fold_dash; intros H.
  destruct (c =? EN_DASH); [reflexivity|].
  destruct (c =? EM_DASH); [reflexivity|]. simpl.
  rewrite !orb_false_r in H; apply N.eqb_eq in H; assumption.
Qed.

Lemma differ_only_spaces_squeeze (s t : pystr) :
  differ_only is_space s t ->
  remove_char SPACE (map fold_dash s) = remove_char SPACE (map fold_dash t).
Proof.
  induction 1 as [| c s t _ IH | c d s t Hc Hd _ IH
                  | c s t Hc _ IH | c s t Hc _ IH]; simpl.
  - reflexivity.
  - rewrite IH; reflexivity.
  - rewrite (fold_dash_is_dash _ Hc), (fold_dash_is_dash _ Hd), IH; reflexivity.
  - apply N.eqb_eq in Hc; subst c; simpl; assumption.
  - apply N.eqb_eq in Hc; subst c; simpl; assumption.
Qed.

(** C3, as the code has it: [normalize_time_range] is idempotent, and two
    labels that differ only in which dash glyph (hyphen, en dash, em dash)
    they use or in space characters (U+0020) get the same key. *)
Theorem normalize_time_range_idempotent_and_space_dash_blind :
  (forall s, normalize_time_range (normalize_time_range s)
             = normalize_time_range s)
  /\ (forall s t, differ_only is_space s t ->
                  normalize_time_range s = normalize_time_range t).
Proof.
  split.
  - intros s. pose proof (normalize_time_range_clean s) as H.
    rewrite (normalize_time_range_eq (normalize_time_range s)).
    rewrite fold_dash_absent by
      (eapply Forall_impl; [|exact H]; simpl; tauto).
    rewrite remove_char_absent by
      (eapply Forall_impl; [|exact H]; simpl; tauto).
    rewrite normalize_time_range_eq; apply strip_idem.
  - intros s t H. rewrite !normalize_time_range_eq.
    rewrite (differ_only_spaces_squeeze H); reflexivity.
Qed.

(** C3 as written fails on whitespace other than U+0020: a tab inside a
    label survives normalization, so two labels that differ only by an
    internal tab get different keys. *)
Lemma normalize_time_range_keeps_inner_tab :
  differ_only is_whitespace
    (ustr "0:00" ++ [TAB] ++ ustr "-1:00") (ustr "0:00-1:00")
  /\ normalize_time_range (ustr "0:00" ++ [TAB] ++ ustr "-1:00")
     <> normalize_time_range (ustr "0:00-1:00").
Proof.
  split.
  - do 4 apply differ_same. apply differ_blank_left; [reflexivity|].
    do 5 apply differ_same. apply differ_nil.
  - vm_compute; discriminate.
Qed.

(** C6: when the factor table is missing the script prints its two error
    lines, the second naming [4-21-day-result.csv], and returns; the output
    file is left as it was, and nothing else is printed. *)
Theorem missing_factor_table_writes_nothing
    (lib : PyLib) (ais : csv_source) (w : world) :
  create_consolidated_json NoFile ais w
  = ({| stdout := (stdout w ++ [ErrRequiredFile]) ++ [ErrMakeSure FACTORS_CSV];
        output_file := output_file w |}, Return tt).
Proof. reflexivity. Qed.

(** A label written with an en dash between spaces and the same label
    written tight with a hyphen share their key. *)
Lemma en_dash_label_key :
  normalize_time_range (ustr "0:00 " ++ [EN_DASH] ++ ustr " 1:00")
  = normalize_time_range (ustr "0:00-1:00").
Proof.
  apply (proj2 normalize_time_range_idempotent_and_space_dash_blind).
  do 4 apply differ_same. apply differ_blank_left; [reflexivity|].
  apply differ_dash; [reflexivity | reflexivity |].
  apply differ_blank_left; [reflexivity|].
  do 4 apply differ_same. apply differ_nil.
Defined.

(* ------------------------------------------------------------------ *)
(** *** The order of [sorted] *)

Lemma str_compare_eq (s t : pystr) : str_compare s t = Eq <-> s = t.
Proof.
  revert t; induction s as [|c s IH]; intros [|d t]; simpl;
    try (split; congruence).
  destruct (c ?= d) eqn:E.
  - apply N.compare_eq_iff in E; subst d. rewrite IH.
    split; [intros ->; reflexivity | intros H; injection H; auto].
  - split; [discriminate|]. intros H; injection H; intros _ ->.
    rewrite N.compare_refl in E; discriminate.
  - split; [discriminate|]. intros H; injection H; intros _ ->.
    rewrite N.compare_refl in E; discriminate.
Qed.

Lemma str_compare_antisym (s t : pystr) :
  str_compare t s = CompOpp (str_compare s t).
Proof.
  revert t; induction s as [|c s IH]; intros [|d t]; simpl; try reflexivity.
  rewrite (N.compare_antisym c d). destruct (c ?= d); simpl; auto.
Qed.

Lemma str_lt_trans (s t u : pystr) : str_lt s t -> str_lt t u -> str_lt s u.
Proof.
  unfold str_lt; revert t u; induction s as [|c s IH]; intros [|d t] [|e u];
    simpl; try congruence.
  destruct (c ?= d) eqn:E1; try discriminate;
    destruct (d ?= e) eqn:E2; try discriminate; intros H1 H2.
  - apply N.compare_eq_iff in E1, E2; subst; rewrite N.compare_refl.
    eapply IH; eassumption.
  - apply N.compare_eq_iff in E1; subst; rewrite E2; reflexivity.
  - apply N.compare_eq_iff in E2; subst; rewrite E1; reflexivity.
  - rewrite N.compare_lt_iff in E1, E2.
    replace (c ?= e) with Lt; [reflexivity|].
    symmetry; apply N.compare_lt_iff; lia.
Qed.

Lemma str_lt_irrefl (s : pystr) : ~ str_lt s s.
Proof.
  unfold str_lt; intros H.
  rewrite (proj2 (str_compare_eq s s) eq_refl) in H; discriminate.
Qed.

Lemma str_leb_le (s t : pystr) : str_leb s t = true <-> str_le s t.
Proof.
  unfold str_leb, str_le, str_lt. destruct (str_compare s t) eqn:E.
  - apply str_compare_eq in E; tauto.
  - tauto.
  - split; [discriminate|]. intros [-> | H]; [|discriminate].
    rewrite (proj2 (str_compare_eq t t) eq_refl) in E; discriminate.
Qed.

Lemma str_leb_total (s t : pystr) : str_leb s t = false -> str_lt t s.
Proof.
  unfold str_leb, str_lt; rewrite (str_compare_antisym s t).
  destruct (str_compare s t); simpl; congruence.
Qed.

Lemma str_le_trans (s t u : pystr) : str_le s t -> str_le t u -> str_le s u.
Proof.
  intros [-> | H1] [-> | H2]; unfold str_le; auto.
  right; eapply str_lt_trans; eassumption.
Qed.

Lemma insert_sorted_In (x z : pystr) (l : list pystr) :
  In z (insert_sorted x l) <-> z = x \/ In z l.
Proof.
  induction l as [|y l IH]; simpl; [intuition|].
  destruct (str_leb y x); simpl; rewrite ?IH; intuition.
Qed.

Lemma insert_sorted_Permutation (x : pystr) (l : list pystr) :
  Permutation (x :: l) (insert_sorted x l).
Proof.
  induction l as [|y l IH]; simpl; [reflexivity|].
  destruct (str_leb y x); [|reflexivity].
  rewrite perm_swap; apply perm_skip; assumption.
Qed.

Lemma insert_sorted_sorted (x : pystr) (l : list pystr) :
  StronglySorted str_le l -> StronglySorted str_le (insert_sorted x l).
Proof.
  induction 1 as [|y l Hl IH Hy]; simpl.
  - repeat constructor.
  - destruct (str_leb y x) eqn:E.
    + constructor; [assumption|]. apply Forall_forall; intros z Hz.
      apply insert_sorted_In in Hz; destruct Hz as [-> | Hz].
      * apply str_leb_le; assumption.
      * rewrite Forall_forall in Hy; auto.
    + apply str_leb_total in E.
      constructor; [constructor; assumption|].
      constructor; [right; assumption|].
      eapply Forall_impl; [|exact Hy].
      intros z Hz; eapply str_le_trans; [right; eassumption | assumption].
Qed.

Lemma sorted_acc (l acc : list pystr) :
  StronglySorted str_le acc ->
  StronglySorted str_le (fold_left (fun a x => insert_sorted x a) l acc)
  /\ Permutation (l ++ acc) (fold_left (fun a x => insert_sorted x a) l acc).
Proof.
  revert acc; induction l as [|x l IH]; intros acc Hacc; simpl.
  - split; [assumption | reflexivity].
  - destruct (IH (insert_sorted x acc) (insert_sorted_sorted x Hacc)) as [H1 H2].
    split; [assumption|]. rewrite <- H2.
    rewrite <- (insert_sorted_Permutation x acc).
    apply Permutation_middle.
Qed.

Lemma sorted_Permutation (l : list pystr) : Permutation l (sorted l).
Proof.
  destruct (@sorted_acc l [] (SSorted_nil _)) as [_ H].
  rewrite app_nil_r in H; exact H.
Qed.

Lemma sorted_sorted (l : list pystr) : StronglySorted str_le (sorted l).
Proof. apply (@sorted_acc l [] (SSorted_nil _)). Qed.

Lemma StronglySorted_strict (l : list pystr) :
  StronglySorted str_le l -> NoDup l -> StronglySorted str_lt l.
Proof.
  induction 1 as [|x l Hl IH Hx]; intros Hnd; [constructor|].
  inversion Hnd as [|? ? Hnotin Hnd']; subst.
  constructor; [auto|]. apply Forall_forall; intros z Hz.
  rewrite Forall_forall in Hx. destruct (Hx z Hz) as [-> | H]; tauto.
Qed.

Lemma StronglySorted_filter (R : pystr -> pystr -> Prop) (f : pystr -> bool)
    (l : list pystr) :
  StronglySorted R l -> StronglySorted R (filter f l).
Proof.
  induction 1 as [|x l Hl IH Hx]; simpl; [constructor|].
  destruct (f x); [|assumption]. constructor; [assumption|].
  apply Forall_forall; intros z Hz. apply filter_In in Hz.
  rewrite Forall_forall in Hx; apply Hx, Hz.
Qed.

Lemma StronglySorted_lt_NoDup (l : list pystr) :
  StronglySorted str_lt l -> NoDup l.
Proof.
  induction 1 as [|x l Hl IH Hx]; constructor; [|assumption].
  intros Hin. rewrite Forall_forall in Hx.
  exact (str_lt_irrefl (Hx x Hin)).
Qed.

Lemma unique_from_spec (seen l : list pystr) :
  NoDup (unique_from seen l)
  /\ forall x, In x (unique_from seen l) <-> In x l /\ ~ In x seen.
Proof.
  revert seen; induction l as [|y l IH]; intros seen; simpl.
  - split; [constructor | intuition].
  - destruct (str_in y seen) eqn:E.
    + apply str_in_In in E. destruct (IH seen) as [H1 H2].
      split; [assumption|]. intros x; rewrite H2.
      split; [tauto|]. intros [[-> | H] Hn]; tauto.
    + apply str_in_not_In in E. destruct (IH (y :: seen)) as [H1 H2].
      split.
      * constructor; [|assumption]. rewrite H2; simpl; tauto.
      * intros x; simpl; rewrite H2; simpl.
        split.
        -- intros [<- | [H Hn]]; tauto.
        -- intros [[<- | H] Hn]; [tauto|].
           destruct (str_eqb y x) eqn:Eyx.
           ++ apply str_eqb_eq in Eyx; tauto.
           ++ apply str_eqb_neq in Eyx; tauto.
Qed.

Lemma unique_NoDup (l : list pystr) : NoDup (unique l).
Proof. apply unique_from_spec. Qed.

Lemma unique_In (l : list pystr) (x : pystr) : In x (unique l) <-> In x l.
Proof.
  unfold unique; rewrite (proj2 (unique_from_spec [] l)); simpl; tauto.
Qed.

(** Line 94 yields the distinct labels of the long table in strictly
    increasing code-point order. *)
Lemma unique_time_ranges_spec (long : list FactorRecord) :
  StronglySorted str_lt (unique_time_ranges long)
  /\ forall t, In t (unique_time_ranges long)
               <-> exists r, In r long /\ fr_time_range r = t.
Proof.
  unfold unique_time_ranges; split.
  - apply StronglySorted_strict; [apply sorted_sorted|].
    eapply Permutation_NoDup; [apply sorted_Permutation | apply unique_NoDup].
  - intros t. rewrite <- (Permutation_in' eq_refl (sorted_Permutation _)).
    rewrite unique_In, in_map_iff. split; intros (r & H1 & H2); eauto.
Qed.

(* ================================================================== *)
(** ** Dictionaries *)
(* ================================================================== *)

Lemma dict_get_set {V} (d : dict V) (k k' : pystr) (v : V) :
  dict_get (dict_set d k v) k'
  = if str_eqb k' k then Some v else dict_get d k'.
Proof.
  induction d as [|[k0 v0] d IH]; simpl.
  - reflexivity.
  - destruct (str_eqb k k0) eqn:E; simpl.
    + apply str_eqb_eq in E; subst k0.
      destruct (str_eqb k' k); reflexivity.
    + rewrite IH. destruct (str_eqb k' k0) eqn:E0; [|reflexivity].
      apply str_eqb_eq in E0; subst k0.
      rewrite str_eqb_sym, E; reflexivity.
Qed.

Lemma dict_set_keys_In {V} (d : dict V) (k x : pystr) (v : V) :
  In x (dict_keys (dict_set d k v)) <-> x = k \/ In x (dict_keys d).
Proof.
  unfold dict_keys; induction d as [|[k0 v0] d IH]; simpl.
  - intuition.
  - destruct (str_eqb k k0) eqn:E; simpl.
    + apply str_eqb_eq in E; subst k0. intuition.
    + rewrite IH; intuition.
Qed.

Lemma dict_set_NoDup {V} (d : dict V) (k : pystr) (v : V) :
  NoDup (dict_keys d) -> NoDup (dict_keys (dict_set d k v)).
Proof.
  unfold dict_keys; induction d as [|[k0 v0] d IH]; simpl; intros H.
  - repeat constructor; auto.
  - inversion H as [|? ? Hn Hd]; subst.
    destruct (str_eqb k k0) eqn:E; simpl.
    + constructor; assumption.
    + constructor; [|auto]. intros Hin.
      apply (dict_set_keys_In d k k0 v) in Hin. destruct Hin as [-> | Hin].
      * rewrite str_eqb_refl in E; discriminate.
      * exact (Hn Hin).
Qed.

(** In a dictionary a key's only entry is the one [dict_get] finds. *)
Lemma dict_get_In {V} (d : dict V) (k : pystr) (v : V) :
  NoDup (dict_keys d) -> In (k, v) d -> dict_get d k = Some v.
Proof.
  unfold dict_keys; induction d as [|[k0 v0] d IH]; simpl; intros Hnd Hin.
  - contradiction.
  - inversion Hnd as [|? ? Hn Hd]; subst. destruct Hin as [E | Hin].
    + injection E; intros -> ->. rewrite str_eqb_refl; reflexivity.
    + destruct (str_eqb k k0) eqn:E; [|auto].
      apply str_eqb_eq in E; subst k0. exfalso; apply Hn.
      apply in_map_iff; exists (k, v); auto.
Qed.

Lemma json_of_dict_get (d : dict cell) (k : pystr) :
  dict_get (map (fun kv => (fst kv, json_of_cell (snd kv))) d) k
  = option_map json_of_cell (dict_get d k).
Proof.
  induction d as [|[k0 v0] d IH]; simpl; [reflexivity|].
  destruct (str_eqb k k0); [reflexivity | assumption].
Qed.

(* ================================================================== *)
(** ** Running the monad *)
(* ================================================================== *)

Lemma bind_Return {A B} (m : M A) (f : A -> M B) (w w' : world) (b : B) :
  bind m f w = (w', Return b) ->
  exists a w1, m w = (w1, Return a) /\ f a w1 = (w', Return b).
Proof.
  unfold bind; destruct (m w) as [w1 [a | e]]; intros H.
  - exists a, w1; auto.
  - discriminate.
Qed.

Lemma bind_run {A B} (m : M A) (f : A -> M B) (w w1 : world) (a : A) :
  m w = (w1, Return a) -> bind m f w = f a w1.
Proof. unfold bind; intros ->; reflexivity. Qed.

Lemma printed_refl (w : world) : printed w w.
Proof. split; [reflexivity | exists []; symmetry; apply app_nil_r]. Qed.

Lemma printed_trans (w1 w2 w3 : world) :
  printed w1 w2 -> printed w2 w3 -> printed w1 w3.
Proof.
  intros [H1 [l1 E1]] [H2 [l2 E2]]; split; [congruence|].
  exists (l1 ++ l2); rewrite E2, E1, app_assoc; reflexivity.
Qed.

Lemma printed_print (m : message) (w : world) : printed w (fst (print m w)).
Proof. split; [reflexivity | exists [m]; reflexivity]. Qed.

Lemma printed_In (w w' : world) (m : message) :
  printed w w' -> In m (stdout w) -> In m (stdout w').
Proof. intros [_ [l E]] H; rewrite E; apply in_or_app; auto. Qed.

(* ================================================================== *)
(** ** The inner loop: filing factor records *)
(* ================================================================== *)

Lemma record_keys_split (c : pystr) :
  str_in c record_keys
  = str_in c bucket_keys || str_in c [K_TIME_RANGE; K_AIS_DATA; K_FINAL_SCORE].
Proof.
  unfold str_in, record_keys, bucket_keys; simpl.
  repeat match goal with |- context [str_eqb c ?K] =>
    destruct (str_eqb c K); simpl; try reflexivity end.
Qed.

Lemma bucket_Some (key : pystr) (h : HourlyRecord) :
  str_in key bucket_keys = true <-> exists d, bucket key h = Some d.
Proof.
  unfold str_in, bucket_keys, bucket; simpl.
  repeat match goal with |- context [str_eqb key ?K] =>
    destruct (str_eqb key K); simpl end;
  split; intros H; try reflexivity; try discriminate; eauto.
  destruct H; discriminate.
Qed.

Ltac two_keys :=
  match goal with
  | H1 : str_eqb ?k ?A = true, H2 : str_eqb ?k ?B = true |- _ =>
      apply str_eqb_eq in H1; subst k; vm_compute in H2; discriminate
  end.

Ltac split_on_key key :=
  repeat match goal with |- context [str_eqb key ?K] =>
    destruct (str_eqb key K) eqn:? end;
  simpl; try reflexivity; try two_keys.

Section Filing.

Context {lib : PyLib}.

Lemma assign_factor_Return (h h' : HourlyRecord) (category factor : pystr)
    (value : cell) (w w' : world) :
  assign_factor h category factor value w = (w', Return h') ->
  w' = w
  /\ str_in category bucket_keys = true
  /\ time_range h' = time_range h /\ ais_data h' = ais_data h
  /\ final_score h' = final_score h
  /\ forall key,
       bucket key h'
       = option_map (fun d => if str_eqb category key
                              then dict_set d factor value else d)
                    (bucket key h).
Proof.
  unfold assign_factor, ret, raise.
  destruct (str_eqb category K_EXTERNAL) eqn:E1;
    [|destruct (str_eqb category K_HUMAN) eqn:E2;
      [|destruct (str_eqb category K_INTERNAL) eqn:E3;
        [|destruct (str_eqb category K_SHIP) eqn:E4]]];
    intros H; try discriminate; injection H; intros <- <-;
    (split; [reflexivity|]);
    (split; [unfold str_in, bucket_keys; simpl;
             rewrite ?E1, ?E2, ?E3, ?E4; reflexivity|]);
    do 3 (split; [reflexivity|]);
    intros key; unfold bucket; simpl;
    match goal with
    | E : str_eqb category _ = true |- _ => apply str_eqb_eq in E; subst category
    end;
    match goal with
    | |- context [str_eqb ?K key] => rewrite (str_eqb_sym K key)
    end;
    split_on_key key.
Qed.

Lemma add_factor_Return (h h' : HourlyRecord) (r : FactorRecord)
    (w w' : world) :
  add_factor h r w = (w', Return h') ->
  time_range h' = time_range h /\ ais_data h' = ais_data h
  /\ final_score h' = final_score h
  /\ (forall key,
        bucket key h' = option_map (fun d => file_record key d r) (bucket key h))
  /\ printed w w'.
Proof.
  unfold add_factor; intros H.
  apply bind_Return in H; destruct H as (factor & w1 & Hf & H).
  assert (factor = factor_name r /\ w1 = w) as [-> ->].
  { unfold factor_name; destruct (fr_factor r); unfold ret, raise in Hf;
      inversion Hf; auto. }
  clear Hf.
  destruct (str_in (format_category_name (fr_category r)) record_keys) eqn:Hin.
  - apply assign_factor_Return in H.
    destruct H as (-> & _ & H1 & H2 & H3 & H4).
    do 3 (split; [assumption|]). split; [exact H4 | apply printed_refl].
  - apply bind_Return in H; destruct H as ([] & w2 & Hp & H).
    unfold ret in H; injection H; intros <- <-.
    do 3 (split; [reflexivity|]). split.
    + intros key. destruct (bucket key h) as [d|] eqn:Hb; [|reflexivity].
      simpl; unfold file_record, canonical.
      destruct (str_eqb (format_category_name (fr_category r)) key) eqn:E;
        [|reflexivity].
      apply str_eqb_eq in E; subst key.
      rewrite record_keys_split in Hin; apply orb_false_iff in Hin.
      destruct Hin as [Hin _].
      assert (Hs : str_in (format_category_name (fr_category r)) bucket_keys
                   = true) by (apply (bucket_Some _ h); eauto).
      congruence.
    + replace w2 with (fst (print (WarnUnknownCategory
                 (format_category_name (fr_category r))) w))
        by (rewrite Hp; reflexivity).
      apply printed_print.
Qed.

Lemma add_factors_Return (rs : list FactorRecord) (h h' : HourlyRecord)
    (w w' : world) :
  add_factors h rs w = (w', Return h') ->
  time_range h' = time_range h /\ ais_data h' = ais_data h
  /\ final_score h' = final_score h
  /\ (forall key,
        bucket key h'
        = option_map (fun d => fold_left (file_record key) rs d) (bucket key h))
  /\ printed w w'.
Proof.
  revert h w; induction rs as [|r rs IH]; intros h w H; simpl in H.
  - unfold ret in H; injection H; intros <- <-.
    do 3 (split; [reflexivity|]). split; [|apply printed_refl].
    intros key; destruct (bucket key h); reflexivity.
  - apply bind_Return in H; destruct H as (h1 & w1 & H1 & H).
    apply add_factor_Return in H1; destruct H1 as (A1 & A2 & A3 & A4 & A5).
    apply IH in H; destruct H as (B1 & B2 & B3 & B4 & B5).
    do 3 (split; [congruence|]). split; [|eapply printed_trans; eassumption].
    intros key; rewrite B4, A4. destruct (bucket key h); reflexivity.
Qed.

(** A processable record never makes the inner loop raise. *)
Lemma add_factor_total (h : HourlyRecord) (r : FactorRecord) (w : world) :
  processable r = true -> exists w' h', add_factor h r w = (w', Return h').
Proof.
  unfold processable, canonical; intros H.
  apply andb_true_iff in H; destruct H as [Hs Hk]; apply negb_true_iff in Hk.
  unfold add_factor. destruct (fr_factor r) as [|s|q|z]; try discriminate.
  unfold bind at 1, ret at 1.
  rewrite record_keys_split, Hk, orb_false_r.
  destruct (str_in (format_category_name (fr_category r)) bucket_keys) eqn:Hb.
  - unfold assign_factor. unfold str_in, bucket_keys in Hb; simpl in Hb.
    destruct (str_eqb _ K_EXTERNAL); [unfold ret; eauto|].
    destruct (str_eqb _ K_HUMAN); [unfold ret; eauto|].
    destruct (str_eqb _ K_INTERNAL); [unfold ret; eauto|].
    destruct (str_eqb _ K_SHIP); [unfold ret; eauto|]. discriminate.
  - unfold bind, print, ret; eauto.
Qed.

Lemma add_factors_total (rs : list FactorRecord) (h : HourlyRecord) (w : world) :
  forallb processable rs = true ->
  exists w' h', add_factors h rs w = (w', Return h').
Proof.
  revert h w; induction rs as [|r rs IH]; intros h w H; simpl in *.
  - unfold ret; eauto.
  - apply andb_true_iff in H; destruct H as [Hr Hrs].
    destruct (add_factor_total h r w Hr) as (w1 & h1 & E).
    erewrite bind_run by exact E. apply IH; assumption.
Qed.

End Filing.

(* ================================================================== *)
(** ** The outer loop and the stages before it *)
(* ================================================================== *)

Section Aggregation.

Context {lib : PyLib}.

Lemma hourly_record_Return (long : list FactorRecord) (scores : dict cell)
    (ais_df : AisFrame) (tr : pystr) (start_hour : Z) (h : HourlyRecord)
    (w w' : world) :
  hourly_record long scores ais_df tr start_hour w = (w', Return h) ->
  time_range h = tr
  /\ ais_data h = ais_in_hour ais_df start_hour
  /\ final_score h = dict_get scores (normalize_time_range tr)
  /\ (forall key d,
        bucket key h = Some d ->
        d = fold_left (file_record key) (factors_in_hour long tr) [])
  /\ printed w w'.
Proof.
  unfold hourly_record; intros H. apply add_factors_Return in H.
  destruct H as (H1 & H2 & H3 & H4 & H5); simpl in *.
  do 3 (split; [assumption|]). split; [|assumption].
  intros key d Hd. rewrite H4 in Hd. unfold bucket in Hd; simpl in Hd.
  repeat match type of Hd with context [str_eqb key ?K] =>
    destruct (str_eqb key K) end;
  simpl in Hd; congruence.
Qed.

Lemma for_time_ranges_Return (long : list FactorRecord) (scores : dict cell)
    (ais_df : AisFrame) (trs : list pystr) (acc out : list HourlyRecord)
    (w w' : world) :
  for_time_ranges long scores ais_df trs acc w = (w', Return out) ->
  exists new,
    out = acc ++ new
    /\ map time_range new = filter hour_parses trs
    /\ Forall (built_from long scores ais_df) new
    /\ printed w w'.
Proof.
  revert acc w; induction trs as [|tr trs IH]; intros acc w H; simpl in H.
  - unfold ret in H; injection H; intros <- <-. exists []; simpl.
    rewrite app_nil_r; repeat split; try constructor. exists []; symmetry; apply app_nil_r.
  - destruct (py_int (first_field COLON tr)) as [start_hour|] eqn:Eh.
    + apply bind_Return in H; destruct H as (h & w1 & Hh & H).
      apply hourly_record_Return in Hh.
      destruct Hh as (H1 & H2 & H3 & H4 & H5).
      apply IH in H; destruct H as (new & -> & Hm & Hf & Hp).
      exists (h :: new). rewrite <- app_assoc; simpl.
      split; [reflexivity|]. unfold hour_parses at 1; rewrite Eh; simpl.
      split; [f_equal; assumption|]. split; [|eapply printed_trans; eassumption].
      constructor; [|assumption]. exists start_hour; subst tr; auto.
    + apply bind_Return in H; destruct H as ([] & w1 & Hp & H).
      apply IH in H; destruct H as (new & -> & Hm & Hf & Hp').
      exists new. split; [reflexivity|].
      simpl; unfold hour_parses at 1; rewrite Eh.
      split; [assumption|]. split; [assumption|].
      eapply printed_trans; [|eassumption].
      replace w1 with (fst (print (WarnSkipTimeRange tr) w))
        by (rewrite Hp; reflexivity).
      apply printed_print.
Qed.

Lemma factors_in_hour_processable (long : list FactorRecord) (tr : pystr) :
  forallb processable long = true ->
  forallb processable (factors_in_hour long tr) = true.
Proof.
  rewrite !forallb_forall; intros H r Hr.
  apply filter_In in Hr; apply H, Hr.
Qed.

Lemma for_time_ranges_total (long : list FactorRecord) (scores : dict cell)
    (ais_df : AisFrame) (trs : list pystr) (acc : list HourlyRecord)
    (w : world) :
  forallb processable long = true ->
  exists w' out, for_time_ranges long scores ais_df trs acc w = (w', Return out).
Proof.
  intros Hp; revert acc w; induction trs as [|tr trs IH]; intros acc w; simpl.
  - unfold ret; eauto.
  - destruct (py_int (first_field COLON tr)) as [start_hour|].
    + unfold hourly_record.
      edestruct add_factors_total as (w1 & h1 & E);
        [apply factors_in_hour_processable, Hp|].
      erewrite bind_run by exact E. apply IH.
    + unfold bind at 1, print. apply IH.
Qed.

Lemma filter_none {A} (f : A -> bool) (l : list A) :
  (forall x, In x l -> f x = false) -> filter f l = [].
Proof.
  induction l as [|x l IH]; simpl; intros H; [reflexivity|].
  rewrite (H x) by auto. apply IH; auto.
Qed.

Lemma count_of_index_of (name : pystr) (cols : list pystr) :
  index_of name cols = None <-> count_of name cols = O.
Proof.
  unfold count_of; induction cols as [|c cols IH]; simpl; [tauto|].
  destruct (str_eqb name c); simpl; [split; discriminate|].
  rewrite <- IH. destruct (index_of name cols); simpl; split; congruence.
Qed.

(** Exactly one header of the name: the lookup finds it and the column taken
    out is a single one. *)
Lemma count_of_one (name : pystr) (cols : list pystr) :
  Nat.eqb (count_of name cols) 1 = true ->
  (exists k, index_of name cols = Some k)
  /\ Nat.ltb 1 (count_of name cols) = false.
Proof.
  intros H; apply Nat.eqb_eq in H. split.
  - destruct (index_of name cols) as [k|] eqn:E; [eauto|].
    apply count_of_index_of in E. rewrite E in H; discriminate.
  - rewrite H; reflexivity.
Qed.

Lemma load_ais_Return (ais : csv_source) (a : AisFrame) (w w' : world) :
  load_ais ais w = (w', Return a) -> printed w w'.
Proof.
  unfold load_ais, try_except, bind, read_csv.
  destruct ais as [| |t]; simpl.
  - intros H; injection H; intros <- <-.
    split; [reflexivity | exists [WarnAisMissing]; reflexivity].
  - discriminate.
  - unfold ret at 1. destruct (index_of TIMESTAMP (map strip (columns t)));
      unfold ret, raise; [|discriminate].
    destruct (Nat.ltb 1 (count_of TIMESTAMP (map strip (columns t))));
      [discriminate|].
    intros H; injection H; intros <- <-. apply printed_refl.
Qed.

Lemma load_ais_total (ais : csv_source) (w : world) :
  ais_loadable ais = true -> exists w' a, load_ais ais w = (w', Return a).
Proof.
  unfold load_ais, try_except, bind, read_csv.
  destruct ais as [| |t]; simpl.
  - unfold print, ret; eauto.
  - discriminate.
  - intros H; apply count_of_one in H; destruct H as [[k Ek] Hc].
    unfold ret at 1. rewrite Ek, Hc. unfold ret; eauto.
Qed.

(** Without events to load, the frame of events is empty. *)
Lemma load_ais_without_events (ais : csv_source) (a : AisFrame)
    (w w' : world) :
  without_events ais = true ->
  load_ais ais w = (w', Return a) -> ais_empty a = true.
Proof.
  unfold load_ais, try_except, bind, read_csv, without_events, loaded_events.
  destruct ais as [| |t]; simpl.
  - intros _ H; injection H; intros <- _; reflexivity.
  - discriminate.
  - intros Hw; apply andb_true_iff in Hw; destruct Hw as [Hl He].
    unfold ret at 1. destruct (index_of TIMESTAMP (map strip (columns t)));
      unfold ret, raise; [|discriminate].
    destruct (Nat.ltb 1 (count_of TIMESTAMP (map strip (columns t))));
      [discriminate|].
    intros H; injection H; intros <- _. unfold ais_empty; simpl.
    destruct (dropna_timestamp _); [|discriminate].
    destruct (map strip (columns t)); reflexivity.
Qed.

Lemma ais_in_hour_empty (a : AisFrame) (start_hour : Z) :
  ais_empty a = true -> ais_in_hour a start_hour = [].
Proof. unfold ais_in_hour; intros ->; reflexivity. Qed.

Lemma cell_at_set_cell (k : nat) (v : cell) (r : row) :
  cell_at k (set_cell k v r) = if Nat.ltb k (List.length r) then v else NaN.
Proof.
  unfold cell_at; revert k; induction r as [|c r IH]; intros [|k]; simpl;
    try reflexivity.
  rewrite IH; reflexivity.
Qed.

Lemma ffill_category (P : cell -> Prop) (k : nat) (last : cell)
    (rs : list row) :
  P NaN -> P last -> Forall (fun r => P (cell_at k r)) rs ->
  Forall (fun r => P (cell_at k r)) (ffill k last rs).
Proof.
  intros HN; revert last; induction rs as [|r rs IH]; intros last Hl H; simpl.
  - constructor.
  - inversion H as [|? ? Hr Hrs]; subst.
    destruct (cell_at k r) eqn:E.
    + constructor; [|auto]. rewrite cell_at_set_cell.
      destruct (Nat.ltb k (List.length r)); assumption.
    + constructor; [rewrite E; assumption|]. apply IH; assumption.
    + constructor; [rewrite E; assumption|]. apply IH; assumption.
    + constructor; [rewrite E; assumption|]. apply IH; assumption.
Qed.

Lemma final_score_map_Return (named df : DataFrame) (tvs : list pystr)
    (scores : dict cell) (w w' : world) :
  final_score_map named df tvs w = (w', Return scores) -> printed w w'.
Proof.
  unfold final_score_map.
  destruct (index_of FACTOR_CATEGORY (columns df)) as [k|]; [|discriminate].
  destruct (has_str_accessor k (rows named)); [|discriminate].
  destruct (filter _ (rows df)).
  - unfold bind, print, ret; simpl. intros H; injection H; intros _ <-.
    split; [reflexivity | exists [WarnFinalScoreMissing]; reflexivity].
  - unfold ret; intros H; injection H; intros _ <-. apply printed_refl.
Qed.

Lemma columns_factors_table (df0 : DataFrame) :
  columns (factors_table df0) = columns (named_table df0).
Proof.
  unfold factors_table; destruct (category_index df0); reflexivity.
Qed.

(** Without a "final score" row the map is empty and the warning is
    printed. *)
Lemma final_score_map_unscored (df0 : DataFrame) (tvs : list pystr)
    (scores : dict cell) (w w' : world) :
  no_final_score_row df0 = true ->
  final_score_map (named_table df0) (factors_table df0) tvs w
  = (w', Return scores) ->
  scores = [] /\ stdout w' = stdout w ++ [WarnFinalScoreMissing].
Proof.
  unfold no_final_score_row, final_score_map.
  rewrite columns_factors_table. unfold factors_table.
  fold (category_index df0).
  destruct (category_index df0) as [k|]; [|discriminate].
  intros Hno. destruct (has_str_accessor k (rows (named_table df0)));
    [|discriminate].
  assert (E : filter (fun r => is_final_score (cell_at k r))
                (rows (ffill_dropna k (named_table df0))) = []).
  { apply filter_none; intros r Hr. simpl in Hr.
    apply filter_In in Hr; destruct Hr as [Hr _].
    assert (F : Forall (fun r => is_final_score (cell_at k r) = false)
                  (ffill k NaN (rows df0))).
    { apply (ffill_category (fun c => is_final_score c = false));
        try reflexivity.
      apply Forall_forall; intros x Hx.
      rewrite forallb_forall in Hno. apply negb_true_iff, Hno, Hx. }
    rewrite Forall_forall in F. exact (F r Hr). }
  rewrite E. unfold bind, print, ret; simpl.
  intros H; injection H; intros <- <-; auto.
Qed.

Lemma final_score_map_total (df0 : DataFrame) (tvs : list pystr) (w : world)
    (k : nat) :
  category_index df0 = Some k -> has_str_accessor k (rows df0) = true ->
  exists w' scores,
    final_score_map (named_table df0) (factors_table df0) tvs w
    = (w', Return scores).
Proof.
  intros Hk Hs. unfold final_score_map.
  rewrite columns_factors_table. fold (category_index df0). rewrite Hk.
  simpl; rewrite Hs.
  destruct (filter _ (rows (factors_table df0)));
    unfold bind, print, ret; eauto.
Qed.

(** What a run that reaches the end of step 3 went through. *)
Lemma consolidate_Return (df0 : DataFrame) (ais : csv_source)
    (out : list HourlyRecord) (w w' : world) :
  consolidate (Table df0) ais w = (w', Return out) ->
  exists scores ais_df w1 w2,
    final_score_map (named_table df0) (factors_table df0)
      (time_vars (factors_table df0)) w = (w1, Return scores)
    /\ load_ais ais w1 = (w2, Return ais_df)
    /\ for_time_ranges (reshaped df0) scores ais_df
         (unique_time_ranges (reshaped df0)) [] w2 = (w', Return out).
Proof.
  unfold consolidate; intros H.
  apply bind_Return in H; destruct H as (df & w0 & Hr & H).
  unfold read_csv, ret in Hr; injection Hr; intros <- <-.
  apply bind_Return in H; destruct H as (fdf & w0 & Hf & H).
  assert (fdf = factors_table df0 /\ w0 = w) as [-> ->].
  { unfold fill_categories in Hf; unfold factors_table, category_index.
    destruct (index_of FACTOR_CATEGORY (columns (named_table df0)));
      unfold ret, raise in Hf; inversion Hf; auto. }
  apply bind_Return in H; destruct H as (long & w0 & Hl & H).
  assert (long = reshaped df0 /\ w0 = w) as [-> ->].
  { unfold factors_long_df in Hl.
    apply bind_Return in Hl; destruct Hl as (m & w3 & Hm & Hl).
    unfold melt in Hm.
    destruct (str_in VALUE (columns (factors_table df0))); [discriminate|].
    destruct (index_of FACTOR_CATEGORY (columns (factors_table df0)));
      [|discriminate].
    destruct (index_of FACTOR (columns (factors_table df0))); [|discriminate].
    unfold ret in Hm, Hl; injection Hm; intros <- <-.
    injection Hl; intros <- <-. auto. }
  apply bind_Return in H; destruct H as (scores & w1 & Hs & H).
  apply bind_Return in H; destruct H as (ais_df & w2 & Ha & H).
  exists scores, ais_df, w1, w2; auto.
Qed.

(** A well-formed table and a loadable event log take the run to the end of
    step 3. *)
Lemma consolidate_total (df0 : DataFrame) (ais : csv_source) (w : world) :
  well_formed df0 = true -> ais_loadable ais = true ->
  exists w' out, consolidate (Table df0) ais w = (w', Return out).
Proof.
  unfold well_formed; intros H Ha.
  apply andb_true_iff in H; destruct H as [H Hp].
  apply andb_true_iff in H; destruct H as [Hv H].
  apply andb_true_iff in Hv; destruct Hv as [_ Hv]; apply negb_true_iff in Hv.
  fold VALUE in Hv.
  destruct (category_index df0) as [k|] eqn:Ek; [|discriminate].
  destruct (index_of FACTOR (columns (named_table df0))) as [kf|] eqn:Ef;
    [|discriminate].
  destruct (@final_score_map_total df0 (time_vars (factors_table df0)) w k Ek H)
    as (w1 & scores & Es).
  destruct (load_ais_total ais w1 Ha) as (w2 & a & El).
  destruct (@for_time_ranges_total (reshaped df0) scores a
              (unique_time_ranges (reshaped df0)) [] w2 Hp) as (w' & out & Eo).
  exists w', out. unfold consolidate, read_csv.
  unfold bind at 1, ret at 1. unfold fill_categories.
  pose proof Ek as Ek'. unfold category_index in Ek'. rewrite Ek'.
  unfold bind at 1, ret at 1.
  assert (Efdf : ffill_dropna k (named_table df0) = factors_table df0)
    by (unfold factors_table; rewrite Ek; reflexivity).
  rewrite Efdf.
  unfold factors_long_df, melt. rewrite columns_factors_table, Hv, Ek', Ef.
  unfold bind at 1. unfold bind at 1, ret at 1 2.
  fold (reshaped df0).
  erewrite bind_run by exact Es. erewrite bind_run by exact El. exact Eo.
Qed.

End Aggregation.

(* ================================================================== *)
(** ** Properties of the run *)
(* ================================================================== *)

Section Run.

Context {lib : PyLib}.

(** The labels on the way out are the parsable ones among line 94's, each
    record built for its own label. *)
Lemma consolidate_shape (df0 : DataFrame) (ais : csv_source)
    (out : list HourlyRecord) (w w' : world) :
  consolidate (Table df0) ais w = (w', Return out) ->
  exists scores ais_df w1 w2,
    final_score_map (named_table df0) (factors_table df0)
      (time_vars (factors_table df0)) w = (w1, Return scores)
    /\ load_ais ais w1 = (w2, Return ais_df)
    /\ map time_range out
       = filter hour_parses (unique_time_ranges (reshaped df0))
    /\ Forall (built_from (reshaped df0) scores ais_df) out
    /\ printed w1 w'.
Proof.
  intros H; apply consolidate_Return in H.
  destruct H as (scores & ais_df & w1 & w2 & Hs & Ha & H).
  apply for_time_ranges_Return in H; destruct H as (new & -> & Hm & Hf & Hp).
  exists scores, ais_df, w1, w2. simpl.
  do 4 (split; [assumption|]).
  eapply printed_trans; [|exact Hp]. eapply load_ais_Return; exact Ha.
Qed.

Lemma valid_labels_spec (long : list FactorRecord) :
  StronglySorted str_lt (filter hour_parses (unique_time_ranges long))
  /\ forall t, In t (filter hour_parses (unique_time_ranges long))
               <-> (exists r, In r long /\ fr_time_range r = t)
                   /\ hour_parses t = true.
Proof.
  destruct (unique_time_ranges_spec long) as [Hs Hi]; split.
  - apply StronglySorted_filter, Hs.
  - intros t; rewrite filter_In, Hi; reflexivity.
Qed.

Lemma print_all_run (ms : list message) (w : world) :
  print_all ms w
  = ({| stdout := stdout w ++ ms; output_file := output_file w |}, Return tt).
Proof.
  revert w; induction ms as [|m ms IH]; intros w; simpl.
  - rewrite app_nil_r; destruct w; reflexivity.
  - unfold bind, print at 1. rewrite IH; simpl.
    rewrite <- app_assoc; reflexivity.
Qed.

(** The run, once step 3 is through with scores [json.dump] can write: the
    document is written whole, then the closing lines are printed. *)
Lemma create_consolidated_json_run (factors ais : csv_source)
    (out : list HourlyRecord) (w w1 : world) :
  consolidate factors ais w = (w1, Return out) ->
  existsb int64_score out = false ->
  create_consolidated_json factors ais w
  = ({| stdout := stdout w1 ++ closing_lines out;
        output_file := Some (Whole (JArray (map json_of_record out))) |},
     Return tt).
Proof.
  intros H Hi; unfold create_consolidated_json, try_except.
  erewrite bind_run by exact H.
  unfold bind at 1, write_json. rewrite Hi.
  unfold closing_lines, print_sample. destruct out as [|h out].
  - reflexivity.
  - do 2 (unfold bind at 1, print at 1). rewrite print_all_run. simpl.
    rewrite <- !app_assoc. reflexivity.
Qed.

(** The run, once step 3 is through with an int64 score: the file is cut
    short and the handler of line 170 prints the exception. *)
Lemma create_consolidated_json_cut (factors ais : csv_source)
    (out : list HourlyRecord) (w w1 : world) :
  consolidate factors ais w = (w1, Return out) ->
  existsb int64_score out = true ->
  create_consolidated_json factors ais w
  = ({| stdout := stdout w1 ++ [ErrUnexpected TypeError];
        output_file := Some (CutShort (JArray (map json_of_record out))) |},
     Return tt).
Proof.
  intros H Hi; unfold create_consolidated_json, try_except.
  erewrite bind_run by exact H.
  unfold bind at 1, write_json. rewrite Hi. reflexivity.
Qed.

Lemma no_score_no_int64 (out : list HourlyRecord) :
  Forall (fun h => final_score h = None) out ->
  existsb int64_score out = false.
Proof.
  induction 1 as [|h out Hh _ IH]; simpl; [reflexivity|].
  unfold int64_score at 1; rewrite Hh; exact IH.
Qed.

(** C1: on a well-formed factor table (and an event log that loads) the run
    reaches the end, and the number of hourly records equals the number of
    distinct [time_range] labels of the reshaped factor data whose text
    before the first colon parses as an integer; each such label has its
    record, whatever the categories of its factor rows and whatever the
    event log holds. *)
Theorem one_record_per_parsable_label (df0 : DataFrame) (ais : csv_source)
    (w : world) :
  well_formed df0 = true -> ais_loadable ais = true ->
  exists w' out,
    consolidate (Table df0) ais w = (w', Return out)
    /\ (forall labels,
          NoDup labels ->
          (forall t, In t labels
                     <-> (exists r, In r (reshaped df0) /\ fr_time_range r = t)
                         /\ hour_parses t = true) ->
          List.length out = List.length labels)
    /\ (forall r, In r (reshaped df0) ->
                  hour_parses (fr_time_range r) = true ->
                  exists h, In h out /\ time_range h = fr_time_range r).
Proof.
  intros Hwf Ha. destruct (consolidate_total df0 ais w Hwf Ha) as (w' & out & E).
  exists w', out. split; [exact E|].
  pose proof E as E'; apply consolidate_shape in E'.
  destruct E' as (_ & _ & _ & _ & _ & _ & Hm & _ & _).
  destruct (valid_labels_spec (reshaped df0)) as [Hs Hi].
  split.
  - intros labels Hnd Hl.
    rewrite <- (length_map time_range out), Hm.
    apply Permutation_length, NoDup_Permutation.
    + apply StronglySorted_lt_NoDup, Hs.
    + assumption.
    + intros t; rewrite Hi, Hl; reflexivity.
  - intros r Hr Hp.
    assert (Hin : In (fr_time_range r) (map time_range out)).
    { rewrite Hm; apply Hi; eauto. }
    apply in_map_iff in Hin; destruct Hin as (h & Hh & Hin); eauto.
Qed.

(** C7: the hourly records come out in the strict code-point order of their
    raw [time_range] labels, so that no label appears twice, and the labels
    are the distinct labels of the reshaped factor data whose hour parses;
    a well-formed table with a loadable event log does reach that output. *)
Theorem output_in_label_order (df0 : DataFrame) (ais : csv_source)
    (w : world) :
  (forall w' out,
     consolidate (Table df0) ais w = (w', Return out) ->
     StronglySorted str_lt (map time_range out)
     /\ NoDup (map time_range out)
     /\ forall t, In t (map time_range out)
                  <-> (exists r, In r (reshaped df0) /\ fr_time_range r = t)
                      /\ hour_parses t = true)
  /\ (well_formed df0 = true -> ais_loadable ais = true ->
      exists w' out, consolidate (Table df0) ais w = (w', Return out)).
Proof.
  split; [|apply consolidate_total].
  intros w' out E.
  pose proof E as E'; apply consolidate_shape in E'.
  destruct E' as (_ & _ & _ & _ & _ & _ & Hm & _ & _).
  destruct (valid_labels_spec (reshaped df0)) as [Hs Hi].
  rewrite Hm. split; [exact Hs|]. split; [|exact Hi].
  apply StronglySorted_lt_NoDup, Hs.
Qed.

(** C5: when no row of the factor table has the category "final score"
    (compared after [strip] and [lower]), the final-score map is empty, the
    warning is printed, every hourly record has [final_score = None], written
    as [null]; and the missing row does not stop a run on a well-formed
    table with a loadable event log: the document is written whole. *)
Theorem no_final_score_row_gives_null_scores (df0 : DataFrame)
    (ais : csv_source) (w : world) :
  no_final_score_row df0 = true ->
  (forall w1 scores,
     final_score_map (named_table df0) (factors_table df0)
       (time_vars (factors_table df0)) w = (w1, Return scores) ->
     scores = [] /\ stdout w1 = stdout w ++ [WarnFinalScoreMissing])
  /\ (forall w' out,
        consolidate (Table df0) ais w = (w', Return out) ->
        In WarnFinalScoreMissing (stdout w')
        /\ Forall (fun h => final_score h = None
                            /\ json_member K_FINAL_SCORE (json_of_record h)
                               = Some JNull) out)
  /\ (well_formed df0 = true -> ais_loadable ais = true ->
      exists w' out,
        create_consolidated_json (Table df0) ais w = (w', Return tt)
        /\ output_file w' = Some (Whole (JArray (map json_of_record out)))
        /\ In WarnFinalScoreMissing (stdout w')).
Proof.
  intros Hno.
  assert (Hrun : forall w' out,
             consolidate (Table df0) ais w = (w', Return out) ->
             In WarnFinalScoreMissing (stdout w')
             /\ Forall (fun h => final_score h = None) out).
  { intros w' out E.
    apply consolidate_shape in E.
    destruct E as (scores & ais_df & w1 & w2 & Hs & _ & _ & Hb & Hp).
    eapply final_score_map_unscored in Hs; [|exact Hno]. destruct Hs as [-> Hw].
    split.
    - eapply printed_In; [exact Hp|]. rewrite Hw; apply in_or_app; simpl; auto.
    - eapply Forall_impl; [|exact Hb]. intros h (sh & _ & _ & Hf & _).
      rewrite Hf; reflexivity. }
  split; [|split].
  - intros w1 scores Hs. eapply final_score_map_unscored; eassumption.
  - intros w' out E. destruct (Hrun _ _ E) as [H1 H2]. split; [exact H1|].
    eapply Forall_impl; [|exact H2].
    intros h Hf; split; [exact Hf|]. unfold json_of_record; simpl.
    rewrite Hf; reflexivity.
  - intros Hwf Hl.
    destruct (consolidate_total df0 ais w Hwf Hl) as (w1 & out & E).
    eexists; exists out.
    erewrite create_consolidated_json_run;
      [| exact E | apply no_score_no_int64, (Hrun _ _ E)].
    split; [reflexivity|]. split; [reflexivity|]. simpl.
    apply in_or_app; left. apply (Hrun _ _ E).
Qed.

End Run.

(* ================================================================== *)
(** ** What a dictionary of the output holds *)
(* ================================================================== *)

Section Buckets.

Context {lib : PyLib}.

Lemma fold_file_record_NoDup (key : pystr) (rs : list FactorRecord)
    (d : dict cell) :
  NoDup (dict_keys d) -> NoDup (dict_keys (fold_left (file_record key) rs d)).
Proof.
  revert d; induction rs as [|r rs IH]; intros d H; simpl; [assumption|].
  apply IH. unfold file_record.
  destruct (str_eqb (canonical r) key); [apply dict_set_NoDup|]; assumption.
Qed.

Lemma fold_file_record_other (key name : pystr) (rs : list FactorRecord)
    (d : dict cell) :
  (forall r, In r rs ->
     str_eqb (canonical r) key && str_eqb (factor_name r) name = false) ->
  dict_get (fold_left (file_record key) rs d) name = dict_get d name.
Proof.
  revert d; induction rs as [|r rs IH]; intros d H; simpl; [reflexivity|].
  rewrite IH by (intros; apply H; simpl; auto).
  unfold file_record. specialize (H r (or_introl eq_refl)).
  destruct (str_eqb (canonical r) key); [|reflexivity].
  rewrite dict_get_set. simpl in H.
  rewrite str_eqb_sym, H; reflexivity.
Qed.

Lemma fold_file_record_last (key name : pystr) (pre post : list FactorRecord)
    (r : FactorRecord) (d : dict cell) :
  str_eqb (canonical r) key && str_eqb (factor_name r) name = true ->
  (forall r', In r' post ->
     str_eqb (canonical r') key && str_eqb (factor_name r') name = false) ->
  dict_get (fold_left (file_record key) (pre ++ r :: post) d) name
  = Some (fr_value r).
Proof.
  intros Hr Hpost. rewrite fold_left_app; simpl.
  rewrite fold_file_record_other by assumption.
  apply andb_true_iff in Hr; destruct Hr as [Hk Hn].
  unfold file_record; rewrite Hk, dict_get_set.
  apply str_eqb_eq in Hn; rewrite Hn, str_eqb_refl; reflexivity.
Qed.

(** In the record built for a label, the dictionary under [key] has one
    entry per factor name, and under [name] the value of the last record of
    the long table that lands there. *)
Lemma bucket_holds_last (long : list FactorRecord) (scores : dict cell)
    (ais_df : AisFrame) (h : HourlyRecord) (key name : pystr) (d : dict cell)
    (pre post : list FactorRecord) (r : FactorRecord) :
  built_from long scores ais_df h -> bucket key h = Some d ->
  long = pre ++ r :: post ->
  lands_in (time_range h) key name r = true ->
  (forall r', In r' post -> lands_in (time_range h) key name r' = false) ->
  NoDup (dict_keys d) /\ dict_get d name = Some (fr_value r).
Proof.
  intros (sh & _ & _ & _ & Hb) Hd -> Hr Hpost.
  rewrite (Hb key d Hd). split.
  - apply fold_file_record_NoDup; constructor.
  - unfold lands_in in Hr. rewrite <- andb_assoc in Hr.
    apply andb_true_iff in Hr; destruct Hr as [Ht Hr].
    unfold factors_in_hour; rewrite filter_app; simpl; rewrite Ht.
    apply fold_file_record_last; [assumption|].
    intros r' Hr'. apply filter_In in Hr'; destruct Hr' as [Hin Ht'].
    specialize (Hpost r' Hin). unfold lands_in in Hpost.
    rewrite Ht' in Hpost; exact Hpost.
Qed.

Lemma built_from_NoDup (long : list FactorRecord) (scores : dict cell)
    (ais_df : AisFrame) (h : HourlyRecord) (key : pystr) (d : dict cell) :
  built_from long scores ais_df h -> bucket key h = Some d ->
  NoDup (dict_keys d).
Proof.
  intros (sh & _ & _ & _ & Hb) Hd. rewrite (Hb key d Hd).
  apply fold_file_record_NoDup; constructor.
Qed.

Lemma json_member_bucket (key : pystr) (h : HourlyRecord) (d : dict cell) :
  bucket key h = Some d ->
  json_member key (json_of_record h)
  = Some (JObject (map (fun kv => (fst kv, json_of_cell (snd kv))) d)).
Proof.
  unfold bucket.
  destruct (str_eqb key K_EXTERNAL) eqn:E1;
    [|destruct (str_eqb key K_HUMAN) eqn:E2;
      [|destruct (str_eqb key K_INTERNAL) eqn:E3;
        [|destruct (str_eqb key K_SHIP) eqn:E4]]];
    intros H; try discriminate; injection H; intros <-;
    match goal with
    | E : str_eqb key _ = true |- _ => apply str_eqb_eq in E; subst key
    end; reflexivity.
Qed.

Lemma doc_has_bucket_entry (out : list HourlyRecord) (h : HourlyRecord)
    (key name : pystr) (d : dict cell) (v : cell) :
  In h out -> bucket key h = Some d -> dict_get d name = Some v ->
  doc_has_factor (JArray (map json_of_record out)) (time_range h) key name v.
Proof.
  intros Hin Hb Hg.
  exists (map json_of_record out), (json_of_record h),
         (map (fun kv => (fst kv, json_of_cell (snd kv))) d).
  split; [reflexivity|]. split; [apply in_map; assumption|].
  split; [reflexivity|]. split; [apply json_member_bucket; assumption|].
  rewrite json_of_dict_get, Hg; reflexivity.
Qed.

(** C10: among the records of the reshaped factor data that share a
    [time_range], a category dictionary and a trimmed factor name, the one
    processed last gives the factor its value in the output; the dictionary
    holds no other entry under that name, so every earlier value is gone. *)
Theorem last_record_overwrites (df0 : DataFrame) (ais : csv_source)
    (out : list HourlyRecord) (w w' : world) (h : HourlyRecord)
    (key name : pystr) (d : dict cell) (pre post : list FactorRecord)
    (r : FactorRecord) :
  consolidate (Table df0) ais w = (w', Return out) ->
  In h out -> bucket key h = Some d ->
  reshaped df0 = pre ++ r :: post ->
  lands_in (time_range h) key name r = true ->
  (forall r', In r' post -> lands_in (time_range h) key name r' = false) ->
  dict_get d name = Some (fr_value r)
  /\ (forall v, In (name, v) d -> v = fr_value r)
  /\ doc_has_factor (JArray (map json_of_record out))
       (time_range h) key name (fr_value r).
Proof.
  intros E Hin Hd Hlong Hr Hpost.
  apply consolidate_shape in E.
  destruct E as (scores & ais_df & w1 & w2 & _ & _ & _ & Hb & _).
  rewrite Forall_forall in Hb. specialize (Hb h Hin).
  edestruct bucket_holds_last as [Hnd Hg];
    [exact Hb | exact Hd | exact Hlong | exact Hr | exact Hpost |].
  split; [exact Hg|]. split.
  - intros v Hv. apply dict_get_In in Hv; [congruence | exact Hnd].
  - eapply doc_has_bucket_entry; eassumption.
Qed.

(** C8, as the code has it: when the run writes its document, which it
    does whole unless a final score is an int64, the document is that of the
    records of step 3; in it a record of the reshaped factor data whose
    category canonicalizes to one of the four dictionaries and whose hour
    parses appears under its label, its category and its trimmed factor
    name, with its value unchanged, provided no later record lands on the
    same three; and every entry a dictionary holds when step 3 ends is in
    the document as it stands. *)
Theorem surviving_pairs_reach_the_document (df0 : DataFrame)
    (ais : csv_source) (out : list HourlyRecord) (w w1 : world) :
  consolidate (Table df0) ais w = (w1, Return out) ->
  (forall doc,
     output_file (fst (create_consolidated_json (Table df0) ais w))
     = Some (Whole doc) ->
     doc = JArray (map json_of_record out))
  /\ (existsb int64_score out = false ->
      output_file (fst (create_consolidated_json (Table df0) ais w))
      = Some (Whole (JArray (map json_of_record out))))
  /\ (forall pre r post,
        reshaped df0 = pre ++ r :: post ->
        str_in (canonical r) bucket_keys = true ->
        hour_parses (fr_time_range r) = true ->
        (forall r', In r' post ->
           lands_in (fr_time_range r) (canonical r) (factor_name r) r' = false) ->
        doc_has_factor (JArray (map json_of_record out))
          (fr_time_range r) (canonical r) (factor_name r) (fr_value r))
  /\ (forall h key d name v,
        In h out -> bucket key h = Some d -> In (name, v) d ->
        doc_has_factor (JArray (map json_of_record out))
          (time_range h) key name v).
Proof.
  intros E. split; [|split; [|split]].
  - intros doc. destruct (existsb int64_score out) eqn:Ei.
    + erewrite create_consolidated_json_cut by eassumption. discriminate.
    + erewrite create_consolidated_json_run by eassumption.
      simpl; intros H; injection H; auto.
  - intros Ei. erewrite create_consolidated_json_run by eassumption.
    reflexivity.
  - intros pre r post Hlong Hk Hp Hpost.
    apply consolidate_shape in E.
    destruct E as (scores & ais_df & w2 & w3 & _ & _ & Hm & Hb & _).
    assert (Hin : In (fr_time_range r) (map time_range out)).
    { rewrite Hm. apply (proj2 (valid_labels_spec (reshaped df0))).
      split; [|assumption]. exists r; split; [|reflexivity].
      rewrite Hlong; apply in_or_app; simpl; auto. }
    apply in_map_iff in Hin; destruct Hin as (h & Eh & Hin).
    destruct (proj1 (bucket_Some (canonical r) h) Hk) as [d Hd].
    rewrite <- Eh in *.
    rewrite Forall_forall in Hb. specialize (Hb h Hin).
    assert (Hr : lands_in (time_range h) (canonical r) (factor_name r) r = true).
    { unfold lands_in. rewrite Eh, !str_eqb_refl; reflexivity. }
    edestruct bucket_holds_last as [_ Hg];
      [exact Hb | exact Hd | exact Hlong | exact Hr | exact Hpost |].
    eapply doc_has_bucket_entry; eassumption.
  - intros h key d name v Hin Hd Hv.
    apply consolidate_shape in E.
    destruct E as (scores & ais_df & w2 & w3 & _ & _ & _ & Hb & _).
    rewrite Forall_forall in Hb. specialize (Hb h Hin).
    eapply doc_has_bucket_entry; try eassumption.
    apply dict_get_In; [|assumption]. eapply built_from_NoDup; eassumption.
Qed.

End Buckets.

(* ================================================================== *)
(** ** Forward fill *)
(* ================================================================== *)

Lemma index_of_lt (name : pystr) (cols : list pystr) (k : nat) :
  index_of name cols = Some k -> (k < List.length cols)%nat.
Proof.
  revert k; induction cols as [|c cols IH]; intros k; simpl; [discriminate|].
  destruct (str_eqb name c).
  - intros H; injection H; intros <-; lia.
  - destruct (index_of name cols) as [k'|]; simpl; [|discriminate].
    intros H; injection H; intros <-. specialize (IH k' eq_refl); lia.
Qed.

(** Below a filled cell, the empty cells take the carried value. *)
Lemma ffill_run_of_gaps (k : nat) (rs : list row) (last : cell) (i : nat)
    (ri : row) :
  (forall m r, (m <= i)%nat -> nth_error rs m = Some r -> cell_at k r = NaN) ->
  nth_error rs i = Some ri ->
  nth_error (ffill k last rs) i = Some (set_cell k last ri).
Proof.
  revert i; induction rs as [|r rs IH]; intros i Hgap Hi.
  - destruct i; discriminate.
  - simpl. rewrite (Hgap O r) by (simpl; auto; lia).
    destruct i as [|i]; simpl in *.
    + injection Hi; intros <-; reflexivity.
    + apply IH; [|assumption]. intros m r' Hm Hr'.
      apply (Hgap (S m) r'); [lia | assumption].
Qed.

Lemma ffill_nearest (k : nat) (rs : list row) (last c : cell) (i j : nat)
    (rj ri : row) :
  (j < i)%nat ->
  nth_error rs j = Some rj -> cell_at k rj = c -> c <> NaN ->
  (forall m r, (j < m <= i)%nat -> nth_error rs m = Some r ->
               cell_at k r = NaN) ->
  nth_error rs i = Some ri ->
  nth_error (ffill k last rs) i = Some (set_cell k c ri).
Proof.
  revert rs last i; induction j as [|j IH]; intros rs last i Hji Hj Hc Hn Hgap Hi.
  - destruct rs as [|r rs]; [discriminate|]. simpl in Hj.
    injection Hj; intros ->. destruct i as [|i]; [lia|]. simpl in Hi.
    assert (E : ffill k last (rj :: rs) = rj :: ffill k c rs).
    { simpl. rewrite Hc. destruct c; [congruence | reflexivity ..]. }
    rewrite E; simpl. apply ffill_run_of_gaps; [|assumption].
    intros m r Hm Hr. apply (Hgap (S m) r); [lia | assumption].
  - destruct rs as [|r rs]; [discriminate|]. simpl in Hj.
    destruct i as [|i]; [lia|]. simpl in Hi.
    assert (E : exists r' last', ffill k last (r :: rs) = r' :: ffill k last' rs).
    { simpl. destruct (cell_at k r); eauto. }
    destruct E as (r' & last' & ->). simpl.
    apply IH; try assumption; try lia.
    intros m r0 Hm Hr0. apply (Hgap (S m) r0); [lia | assumption].
Qed.

Lemma filled_row_survives (k : nat) (r : row) :
  cell_at k r <> NaN -> existsb notna r = true.
Proof.
  unfold cell_at; intros H. apply existsb_exists.
  exists (nth k r NaN). split.
  - destruct (Nat.lt_ge_cases k (List.length r)) as [Hlt | Hge].
    + apply nth_In; assumption.
    + rewrite nth_overflow in H by assumption. congruence.
  - destruct (nth k r NaN); [congruence | reflexivity ..].
Qed.

(* ================================================================== *)
(** ** The run on particular tables *)
(* ================================================================== *)

Example human_factors_is_canonical :
  format_category_name (Txt " Human Factors") = K_HUMAN.
Proof. reflexivity. Qed.

Example labels_sort_as_text :
  sorted [ustr "2:00 - 3:00"; ustr "0:00 - 1:00"; ustr "10:00 - 11:00"]
  = [ustr "0:00 - 1:00"; ustr "10:00 - 11:00"; ustr "2:00 - 3:00"].
Proof. reflexivity. Qed.

(** The first bucket of the sample run: speed 12.5 and draft 7 under
    [ship_factors], the event of 00:45, the score 0.82. *)
Example sample_first_bucket :
  exists w' h rest,
    consolidate (Table sample_table) (Table sample_ais) initial_world
    = (w', Return (h :: rest))
    /\ time_range h = ustr "0:00 - 1:00"
    /\ ship_factors h = [(ustr "Speed", Num (25 # 2)); (ustr "Draft", Num 7)]
    /\ ais_data h = [[(ustr "MMSI", Num 563001);
                      (ustr "Timestamp", Txt "2024-01-01 00:45:00")]]
    /\ final_score h = Some (Num (82 # 100)).
Proof.
  eexists; eexists; eexists. split; [vm_compute; reflexivity|].
  repeat split.
Qed.

(** A category outside the seven keys of [hourly_record] is dropped with the
    warning of line 143: the record stays as it was. *)
Lemma unknown_category_is_dropped (lib : PyLib) (h : HourlyRecord)
    (r : FactorRecord) (s : pystr) (w : world) :
  fr_factor r = Str s -> str_in (canonical r) record_keys = false ->
  add_factor h r w
  = ({| stdout := stdout w ++ [WarnUnknownCategory (canonical r)];
        output_file := output_file w |}, Return h).
Proof.
  intros Hf Hk. unfold add_factor. rewrite Hf.
  unfold canonical in Hk. unfold bind at 1, ret at 1. rewrite Hk. reflexivity.
Qed.

(** C2 fails on a category that canonicalizes to [final_score], [ais_data]
    or [time_range]: these are keys of [hourly_record] too, so line 140 lets
    the record through and line 141 raises.  Here the "Final Score" row has
    the factor name "Total": its record is in the reshaped data, its category
    is none of the four dictionaries, and the run ends in the handler of line
    170 with nothing written. *)
Theorem labelled_final_score_row_aborts_the_run :
  (exists r, In r (reshaped labelled_score_table)
             /\ canonical r = K_FINAL_SCORE
             /\ str_in (canonical r) bucket_keys = false)
  /\ create_consolidated_json (Table labelled_score_table) NoFile initial_world
     = ({| stdout := [WarnAisMissing; ErrUnexpected TypeError];
           output_file := None |}, Return tt).
Proof.
  split.
  - exists {| fr_category := Txt "Final Score"; fr_factor := Txt "Total";
              fr_time_range := ustr "0:00 - 1:00";
              fr_value := Num (82 # 100) |}.
    split; [vm_compute; auto|]. split; reflexivity.
  - reflexivity.
Qed.

(** C8 as written fails when two records share label, category and trimmed
    factor name: in [duplicate_table] the record ("Ship Factors", "Speed",
    "0:00 - 1:00", 1) is in the reshaped data with a known category, the run
    writes its document, and the document has no "Speed": 1 under
    [ship_factors] (it has the later "Speed": 2). *)
Lemma overwritten_pair_is_not_in_the_document :
  In speed_first (reshaped duplicate_table)
  /\ str_in (canonical speed_first) bucket_keys = true
  /\ hour_parses (fr_time_range speed_first) = true
  /\ exists w' doc,
       create_consolidated_json (Table duplicate_table) NoFile initial_world
       = (w', Return tt)
       /\ output_file w' = Some (Whole doc)
       /\ ~ doc_has_factor doc (fr_time_range speed_first)
              (canonical speed_first) (factor_name speed_first)
              (fr_value speed_first).
Proof.
  split; [vm_compute; auto|]. split; [reflexivity|].
  split; [reflexivity|].
  eexists; eexists. split; [vm_compute; reflexivity|].
  split; [reflexivity|].
  intros (items & item & members & E & Hin & _ & Hk & Hg).
  injection E; intros <-. destruct Hin as [<- | []].
  vm_compute in Hk. injection Hk; intros <-.
  vm_compute in Hg. discriminate.
Qed.

(* ================================================================== *)
(** ** The properties at work on the sample tables *)
(* ================================================================== *)

(** The sample table with its event log: two labels parse, two records. *)
Lemma sample_run_counts_its_labels :
  well_formed sample_table = true
  /\ ais_loadable (Table sample_ais) = true
  /\ exists w' out,
       consolidate (Table sample_table) (Table sample_ais) initial_world
       = (w', Return out)
       /\ (forall labels,
             NoDup labels ->
             (forall t, In t labels
                        <-> (exists r, In r (reshaped sample_table)
                                       /\ fr_time_range r = t)
                            /\ hour_parses t = true) ->
             List.length out = List.length labels)
       /\ (forall r, In r (reshaped sample_table) ->
                     hour_parses (fr_time_range r) = true ->
                     exists h, In h out /\ time_range h = fr_time_range r).
Proof.
  split; [reflexivity|]. split; [reflexivity|].
  apply (@one_record_per_parsable_label AsciiLib.ascii_lib sample_table
           (Table sample_ais) initial_world); reflexivity.
Defined.

(** Without an event log the unscored table still runs, and "10:00 - 11:00"
    comes out before "2:00 - 3:00": the order is that of the text. *)
Lemma unscored_run_is_in_text_order :
  well_formed unscored_table = true
  /\ exists w' out,
    consolidate (Table unscored_table) NoFile initial_world = (w', Return out)
    /\ map time_range out = [ustr "10:00 - 11:00"; ustr "2:00 - 3:00"]
    /\ StronglySorted str_lt (map time_range out)
    /\ NoDup (map time_range out)
    /\ forall t, In t (map time_range out)
                 <-> (exists r, In r (reshaped unscored_table)
                                /\ fr_time_range r = t)
                     /\ hour_parses t = true.
Proof.
  split; [reflexivity|].
  eexists; eexists. split; [vm_compute; reflexivity|].
  split; [reflexivity|].
  eapply (proj1 (@output_in_label_order AsciiLib.ascii_lib unscored_table NoFile
                   initial_world)).
  vm_compute; reflexivity.
Defined.

(** The unscored table has no "final score" row. *)
Lemma unscored_run_has_null_scores :
  no_final_score_row unscored_table = true
  /\ (forall w1 scores,
        final_score_map (named_table unscored_table)
          (factors_table unscored_table)
          (time_vars (factors_table unscored_table)) initial_world
        = (w1, Return scores) ->
        scores = [] /\ stdout w1 = stdout initial_world ++ [WarnFinalScoreMissing])
  /\ (forall w' out,
        consolidate (Table unscored_table) NoFile initial_world
        = (w', Return out) ->
        In WarnFinalScoreMissing (stdout w')
        /\ Forall (fun h => final_score h = None
                            /\ json_member K_FINAL_SCORE (json_of_record h)
                               = Some JNull) out)
  /\ (well_formed unscored_table = true -> ais_loadable NoFile = true ->
      exists w' out,
        create_consolidated_json (Table unscored_table) NoFile initial_world
        = (w', Return tt)
        /\ output_file w' = Some (Whole (JArray (map json_of_record out)))
        /\ In WarnFinalScoreMissing (stdout w')).
Proof.
  split; [reflexivity|].
  apply (@no_final_score_row_gives_null_scores AsciiLib.ascii_lib unscored_table NoFile
           initial_world).
  reflexivity.
Defined.

(** In [duplicate_table] the later "Speed" wins. *)
Lemma duplicate_speed_keeps_the_last_value :
  dict_get (ship_factors duplicate_hour) (ustr "Speed") = Some (Num 2)
  /\ (forall v, In (ustr "Speed", v) (ship_factors duplicate_hour) -> v = Num 2)
  /\ doc_has_factor (JArray (map json_of_record [duplicate_hour]))
       (ustr "0:00 - 1:00") K_SHIP (ustr "Speed") (Num 2).
Proof.
  apply (@last_record_overwrites AsciiLib.ascii_lib duplicate_table NoFile
           [duplicate_hour] initial_world
           {| stdout := [WarnFinalScoreMissing; WarnAisMissing];
              output_file := None |}
           duplicate_hour K_SHIP (ustr "Speed") (ship_factors duplicate_hour)
           [speed_first] [] speed_last).
  - vm_compute; reflexivity.
  - left; reflexivity.
  - reflexivity.
  - vm_compute; reflexivity.
  - reflexivity.
  - intros r' [].
Defined.

(** The sample run writes every surviving pair. *)
Lemma sample_pairs_reach_the_document :
  exists w1 out,
    consolidate (Table sample_table) NoFile initial_world = (w1, Return out)
    /\ (forall doc,
          output_file
            (fst (create_consolidated_json (Table sample_table) NoFile
                    initial_world))
          = Some (Whole doc) ->
          doc = JArray (map json_of_record out))
    /\ (existsb int64_score out = false ->
        output_file
          (fst (create_consolidated_json (Table sample_table) NoFile
                  initial_world))
        = Some (Whole (JArray (map json_of_record out))))
    /\ (forall pre r post,
          reshaped sample_table = pre ++ r :: post ->
          str_in (canonical r) bucket_keys = true ->
          hour_parses (fr_time_range r) = true ->
          (forall r', In r' post ->
             lands_in (fr_time_range r) (canonical r) (factor_name r) r'
             = false) ->
          doc_has_factor (JArray (map json_of_record out))
            (fr_time_range r) (canonical r) (factor_name r) (fr_value r))
    /\ (forall h key d name v,
          In h out -> bucket key h = Some d -> In (name, v) d ->
          doc_has_factor (JArray (map json_of_record out))
            (time_range h) key name v).
Proof.
  eexists; eexists. split; [vm_compute; reflexivity|].
  eapply (@surviving_pairs_reach_the_document AsciiLib.ascii_lib sample_table NoFile _
            initial_world _).
  vm_compute; reflexivity.
Defined.

(* ================================================================== *)
(** ** The output file is touched at the end or not at all *)
(* ================================================================== *)

Lemma keeps_ret {A} (a : A) : keeps_file (ret a).
Proof. intros w; apply printed_refl. Qed.

Lemma keeps_raise {A} (e : exn) : keeps_file (@raise A e).
Proof. intros w; apply printed_refl. Qed.

Lemma keeps_print (m : message) : keeps_file (print m).
Proof. intros w; apply printed_print. Qed.

Lemma keeps_bind {A B} (m : M A) (f : A -> M B) :
  keeps_file m -> (forall a, keeps_file (f a)) -> keeps_file (bind m f).
Proof.
  intros Hm Hf w. unfold bind. specialize (Hm w).
  destruct (m w) as [w1 [a | e]]; simpl in *; [|assumption].
  eapply printed_trans; [exact Hm | apply Hf].
Qed.

Lemma keeps_try_except {A} (m : M A) (handler : exn -> option (M A)) :
  keeps_file m -> (forall e h, handler e = Some h -> keeps_file h) ->
  keeps_file (try_except m handler).
Proof.
  intros Hm Hh w. unfold try_except. specialize (Hm w).
  destruct (m w) as [w1 [a | e]]; simpl in *; [assumption|].
  destruct (handler e) as [h|] eqn:E; simpl; [|assumption].
  eapply printed_trans; [exact Hm | apply (Hh e h E)].
Qed.

Create HintDb keeps.
#[local] Hint Resolve keeps_ret keeps_raise keeps_print : keeps.

Ltac keeps_step :=
  first [ apply keeps_ret | apply keeps_raise | apply keeps_print
        | apply keeps_bind; [|intros ?] ].

Section KeepsFile.

Context {lib : PyLib}.

Lemma keeps_add_factor (h : HourlyRecord) (r : FactorRecord) :
  keeps_file (add_factor h r).
Proof.
  unfold add_factor. apply keeps_bind.
  - destruct (fr_factor r); auto with keeps.
  - intros factor. destruct (str_in _ record_keys).
    + unfold assign_factor.
      repeat match goal with |- context [if ?b then _ else _] =>
        destruct b end; auto with keeps.
    + repeat keeps_step.
Qed.

Lemma keeps_add_factors (rs : list FactorRecord) (h : HourlyRecord) :
  keeps_file (add_factors h rs).
Proof.
  revert h; induction rs as [|r rs IH]; intros h; simpl.
  - apply keeps_ret.
  - apply keeps_bind; [apply keeps_add_factor | intros h'; apply IH].
Qed.

Lemma keeps_for_time_ranges (long : list FactorRecord) (scores : dict cell)
    (ais_df : AisFrame) (trs : list pystr) (acc : list HourlyRecord) :
  keeps_file (for_time_ranges long scores ais_df trs acc).
Proof.
  revert acc; induction trs as [|tr trs IH]; intros acc; simpl.
  - apply keeps_ret.
  - destruct (py_int (first_field COLON tr)).
    + apply keeps_bind; [apply keeps_add_factors | intros h; apply IH].
    + apply keeps_bind; [apply keeps_print | intros _; apply IH].
Qed.

Lemma keeps_final_score_map (named df : DataFrame) (tvs : list pystr) :
  keeps_file (final_score_map named df tvs).
Proof.
  unfold final_score_map.
  destruct (index_of FACTOR_CATEGORY (columns df)); [|apply keeps_raise].
  destruct (has_str_accessor _ _); [|apply keeps_raise].
  destruct (filter _ _); repeat keeps_step.
Qed.

Lemma keeps_read_csv (filename : pystr) (src : csv_source) :
  keeps_file (read_csv filename src).
Proof. destruct src; simpl; auto with keeps. Qed.

Lemma keeps_load_ais (ais : csv_source) : keeps_file (load_ais ais).
Proof.
  unfold load_ais. apply keeps_try_except.
  - apply keeps_bind; [apply keeps_read_csv|]. intros df0.
    destruct (index_of TIMESTAMP _); [|apply keeps_raise].
    destruct (Nat.ltb 1 _); auto with keeps.
  - intros e h He. destruct e; try discriminate.
    injection He; intros <-. repeat keeps_step.
Qed.

(** Steps 1 to 3 never touch the output file, however they end. *)
Lemma keeps_consolidate (factors ais : csv_source) :
  keeps_file (consolidate factors ais).
Proof.
  unfold consolidate.
  apply keeps_bind; [apply keeps_read_csv | intros df0].
  apply keeps_bind.
  { unfold fill_categories. destruct (index_of _ _); auto with keeps. }
  intros factors_df. apply keeps_bind.
  { unfold factors_long_df. apply keeps_bind; [|intros; apply keeps_ret].
    unfold melt. destruct (str_in VALUE _); [apply keeps_raise|].
    destruct (index_of _ _); [|apply keeps_raise].
    destruct (index_of _ _); auto with keeps. }
  intros long. apply keeps_bind; [apply keeps_final_score_map | intros scores].
  apply keeps_bind; [apply keeps_load_ais | intros ais_df].
  apply keeps_for_time_ranges.
Qed.

(** X1: [create_consolidated_json] never lets an exception out, and a run
    ends in one of three ways.  When steps 1 to 3 return their records and no
    final score is an int64, the file holds exactly their document, and after
    the lines of steps 1 to 3 come the success line with their number and,
    when there is a record, the sample lines of the first.  When steps 1 to 3
    return and some final score is an int64, the file is left cut short: no
    success line, the [TypeError] is printed last.  When a step raises, the
    file is what it was before the run and the last lines printed are those
    of the matching handler. *)
Theorem run_ends_in_one_of_three_ways (factors ais : csv_source) (w : world) :
  exists w',
    create_consolidated_json factors ais w = (w', Return tt)
    /\ ((exists w1 out,
           consolidate factors ais w = (w1, Return out)
           /\ existsb int64_score out = false
           /\ output_file w' = Some (Whole (JArray (map json_of_record out)))
           /\ stdout w' = stdout w1 ++ closing_lines out)
        \/ (exists w1 out,
              consolidate factors ais w = (w1, Return out)
              /\ existsb int64_score out = true
              /\ output_file w'
                 = Some (CutShort (JArray (map json_of_record out)))
              /\ stdout w' = stdout w1 ++ [ErrUnexpected TypeError])
        \/ (exists w1 e,
              consolidate factors ais w = (w1, Raise e)
              /\ output_file w' = output_file w
              /\ stdout w' = stdout w1 ++ error_lines e)).
Proof.
  pose proof (keeps_consolidate factors ais w) as [Hfile _].
  destruct (consolidate factors ais w) as [w1 [out | e]] eqn:E; simpl in *.
  - destruct (existsb int64_score out) eqn:Ei.
    + eexists; split; [eapply create_consolidated_json_cut; eassumption|].
      right; left; exists w1, out; simpl; auto.
    + eexists; split; [eapply create_consolidated_json_run; eassumption|].
      left; exists w1, out; simpl; auto.
  - unfold create_consolidated_json, try_except, bind. rewrite E.
    destruct e; simpl; (eexists; split; [reflexivity|]);
      right; right; eexists; eexists; (split; [reflexivity|]); simpl;
      rewrite <- ?app_assoc; auto.
Qed.

End KeepsFile.

(* ================================================================== *)
(** ** Runs that stop early *)
(* ================================================================== *)

Section EarlyStops.

Context {lib : PyLib}.

(** With both label columns and a category column of text, the run gets as
    far as the event log, having printed at most the final-score warning. *)
Lemma consolidate_upto_load (df0 : DataFrame) (k kf : nat) (w : world) :
  category_index df0 = Some k ->
  str_in VALUE (columns (named_table df0)) = false ->
  index_of FACTOR (columns (named_table df0)) = Some kf ->
  has_str_accessor k (rows df0) = true ->
  exists w1 scores,
    final_score_map (named_table df0) (factors_table df0)
      (time_vars (factors_table df0)) w = (w1, Return scores)
    /\ forall ais,
         consolidate (Table df0) ais w
         = bind (load_ais ais)
             (fun ais_df =>
                for_time_ranges (reshaped df0) scores ais_df
                  (unique_time_ranges (reshaped df0)) []) w1.
Proof.
  intros Ek Hv Ef Hs.
  destruct (@final_score_map_total lib df0 (time_vars (factors_table df0)) w k
              Ek Hs) as (w1 & scores & Es).
  exists w1, scores. split; [exact Es|]. intros ais.
  unfold consolidate, read_csv.
  unfold bind at 1, ret at 1. unfold fill_categories.
  pose proof Ek as Ek'. unfold category_index in Ek'. rewrite Ek'.
  unfold bind at 1, ret at 1.
  assert (Efdf : ffill_dropna k (named_table df0) = factors_table df0)
    by (unfold factors_table; rewrite Ek; reflexivity).
  rewrite Efdf.
  unfold factors_long_df, melt. rewrite columns_factors_table, Hv, Ek', Ef.
  unfold bind at 1. unfold bind at 1, ret at 1 2.
  fold (reshaped df0).
  erewrite bind_run by exact Es. reflexivity.
Qed.

Lemma load_ais_raises (ais : csv_source) (e : exn) (w : world) :
  load_error ais = Some e -> load_ais ais w = (w, Raise e).
Proof.
  unfold load_error, load_ais, try_except, bind, read_csv.
  destruct ais as [| |t]; simpl; try discriminate.
  - intros H; injection H; intros <-; reflexivity.
  - unfold ret at 1.
    destruct (index_of TIMESTAMP (map strip (columns t))).
    + destruct (Nat.ltb 1 (count_of TIMESTAMP (map strip (columns t))));
        [|discriminate].
      intros H; injection H; intros <-; reflexivity.
    + intros H; injection H; intros <-; reflexivity.
Qed.

Lemma well_formed_columns (df0 : DataFrame) :
  well_formed df0 = true ->
  exists k kf,
    category_index df0 = Some k
    /\ str_in VALUE (columns (named_table df0)) = false
    /\ index_of FACTOR (columns (named_table df0)) = Some kf
    /\ has_str_accessor k (rows df0) = true.
Proof.
  unfold well_formed; intros H.
  apply andb_true_iff in H; destruct H as [H _].
  apply andb_true_iff in H; destruct H as [Hv H].
  apply andb_true_iff in Hv; destruct Hv as [_ Hv]; apply negb_true_iff in Hv.
  fold VALUE in Hv.
  destruct (category_index df0) as [k|]; [|discriminate].
  destruct (index_of FACTOR (columns (named_table df0))) as [kf|];
    [|discriminate].
  exists k, kf; auto.
Qed.

(** X2: of the event log's troubles only the missing file is forgiven.  On
    a well-formed factor table, an event log that pandas cannot read, one
    without a [Timestamp] column, or one with several, ends the run in the
    handler of line 170: the exception is printed last and the output file
    is not written. *)
Theorem unusable_event_log_stops_the_run (df0 : DataFrame) (ais : csv_source)
    (e : exn) (w : world) :
  well_formed df0 = true -> load_error ais = Some e ->
  exists w1,
    printed w w1
    /\ consolidate (Table df0) ais w = (w1, Raise e)
    /\ create_consolidated_json (Table df0) ais w
       = ({| stdout := stdout w1 ++ [ErrUnexpected e];
             output_file := output_file w |}, Return tt).
Proof.
  intros Hwf He.
  destruct (well_formed_columns df0 Hwf) as (k & kf & Ek & Hv & Ef & Hs).
  destruct (consolidate_upto_load df0 w Ek Hv Ef Hs) as (w1 & scores & Es & Hc).
  assert (Hp : printed w w1) by (eapply final_score_map_Return; exact Es).
  assert (E : consolidate (Table df0) ais w = (w1, Raise e)).
  { rewrite Hc. unfold bind. rewrite (load_ais_raises ais w1 He). reflexivity. }
  exists w1. split; [exact Hp|]. split; [exact E|].
  unfold create_consolidated_json, try_except, bind. rewrite E.
  destruct Hp as [Hfile _].
  destruct ais as [| |t]; simpl in He; try discriminate.
  - injection He; intros <-; unfold print. rewrite Hfile; reflexivity.
  - destruct (index_of TIMESTAMP (map strip (columns t))).
    + destruct (Nat.ltb 1 (count_of TIMESTAMP (map strip (columns t))));
        [|discriminate].
      injection He; intros <-; unfold print. rewrite Hfile; reflexivity.
    + injection He; intros <-; unfold print. rewrite Hfile; reflexivity.
Qed.

Lemma label_error_raises (df0 : DataFrame) (ais : csv_source) (e : exn)
    (w : world) :
  label_error df0 = Some e -> consolidate (Table df0) ais w = (w, Raise e).
Proof.
  unfold label_error, category_index; intros He.
  unfold consolidate, read_csv. unfold bind at 1, ret at 1.
  unfold fill_categories.
  destruct (index_of FACTOR_CATEGORY (columns (named_table df0))) as [k|] eqn:E.
  - unfold bind at 1, ret at 1. unfold factors_long_df, melt.
    change (columns (ffill_dropna k (named_table df0)))
      with (columns (named_table df0)).
    rewrite E.
    destruct (str_in VALUE (columns (named_table df0))).
    + injection He; intros <-; reflexivity.
    + destruct (index_of FACTOR (columns (named_table df0)));
        [discriminate|].
      injection He; intros <-; reflexivity.
  - injection He; intros <-; reflexivity.
Qed.

(** X3: a factor table whose headers lack the category column, or have it
    (once) and hold a column named [value], or have it (once) and lack the
    factor column, stops the run with, in that order of precedence, a
    [KeyError] naming [Factor Category], a [ValueError], a [KeyError] naming
    [Factor]: steps 1 to 3 raise it without a look at the event log, the
    handler of line 170 prints it last, and the output file is left as it
    was. *)
Theorem missing_label_column_stops_the_run (df0 : DataFrame)
    (ais : csv_source) (e : exn) (w : world) :
  (count_of FACTOR_CATEGORY (columns (named_table df0)) <= 1)%nat ->
  label_error df0 = Some e ->
  exists w1,
    printed w w1
    /\ consolidate (Table df0) ais w = (w1, Raise e)
    /\ (forall ais', consolidate (Table df0) ais' w = (w1, Raise e))
    /\ create_consolidated_json (Table df0) ais w
       = ({| stdout := stdout w1 ++ [ErrUnexpected e];
             output_file := output_file w |}, Return tt).
Proof.
  intros _ He. exists w. split; [apply printed_refl|].
  split; [apply label_error_raises; exact He|].
  split; [intros ais'; apply label_error_raises; exact He|].
  unfold create_consolidated_json, try_except, bind.
  rewrite (label_error_raises df0 ais w He).
  unfold label_error in He.
  destruct (category_index df0).
  - destruct (str_in VALUE (columns (named_table df0))).
    + injection He; intros <-; reflexivity.
    + destruct (index_of FACTOR (columns (named_table df0)));
        [discriminate|].
      injection He; intros <-; reflexivity.
  - injection He; intros <-; reflexivity.
Qed.

End EarlyStops.

(** An event log without its [Timestamp] column stops the sample run. *)
Lemma untimed_log_stops_the_sample_run :
  exists w1,
    printed initial_world w1
    /\ consolidate (Table sample_table) (Table untimed_ais) initial_world
       = (w1, Raise (KeyError TIMESTAMP))
    /\ create_consolidated_json (Table sample_table) (Table untimed_ais)
         initial_world
       = ({| stdout := stdout w1 ++ [ErrUnexpected (KeyError TIMESTAMP)];
             output_file := output_file initial_world |}, Return tt).
Proof.
  apply (@unusable_event_log_stops_the_run AsciiLib.ascii_lib sample_table
           (Table untimed_ais) (KeyError TIMESTAMP) initial_world);
    reflexivity.
Defined.

(** A table without its factor column stops at the reshape. *)
Lemma no_factor_column_stops_the_run :
  (count_of FACTOR_CATEGORY (columns (named_table no_factor_table)) <= 1)%nat
  /\ label_error no_factor_table = Some (KeyError FACTOR)
  /\ exists w1,
    printed initial_world w1
    /\ consolidate (Table no_factor_table) NoFile initial_world
       = (w1, Raise (KeyError FACTOR))
    /\ (forall ais',
          consolidate (Table no_factor_table) ais' initial_world
          = (w1, Raise (KeyError FACTOR)))
    /\ create_consolidated_json (Table no_factor_table) NoFile initial_world
       = ({| stdout := stdout w1 ++ [ErrUnexpected (KeyError FACTOR)];
             output_file := output_file initial_world |}, Return tt).
Proof.
  split; [vm_compute; lia|]. split; [reflexivity|].
  apply (@missing_label_column_stops_the_run AsciiLib.ascii_lib
           no_factor_table NoFile (KeyError FACTOR) initial_world).
  - vm_compute; lia.
  - reflexivity.
Defined.

(* ================================================================== *)
(** ** What a finished run says about the records it met *)
(* ================================================================== *)

Lemma bucket_key_is_not_other (c : pystr) :
  str_in c bucket_keys = true ->
  str_in c [K_TIME_RANGE; K_AIS_DATA; K_FINAL_SCORE] = false.
Proof.
  unfold str_in, bucket_keys; simpl.
  destruct (str_eqb c K_EXTERNAL) eqn:E1;
    [|destruct (str_eqb c K_HUMAN) eqn:E2;
      [|destruct (str_eqb c K_INTERNAL) eqn:E3;
        [|destruct (str_eqb c K_SHIP) eqn:E4]]];
    simpl; intros H; try discriminate;
    match goal with
    | E : str_eqb c _ = true |- _ => apply str_eqb_eq in E; subst c
    end; reflexivity.
Qed.

Lemma dict_set_In {V} (d : dict V) (k k' : pystr) (v v' : V) :
  In (k', v') (dict_set d k v) -> (k' = k /\ v' = v) \/ In (k', v') d.
Proof.
  induction d as [|[k0 v0] d IH]; simpl.
  - intros [E | []]; injection E; auto.
  - destruct (str_eqb k k0) eqn:Ek; simpl.
    + apply str_eqb_eq in Ek; subst k0.
      intros [E | H]; [injection E; auto | auto].
    + intros [E | H]; [auto|]. destruct (IH H); auto.
Qed.

Section Met.

Context {lib : PyLib}.

Lemma add_factor_Return_ok (h h' : HourlyRecord) (r : FactorRecord)
    (w w' : world) :
  add_factor h r w = (w', Return h') ->
  (fr_factor r = NaN \/ is_str (fr_factor r) = true)
  /\ str_in (canonical r) [K_TIME_RANGE; K_AIS_DATA; K_FINAL_SCORE] = false.
Proof.
  unfold add_factor, canonical; intros H.
  apply bind_Return in H; destruct H as (factor & w1 & Hf & H). split.
  - destruct (fr_factor r); try discriminate; auto.
  - destruct (str_in (format_category_name (fr_category r)) record_keys) eqn:Hin.
    + apply assign_factor_Return in H. destruct H as (_ & Hb & _).
      apply bucket_key_is_not_other, Hb.
    + rewrite record_keys_split in Hin.
      apply orb_false_iff in Hin; apply Hin.
Qed.

Lemma add_factors_Return_ok (rs : list FactorRecord) (h h' : HourlyRecord)
    (w w' : world) :
  add_factors h rs w = (w', Return h') ->
  forall r, In r rs ->
    (fr_factor r = NaN \/ is_str (fr_factor r) = true)
    /\ str_in (canonical r) [K_TIME_RANGE; K_AIS_DATA; K_FINAL_SCORE] = false.
Proof.
  revert h w; induction rs as [|r0 rs IH]; intros h w H r Hr; simpl in *.
  - contradiction.
  - apply bind_Return in H; destruct H as (h1 & w1 & H1 & H).
    destruct Hr as [<- | Hr].
    + eapply add_factor_Return_ok; exact H1.
    + eapply IH; eassumption.
Qed.

Lemma add_factor_warns (h h' : HourlyRecord) (r : FactorRecord)
    (w w' : world) :
  add_factor h r w = (w', Return h') ->
  str_in (canonical r) record_keys = false ->
  In (WarnUnknownCategory (canonical r)) (stdout w').
Proof.
  unfold add_factor, canonical; intros H Hin.
  apply bind_Return in H; destruct H as (factor & w1 & Hf & H).
  assert (w1 = w) as ->
    by (destruct (fr_factor r); unfold ret, raise in Hf; inversion Hf; auto).
  rewrite Hin in H. unfold bind, print, ret in H.
  injection H; intros _ <-; simpl. apply in_or_app; simpl; auto.
Qed.

Lemma add_factors_warns (rs : list FactorRecord) (h h' : HourlyRecord)
    (w w' : world) :
  add_factors h rs w = (w', Return h') ->
  forall r, In r rs -> str_in (canonical r) record_keys = false ->
    In (WarnUnknownCategory (canonical r)) (stdout w').
Proof.
  revert h w; induction rs as [|r0 rs IH]; intros h w H r Hr Hin; simpl in *.
  - contradiction.
  - apply bind_Return in H; destruct H as (h1 & w1 & H1 & H).
    destruct Hr as [<- | Hr].
    + apply add_factors_Return in H. destruct H as (_ & _ & _ & _ & Hp).
      eapply printed_In; [exact Hp|]. eapply add_factor_warns; eassumption.
    + eapply IH; eassumption.
Qed.

(** What the loop over the labels has seen once it returns: under each
    parsable label only records it could file, a warning for each record
    of unknown category, a warning for each label it skipped. *)
Lemma for_time_ranges_met (long : list FactorRecord) (scores : dict cell)
    (ais_df : AisFrame) (trs : list pystr) (acc out : list HourlyRecord)
    (w w' : world) :
  for_time_ranges long scores ais_df trs acc w = (w', Return out) ->
  forall tr, In tr trs ->
    (hour_parses tr = false -> In (WarnSkipTimeRange tr) (stdout w'))
    /\ (hour_parses tr = true ->
        forall r, In r (factors_in_hour long tr) ->
          ((fr_factor r = NaN \/ is_str (fr_factor r) = true)
           /\ str_in (canonical r) [K_TIME_RANGE; K_AIS_DATA; K_FINAL_SCORE]
              = false)
          /\ (str_in (canonical r) record_keys = false ->
              In (WarnUnknownCategory (canonical r)) (stdout w'))).
Proof.
  revert acc w; induction trs as [|tr0 trs IH]; intros acc w H tr Htr;
    simpl in H; [contradiction|].
  destruct (py_int (first_field COLON tr0)) as [sh|] eqn:Eh.
  - apply bind_Return in H; destruct H as (h & w1 & Hh & H).
    destruct Htr as [<- | Htr]; [|eapply IH; eassumption].
    unfold hour_parses; rewrite Eh. split; [discriminate|]. intros _ r Hr.
    unfold hourly_record in Hh. split.
    + eapply add_factors_Return_ok; eassumption.
    + intros Hin. apply for_time_ranges_Return in H.
      destruct H as (_ & _ & _ & _ & Hp).
      eapply printed_In; [exact Hp|]. eapply add_factors_warns; eassumption.
  - apply bind_Return in H; destruct H as ([] & w1 & Hp & H).
    destruct Htr as [<- | Htr]; [|eapply IH; eassumption].
    unfold hour_parses; rewrite Eh. split; [|discriminate]. intros _.
    apply for_time_ranges_Return in H. destruct H as (_ & _ & _ & _ & Hp').
    eapply printed_In; [exact Hp'|].
    unfold print in Hp; injection Hp; intros <-; simpl.
    apply in_or_app; simpl; auto.
Qed.

Lemma reshaped_notna (df0 : DataFrame) (r : FactorRecord) :
  In r (reshaped df0) ->
  notna (fr_factor r) = true /\ notna (fr_value r) = true.
Proof.
  unfold reshaped, dropna_factor_value; intros H.
  apply filter_In in H; destruct H as [_ H]. apply andb_true_iff, H.
Qed.

(** A finished run, record by record of the reshaped data. *)
Lemma consolidate_met (df0 : DataFrame) (ais : csv_source)
    (out : list HourlyRecord) (w w' : world) (r : FactorRecord) :
  consolidate (Table df0) ais w = (w', Return out) ->
  In r (reshaped df0) ->
  (hour_parses (fr_time_range r) = false ->
   In (WarnSkipTimeRange (fr_time_range r)) (stdout w'))
  /\ (hour_parses (fr_time_range r) = true ->
      processable r = true
      /\ (str_in (canonical r) record_keys = false ->
          In (WarnUnknownCategory (canonical r)) (stdout w'))).
Proof.
  intros E Hr. apply consolidate_Return in E.
  destruct E as (scores & ais_df & w1 & w2 & _ & _ & E).
  assert (Hl : In (fr_time_range r) (unique_time_ranges (reshaped df0)))
    by (apply unique_time_ranges_spec; eauto).
  edestruct for_time_ranges_met as [Hskip Hok]; [exact E | exact Hl |].
  split; [exact Hskip|]. intros Hp.
  assert (Hin : In r (factors_in_hour (reshaped df0) (fr_time_range r)))
    by (apply filter_In; split; [assumption | apply str_eqb_refl]).
  destruct (Hok Hp r Hin) as [[Hnum Hkeys] Hwarn].
  split; [|exact Hwarn].
  unfold processable; rewrite Hkeys, andb_true_r.
  pose proof Hr as Hf; apply reshaped_notna in Hf; destruct Hf as [Hf _].
  destruct Hnum as [Hnan | Hstr]; [|exact Hstr].
  rewrite Hnan in Hf; discriminate.
Qed.

(** X4: a run gets through step 3 only over records it can file: whenever
    it returns, every record of the reshaped data under a label whose hour
    parses has a text factor name and a category that does not canonicalize
    to [time_range], [ais_data] or [final_score]. *)
Theorem finished_run_met_only_processable_records (df0 : DataFrame)
    (ais : csv_source) (out : list HourlyRecord) (w w' : world) :
  consolidate (Table df0) ais w = (w', Return out) ->
  forall r, In r (reshaped df0) -> hour_parses (fr_time_range r) = true ->
    is_str (fr_factor r) = true
    /\ str_in (canonical r) [K_TIME_RANGE; K_AIS_DATA; K_FINAL_SCORE] = false.
Proof.
  intros E r Hr Hp.
  edestruct consolidate_met as [_ H]; [exact E | exact Hr |].
  destruct (H Hp) as [Hproc _]. unfold processable in Hproc.
  apply andb_true_iff in Hproc; destruct Hproc as [H1 H2].
  apply negb_true_iff in H2; auto.
Qed.

(** X5: a label whose text before the first colon does not parse as an
    integer is skipped with the warning of line 108: the warning naming the
    label is printed and no record carries the label. *)
Theorem unparsable_label_is_skipped_with_a_warning (df0 : DataFrame)
    (ais : csv_source) (out : list HourlyRecord) (w w' : world) :
  consolidate (Table df0) ais w = (w', Return out) ->
  forall r, In r (reshaped df0) -> hour_parses (fr_time_range r) = false ->
    In (WarnSkipTimeRange (fr_time_range r)) (stdout w')
    /\ forall h, In h out -> time_range h <> fr_time_range r.
Proof.
  intros E r Hr Hp.
  edestruct consolidate_met as [H _]; [exact E | exact Hr |].
  split; [exact (H Hp)|]. intros h Hh Heq.
  apply consolidate_shape in E.
  destruct E as (_ & _ & _ & _ & _ & _ & Hm & _ & _).
  assert (Hin : In (time_range h) (map time_range out)) by (apply in_map, Hh).
  rewrite Hm in Hin. apply filter_In in Hin. destruct Hin as [_ Hin].
  congruence.
Qed.

Lemma fold_file_record_skip (key : pystr) (pre post : list FactorRecord)
    (r : FactorRecord) (d : dict cell) :
  str_eqb (canonical r) key = false ->
  fold_left (file_record key) (pre ++ r :: post) d
  = fold_left (file_record key) (pre ++ post) d.
Proof.
  intros H. rewrite !fold_left_app; simpl.
  unfold file_record at 2. rewrite H. reflexivity.
Qed.

(** X6: under a label whose hour parses, a record whose category
    canonicalizes to none of the seven keys of [hourly_record] (an empty or
    numeric category cell canonicalizes to "unknown") gets the warning of
    line 143 printed with its canonical name, and leaves no trace in the
    output: every dictionary of every hourly record is the one the loop
    builds from the reshaped data with that record taken out. *)
Theorem unknown_category_is_warned_and_left_out (df0 : DataFrame)
    (ais : csv_source) (out : list HourlyRecord) (w w' : world) :
  consolidate (Table df0) ais w = (w', Return out) ->
  forall r, In r (reshaped df0) -> hour_parses (fr_time_range r) = true ->
    str_in (canonical r) record_keys = false ->
    In (WarnUnknownCategory (canonical r)) (stdout w')
    /\ forall pre post, reshaped df0 = pre ++ r :: post ->
         forall h key d,
           In h out -> bucket key h = Some d ->
           d = fold_left (file_record key)
                 (factors_in_hour (pre ++ post) (time_range h)) [].
Proof.
  intros E r Hr Hp Hin.
  edestruct consolidate_met as [_ H]; [exact E | exact Hr |].
  destruct (H Hp) as [_ Hwarn]. split; [exact (Hwarn Hin)|].
  intros pre post Hsplit h key d Hh Hd.
  apply consolidate_shape in E.
  destruct E as (scores & ais_df & w1 & w2 & _ & _ & _ & Hb & _).
  rewrite Forall_forall in Hb. destruct (Hb h Hh) as (sh & _ & _ & _ & Hfold).
  rewrite (Hfold key d Hd), Hsplit. unfold factors_in_hour.
  rewrite !filter_app; simpl.
  destruct (str_eqb (fr_time_range r) (time_range h)); [|reflexivity].
  apply fold_file_record_skip. apply str_eqb_neq; intros Heq.
  assert (Hk : str_in key bucket_keys = true)
    by (apply (bucket_Some key h); eauto).
  rewrite record_keys_split, Heq, Hk in Hin. discriminate.
Qed.

End Met.

(* ================================================================== *)
(** ** Where the entries of the output come from *)
(* ================================================================== *)

Lemma fold_left_same {A B} (f g : A -> B -> A) (l : list B) (a : A) :
  (forall x y, f x y = g x y) -> fold_left f l a = fold_left g l a.
Proof.
  intros H; revert a; induction l as [|y l IH]; intros a; simpl;
    [reflexivity|]. rewrite H; apply IH.
Qed.

Lemma dict_get_In_value {V} (d : dict V) (k : pystr) (v : V) :
  dict_get d k = Some v -> In (k, v) d.
Proof.
  induction d as [|[k0 v0] d IH]; simpl; [discriminate|].
  destruct (str_eqb k k0) eqn:E.
  - apply str_eqb_eq in E; subst k0. intros H; injection H; intros <-; auto.
  - auto.
Qed.

Section Origins.

Context {lib : PyLib}.

Lemma fold_file_record_In (key name : pystr) (v : cell)
    (rs : list FactorRecord) (d : dict cell) :
  In (name, v) (fold_left (file_record key) rs d) ->
  In (name, v) d
  \/ exists r, In r rs /\ canonical r = key /\ factor_name r = name
               /\ fr_value r = v.
Proof.
  revert d; induction rs as [|r rs IH]; intros d H; simpl in H; [auto|].
  apply IH in H. destruct H as [H | (r' & Hr' & H)].
  - unfold file_record in H.
    destruct (str_eqb (canonical r) key) eqn:E; [|auto].
    apply dict_set_In in H. destruct H as [[-> ->] | H]; [|auto].
    right; exists r. apply str_eqb_eq in E; simpl; auto.
  - right; exists r'; simpl; auto.
Qed.

(** X7: the dictionaries of the output hold nothing that is not in the
    table: every entry of a dictionary of an hourly record is the trimmed
    text factor name and the value of a record of the reshaped data with the
    record's label and that category, and the value is not missing. *)
Theorem bucket_entries_come_from_the_table (df0 : DataFrame)
    (ais : csv_source) (out : list HourlyRecord) (w w' : world) :
  consolidate (Table df0) ais w = (w', Return out) ->
  forall h key d name v,
    In h out -> bucket key h = Some d -> In (name, v) d ->
    exists r s,
      In r (reshaped df0)
      /\ fr_time_range r = time_range h /\ canonical r = key
      /\ fr_factor r = Str s /\ name = strip s
      /\ fr_value r = v /\ notna v = true.
Proof.
  intros E h key d name v Hh Hd Hv.
  pose proof E as E'. apply consolidate_shape in E'.
  destruct E' as (scores & ais_df & w1 & w2 & _ & _ & Hm & Hb & _).
  rewrite Forall_forall in Hb. destruct (Hb h Hh) as (sh & Hsh & _ & _ & Hfold).
  rewrite (Hfold key d Hd) in Hv.
  apply fold_file_record_In in Hv. destruct Hv as [[] | (r & Hr & Hk & Hn & Hval)].
  apply filter_In in Hr. destruct Hr as [Hr Ht]. apply str_eqb_eq in Ht.
  assert (Hp : hour_parses (fr_time_range r) = true)
    by (unfold hour_parses; rewrite Ht, Hsh; reflexivity).
  edestruct consolidate_met as [_ H]; [exact E | exact Hr |].
  destruct (H Hp) as [Hproc _]. unfold processable in Hproc.
  apply andb_true_iff in Hproc; destruct Hproc as [Hs _].
  destruct (fr_factor r) as [|s|q|z] eqn:Ef; try discriminate.
  exists r, s. unfold factor_name in Hn; rewrite Ef in Hn.
  pose proof Hr as Hna; apply reshaped_notna in Hna. destruct Hna as [_ Hna].
  rewrite Hval in Hna.
  repeat split; try assumption; try reflexivity; symmetry; assumption.
Qed.

Lemma final_score_map_fold (df0 : DataFrame) (tvs : list pystr) (r : row)
    (scores : dict cell) (w w' : world) :
  score_row df0 = Some r ->
  final_score_map (named_table df0) (factors_table df0) tvs w
  = (w', Return scores) ->
  scores = fold_left (score_step (factors_table df0) r) tvs [].
Proof.
  unfold score_row, final_score_map.
  rewrite columns_factors_table. fold (category_index df0).
  destruct (category_index df0) as [k|]; [|discriminate].
  destruct (has_str_accessor k (rows (named_table df0))); [|discriminate].
  destruct (filter _ (rows (factors_table df0))) as [|r0 rest];
    intros Hrow Hs; [discriminate|].
  simpl in Hrow; injection Hrow; intros ->.
  unfold ret in Hs; injection Hs; intros <- _.
  apply fold_left_same. intros m col. unfold score_step, column_cell.
  rewrite columns_factors_table.
  change (map rename_column (map strip (columns df0)))
    with (columns (named_table df0)).
  destruct (index_of col (columns (named_table df0))); reflexivity.
Qed.

Lemma final_score_map_unscored_row (df0 : DataFrame) (tvs : list pystr)
    (scores : dict cell) (w w' : world) :
  score_row df0 = None ->
  final_score_map (named_table df0) (factors_table df0) tvs w
  = (w', Return scores) ->
  scores = [].
Proof.
  unfold score_row, final_score_map.
  rewrite columns_factors_table. fold (category_index df0).
  destruct (category_index df0) as [k|]; [|discriminate].
  destruct (has_str_accessor k (rows (named_table df0))); [|discriminate].
  destruct (filter _ (rows (factors_table df0))) as [|r0 rest];
    [|discriminate]. intros _.
  unfold bind, print, ret; simpl. intros H; injection H; auto.
Qed.

Lemma score_fold_other (df : DataFrame) (r : row) (key : pystr)
    (tvs : list pystr) (m : dict cell) :
  (forall c, In c tvs -> normalize_time_range c = key ->
             notna (column_cell df c r) = false) ->
  dict_get (fold_left (score_step df r) tvs m) key = dict_get m key.
Proof.
  revert m; induction tvs as [|c tvs IH]; intros m H; simpl; [reflexivity|].
  rewrite IH by (intros; apply H; simpl; auto).
  unfold score_step. destruct (notna (column_cell df c r)) eqn:En;
    [|reflexivity].
  rewrite dict_get_set. destruct (str_eqb key (normalize_time_range c)) eqn:E;
    [|reflexivity].
  apply str_eqb_eq in E. rewrite (H c) in En by (simpl; auto). discriminate.
Qed.

Lemma score_fold_last (df : DataFrame) (r : row) (pre post : list pystr)
    (col : pystr) (m : dict cell) :
  notna (column_cell df col r) = true ->
  (forall c, In c post -> normalize_time_range c = normalize_time_range col ->
             notna (column_cell df c r) = false) ->
  dict_get (fold_left (score_step df r) (pre ++ col :: post) m)
           (normalize_time_range col)
  = Some (column_cell df col r).
Proof.
  intros Hn Hpost. rewrite fold_left_app; simpl.
  rewrite score_fold_other by assumption.
  unfold score_step at 1. rewrite Hn, dict_get_set, str_eqb_refl. reflexivity.
Qed.

Lemma score_fold_notna (df : DataFrame) (r : row) (tvs : list pystr)
    (m : dict cell) :
  Forall (fun kv => notna (snd kv) = true) m ->
  Forall (fun kv => notna (snd kv) = true) (fold_left (score_step df r) tvs m).
Proof.
  revert m; induction tvs as [|c tvs IH]; intros m H; simpl; [assumption|].
  apply IH. unfold score_step.
  destruct (notna (column_cell df c r)) eqn:En; [|assumption].
  apply Forall_forall; intros [k v] Hkv. apply dict_set_In in Hkv.
  destruct Hkv as [[_ ->] | Hkv]; [exact En|].
  rewrite Forall_forall in H; exact (H _ Hkv).
Qed.

(** X8: the score of a bucket.  With a "final score" row in the table, an
    hourly record gets the cell that the first such row has under the last
    time column whose header normalizes to the same key as the record's
    label and whose cell is filled; when no time column with that key has a
    filled cell there, the record's [final_score] is [None]. *)
Theorem final_score_is_read_from_the_score_row (df0 : DataFrame)
    (ais : csv_source) (out : list HourlyRecord) (w w' : world) (r : row) :
  consolidate (Table df0) ais w = (w', Return out) ->
  score_row df0 = Some r ->
  forall h, In h out ->
    (forall pre col post,
       time_vars (factors_table df0) = pre ++ col :: post ->
       normalize_time_range col = normalize_time_range (time_range h) ->
       notna (column_cell (factors_table df0) col r) = true ->
       (forall c, In c post ->
          normalize_time_range c = normalize_time_range col ->
          notna (column_cell (factors_table df0) c r) = false) ->
       final_score h = Some (column_cell (factors_table df0) col r))
    /\ ((forall c, In c (time_vars (factors_table df0)) ->
           normalize_time_range c = normalize_time_range (time_range h) ->
           notna (column_cell (factors_table df0) c r) = false) ->
        final_score h = None).
Proof.
  intros E Hrow h Hh. apply consolidate_shape in E.
  destruct E as (scores & ais_df & w1 & w2 & Hs & _ & _ & Hb & _).
  rewrite Forall_forall in Hb. destruct (Hb h Hh) as (sh & _ & _ & Hf & _).
  eapply final_score_map_fold in Hs; [|exact Hrow]. subst scores. split.
  - intros pre col post Htv Hkey Hn Hpost.
    rewrite Hf, <- Hkey, Htv. apply score_fold_last; assumption.
  - intros Hnone. rewrite Hf, score_fold_other by assumption. reflexivity.
Qed.

(** X9: [final_score] is never a missing value in disguise: in every
    hourly record it is [None] or a filled cell (line 66), so that the
    document shows [null] and never [NaN] under [final_score]. *)
Theorem final_score_is_null_or_filled (df0 : DataFrame) (ais : csv_source)
    (out : list HourlyRecord) (w w' : world) :
  consolidate (Table df0) ais w = (w', Return out) ->
  forall h, In h out ->
    (final_score h = None \/ exists c, final_score h = Some c /\ notna c = true)
    /\ json_member K_FINAL_SCORE (json_of_record h) <> Some JNaN.
Proof.
  intros E h Hh. apply consolidate_shape in E.
  destruct E as (scores & ais_df & w1 & w2 & Hs & _ & _ & Hb & _).
  rewrite Forall_forall in Hb. destruct (Hb h Hh) as (sh & _ & _ & Hf & _).
  assert (Hall : Forall (fun kv => notna (snd kv) = true) scores).
  { destruct (score_row df0) as [r|] eqn:Er.
    - eapply final_score_map_fold in Hs; [|exact Er]. subst scores.
      apply score_fold_notna; constructor.
    - eapply final_score_map_unscored_row in Hs; [|exact Er]. subst scores.
      constructor. }
  assert (H : final_score h = None
              \/ exists c, final_score h = Some c /\ notna c = true).
  { rewrite Hf. destruct (dict_get scores _) as [c|] eqn:Eg; [|auto].
    right; exists c; split; [reflexivity|].
    apply dict_get_In_value in Eg. rewrite Forall_forall in Hall.
    exact (Hall _ Eg). }
  split; [exact H|]. unfold json_of_record; simpl.
  destruct H as [-> | (c & -> & Hc)]; [discriminate|].
  destruct c; simpl; discriminate.
Qed.

Lemma score_fold_values (P : cell -> Prop) (df : DataFrame) (r : row)
    (tvs : list pystr) (m : dict cell) :
  (forall c, In c tvs -> P (column_cell df c r)) ->
  Forall (fun kv => P (snd kv)) m ->
  Forall (fun kv => P (snd kv)) (fold_left (score_step df r) tvs m).
Proof.
  revert m; induction tvs as [|c tvs IH]; intros m Hc H; simpl; [assumption|].
  apply IH; [intros; apply Hc; simpl; auto|]. unfold score_step.
  destruct (notna (column_cell df c r)); [|assumption].
  apply Forall_forall; intros [k v] Hkv. apply dict_set_In in Hkv.
  destruct Hkv as [[_ ->] | Hkv]; [apply Hc; simpl; auto|].
  rewrite Forall_forall in H; exact (H _ Hkv).
Qed.

(** When no score of the table is an int64, no score of the records is. *)
Lemma no_int64_score_run (df0 : DataFrame) (ais : csv_source)
    (out : list HourlyRecord) (w w' : world) :
  no_int64_score df0 = true ->
  consolidate (Table df0) ais w = (w', Return out) ->
  existsb int64_score out = false.
Proof.
  intros Hfl E. apply consolidate_shape in E.
  destruct E as (scores & ais_df & w1 & w2 & Hs & _ & _ & Hb & _).
  assert (Hall : Forall (fun kv => is_int (snd kv) = false) scores).
  { unfold no_int64_score in Hfl. destruct (score_row df0) as [r|] eqn:Er.
    - eapply final_score_map_fold in Hs; [|exact Er]. subst scores.
      apply score_fold_values with (P := fun c => is_int c = false);
        [|constructor].
      intros c Hc. rewrite forallb_forall in Hfl.
      apply negb_true_iff, Hfl, Hc.
    - eapply final_score_map_unscored_row in Hs; [|exact Er]. subst scores.
      constructor. }
  clear Hs. induction Hb as [|h out (sh & _ & _ & Hf & _) _ IH]; simpl;
    [reflexivity|].
  rewrite IH, orb_false_r. unfold int64_score. rewrite Hf.
  destruct (dict_get scores _) as [c|] eqn:Eg; [|reflexivity].
  apply dict_get_In_value in Eg. rewrite Forall_forall in Hall.
  specialize (Hall _ Eg); simpl in Hall. destruct c; try reflexivity.
  discriminate.
Qed.

(** C4, as the code has it: when the event log is absent, or is a table
    with its one [Timestamp] column and no row whose timestamp parses (a
    table without rows is one), every hourly record of a run that gets
    through step 3 has [ais_data = []], written as an empty JSON array; on a
    well-formed factor table the run does get through step 3, and when no
    final score is an int64 it writes its document whole. *)
Theorem no_events_give_empty_ais_data (ais : csv_source) :
  without_events ais = true ->
  (forall df0 w w' out,
     consolidate (Table df0) ais w = (w', Return out) ->
     Forall (fun h => ais_data h = []
                      /\ json_member K_AIS_DATA (json_of_record h)
                         = Some (JArray [])) out)
  /\ (forall df0 w,
        well_formed df0 = true ->
        exists w1 out,
          consolidate (Table df0) ais w = (w1, Return out)
          /\ (no_int64_score df0 = true ->
              exists w',
                create_consolidated_json (Table df0) ais w = (w', Return tt)
                /\ output_file w'
                   = Some (Whole (JArray (map json_of_record out))))).
Proof.
  intros Hwe. split.
  - intros df0 w w' out E.
    apply consolidate_shape in E.
    destruct E as (scores & ais_df & w1 & w2 & _ & Hl & _ & Hb & _).
    eapply load_ais_without_events in Hl; [|exact Hwe].
    eapply Forall_impl; [|exact Hb].
    intros h (sh & _ & Hd & _).
    assert (Hd' : ais_data h = [])
      by (rewrite Hd; apply ais_in_hour_empty, Hl).
    split; [exact Hd'|]. unfold json_of_record; simpl.
    rewrite Hd'; reflexivity.
  - intros df0 w Hwf.
    assert (Hl : ais_loadable ais = true).
    { destruct ais as [| |t]; simpl in *; try congruence.
      apply andb_true_iff in Hwe; apply Hwe. }
    destruct (consolidate_total df0 ais w Hwf Hl) as (w1 & out & E).
    exists w1, out. split; [exact E|]. intros Hfl.
    eexists. erewrite create_consolidated_json_run;
      [| exact E | eapply no_int64_score_run; eassumption].
    split; reflexivity.
Qed.

End Origins.

(** A header-only event log leaves every [ais_data] empty. *)
Lemma header_only_log_gives_empty_ais_data :
  without_events (Table header_only_ais) = true
  /\ (forall df0 w w' out,
        consolidate (Table df0) (Table header_only_ais) w = (w', Return out) ->
        Forall (fun h => ais_data h = []
                         /\ json_member K_AIS_DATA (json_of_record h)
                            = Some (JArray [])) out)
  /\ (forall df0 w,
        well_formed df0 = true ->
        exists w1 out,
          consolidate (Table df0) (Table header_only_ais) w = (w1, Return out)
          /\ (no_int64_score df0 = true ->
              exists w',
                create_consolidated_json (Table df0) (Table header_only_ais) w
                = (w', Return tt)
                /\ output_file w'
                   = Some (Whole (JArray (map json_of_record out))))).
Proof.
  split; [reflexivity|].
  apply (@no_events_give_empty_ais_data AsciiLib.ascii_lib
           (Table header_only_ais)).
  reflexivity.
Defined.

(** C4 as written fails on an event log that is empty in the plainest
    sense.  A file of zero bytes makes [read_csv] raise, a file of one header
    line that does not name [Timestamp] makes line 82 raise [KeyError]; the
    handler of line 88 forgives neither, so on the sample table the run ends
    in the handler of line 170 and writes no record at all. *)
Lemma empty_event_log_stops_the_run :
  well_formed sample_table = true
  /\ (exists w',
        create_consolidated_json (Table sample_table) Unreadable initial_world
        = (w', Return tt)
        /\ output_file w' = None
        /\ In (ErrUnexpected ReadError) (stdout w'))
  /\ rows header_only_untimed_ais = []
  /\ (exists w',
        create_consolidated_json (Table sample_table)
          (Table header_only_untimed_ais) initial_world
        = (w', Return tt)
        /\ output_file w' = None
        /\ In (ErrUnexpected (KeyError TIMESTAMP)) (stdout w')).
Proof.
  split; [reflexivity|]. split.
  - eexists. split; [vm_compute; reflexivity|]. simpl; auto.
  - split; [reflexivity|].
    eexists. split; [vm_compute; reflexivity|]. simpl; auto.
Qed.

(** A table of whole numbers gets through step 3 and fails in step 4: the
    score 1 is an int64, [json.dump] raises on it, the file stays cut short
    and no success line is printed. *)
Example integer_scores_cut_the_document_short :
  well_formed integer_score_table = true
  /\ no_int64_score integer_score_table = false
  /\ exists w1 out w',
       consolidate (Table integer_score_table) NoFile initial_world
       = (w1, Return out)
       /\ map final_score out = [Some (Int 1)]
       /\ create_consolidated_json (Table integer_score_table) NoFile
            initial_world
          = (w', Return tt)
       /\ output_file w' = Some (CutShort (JArray (map json_of_record out)))
       /\ In (ErrUnexpected TypeError) (stdout w')
       /\ forall n, ~ In (Success output_filename n) (stdout w').
Proof.
  split; [reflexivity|]. split; [reflexivity|].
  eexists; eexists; eexists. split; [vm_compute; reflexivity|].
  split; [reflexivity|]. split; [vm_compute; reflexivity|].
  split; [reflexivity|]. split; [simpl; auto|].
  intros n [H | [H | []]]; discriminate.
Qed.

(** Two headers that strip to [Timestamp] stop the run as well. *)
Example doubled_timestamp_header_stops_the_run :
  load_error (Table {| columns := [ustr "Timestamp"; ustr " Timestamp"];
                       rows := [] |})
  = Some ValueError.
Proof. reflexivity. Qed.

(* ================================================================== *)
(** ** Events *)
(* ================================================================== *)

Lemma distinct_NoDup (l : list pystr) : distinct l = true -> NoDup l.
Proof.
  induction l as [|x l IH]; simpl; intros H; [constructor|].
  apply andb_true_iff in H; destruct H as [Hx Hl].
  apply negb_true_iff, str_in_not_In in Hx. constructor; auto.
Qed.

Lemma dict_set_fresh {V} (d : dict V) (k : pystr) (v : V) :
  ~ In k (dict_keys d) -> dict_set d k v = d ++ [(k, v)].
Proof.
  unfold dict_keys; induction d as [|[k0 v0] d IH]; simpl; intros H;
    [reflexivity|].
  destruct (str_eqb k k0) eqn:E.
  - apply str_eqb_eq in E; subst k0. tauto.
  - rewrite IH by tauto. reflexivity.
Qed.

(** Building a dictionary from pairs with distinct keys keeps the pairs as
    they are, in their order. *)
Lemma dict_of_distinct_pairs {V} (l acc : list (pystr * V)) :
  NoDup (map fst (acc ++ l)) ->
  fold_left (fun d kv => dict_set d (fst kv) (snd kv)) l acc = acc ++ l.
Proof.
  revert acc; induction l as [|[k v] l IH]; intros acc H; simpl.
  - rewrite app_nil_r; reflexivity.
  - assert (Hk : ~ In k (dict_keys acc)).
    { rewrite map_app in H; simpl in H. apply NoDup_remove_2 in H.
      intros Hin; apply H, in_or_app; auto. }
    rewrite dict_set_fresh by assumption.
    rewrite IH by (rewrite <- app_assoc; exact H).
    rewrite <- app_assoc; reflexivity.
Qed.

Lemma dict_get_combine (cols : list pystr) (cells : row) (c : pystr) (j : nat) :
  index_of c cols = Some j -> (j < List.length cells)%nat ->
  dict_get (combine cols cells) c = Some (cell_at j cells).
Proof.
  revert cells j; induction cols as [|c0 cols IH]; intros cells j; simpl;
    [discriminate|].
  destruct cells as [|x cells]; simpl; [lia|].
  destruct (str_eqb c c0).
  - intros H _; injection H; intros <-; reflexivity.
  - destruct (index_of c cols) as [j'|]; [|discriminate]; simpl.
    intros H Hlt; injection H; intros <-.
    change (cell_at (S j') (x :: cells)) with (cell_at j' cells).
    apply IH; [reflexivity | lia].
Qed.

Lemma set_cell_length (k : nat) (v : cell) (r : row) :
  List.length (set_cell k v r) = List.length r.
Proof.
  revert k; induction r as [|c r IH]; intros [|k]; simpl; auto.
Qed.

Lemma cell_at_set_cell_other (k j : nat) (v : cell) (r : row) :
  j <> k -> cell_at j (set_cell k v r) = cell_at j r.
Proof.
  unfold cell_at; revert k j; induction r as [|c r IH]; intros [|k] [|j] H;
    simpl; try reflexivity; try congruence.
  apply IH; congruence.
Qed.

Lemma combine_keys (cols : list pystr) (cells : row) :
  List.length cells = List.length cols -> map fst (combine cols cells) = cols.
Proof.
  revert cells; induction cols as [|c cols IH]; intros [|x cells] H; simpl in *;
    try reflexivity; try discriminate.
  rewrite IH by congruence. reflexivity.
Qed.

Section Events.

Context {lib : PyLib}.

(** X10: an event row as it enters [ais_data] (lines 126-129), for an event
    table with distinct headers and full rows: the entry has the table's
    columns as keys, in their order; under [Timestamp] it has the text form
    of the parsed timestamp, and under every other column the row's cell
    unchanged. *)
Theorem event_record_keeps_the_row (cols : list pystr) (d : Datetime)
    (r : row) (k : nat) :
  distinct cols = true -> List.length r = List.length cols ->
  index_of TIMESTAMP cols = Some k ->
  dict_keys (event_record cols (d, r)) = cols
  /\ dict_get (event_record cols (d, r)) TIMESTAMP = Some (Str (dt_str d))
  /\ forall c j, index_of c cols = Some j -> j <> k ->
       dict_get (event_record cols (d, r)) c = Some (cell_at j r).
Proof.
  intros Hd Hlen Hk. apply distinct_NoDup in Hd.
  unfold event_record; rewrite Hk; simpl.
  assert (Hlen' : List.length (set_cell k (Str (dt_str d)) r)
                  = List.length cols)
    by (rewrite set_cell_length; exact Hlen).
  rewrite (dict_of_distinct_pairs _ [])
    by (simpl; rewrite combine_keys; assumption).
  simpl. split; [apply combine_keys; assumption|]. split.
  - erewrite dict_get_combine;
      [| exact Hk | rewrite Hlen'; eapply index_of_lt; exact Hk].
    rewrite cell_at_set_cell.
    replace (k <? List.length r)%nat with true; [reflexivity|].
    symmetry; apply Nat.ltb_lt. rewrite Hlen; eapply index_of_lt; exact Hk.
  - intros c j Hj Hne.
    erewrite dict_get_combine;
      [| exact Hj | rewrite Hlen'; eapply index_of_lt; exact Hj].
    f_equal; apply cell_at_set_cell_other; assumption.
Qed.

Lemma load_ais_Table (t : DataFrame) (a : AisFrame) (w w' : world) :
  load_ais (Table t) w = (w', Return a) ->
  ais_columns a = map strip (columns t) /\ ais_rows a = loaded_events t
  /\ ais_columns a <> [].
Proof.
  unfold load_ais, try_except, bind, read_csv, loaded_events; simpl.
  unfold ret at 1.
  destruct (index_of TIMESTAMP (map strip (columns t))) eqn:E;
    unfold ret, raise; [|discriminate].
  destruct (Nat.ltb 1 (count_of TIMESTAMP (map strip (columns t))));
    [discriminate|].
  intros H; injection H; intros <- _; simpl.
  repeat split. intros Hnil; rewrite Hnil in E; discriminate.
Qed.

(** X11: which events a bucket gets (lines 82-83, 106, 125-129).  With an
    event table, the [ais_data] of an hourly record is made, in the order of
    the log, of exactly the rows whose timestamp parsed and whose hour of day
    equals the integer read before the label's first colon; rows whose
    timestamp did not parse are in no bucket. *)
Theorem bucket_events_are_those_of_its_hour (df0 t : DataFrame)
    (out : list HourlyRecord) (w w' : world) :
  consolidate (Table df0) (Table t) w = (w', Return out) ->
  forall h, In h out ->
    exists start_hour,
      py_int (first_field COLON (time_range h)) = Some start_hour
      /\ ais_data h
         = map (event_record (map strip (columns t)))
             (filter (fun p => (dt_hour (fst p) =? start_hour)%Z)
                     (loaded_events t)).
Proof.
  intros E h Hh. apply consolidate_shape in E.
  destruct E as (scores & ais_df & w1 & w2 & _ & Hl & _ & Hb & _).
  rewrite Forall_forall in Hb. destruct (Hb h Hh) as (sh & Hsh & Hd & _).
  apply load_ais_Table in Hl. destruct Hl as (Hc & Hr & Hne).
  exists sh. split; [exact Hsh|]. rewrite Hd. unfold ais_in_hour, ais_empty.
  rewrite Hr, <- Hc.
  destruct (ais_columns ais_df) as [|c cs]; [congruence|].
  destruct (loaded_events t); reflexivity.
Qed.

(** X12: events are handed out by starting hour alone: two hourly records
    whose labels read the same integer before the first colon carry the same
    [ais_data], so buckets that start in the same hour repeat each other's
    events. *)
Theorem same_start_hour_same_events (df0 : DataFrame) (ais : csv_source)
    (out : list HourlyRecord) (w w' : world) :
  consolidate (Table df0) ais w = (w', Return out) ->
  forall h1 h2, In h1 out -> In h2 out ->
    py_int (first_field COLON (time_range h1))
    = py_int (first_field COLON (time_range h2)) ->
    ais_data h1 = ais_data h2.
Proof.
  intros E h1 h2 H1 H2 Heq. apply consolidate_shape in E.
  destruct E as (scores & ais_df & w1 & w2 & _ & _ & _ & Hb & _).
  rewrite Forall_forall in Hb.
  destruct (Hb h1 H1) as (s1 & Hs1 & Hd1 & _).
  destruct (Hb h2 H2) as (s2 & Hs2 & Hd2 & _).
  rewrite Hd1, Hd2. congruence.
Qed.

End Events.

(* ================================================================== *)
(** ** Forward fill, headers, labels *)
(* ================================================================== *)

Lemma ffill_length (k : nat) (last : cell) (rs : list row) :
  List.length (ffill k last rs) = List.length rs.
Proof.
  revert last; induction rs as [|r rs IH]; intros last; simpl; [reflexivity|].
  destruct (cell_at k r); simpl; rewrite IH; reflexivity.
Qed.

Lemma ffill_row (k : nat) (last : cell) (rs : list row) (i : nat) (r : row) :
  nth_error rs i = Some r ->
  exists r',
    nth_error (ffill k last rs) i = Some r'
    /\ (r' = r \/ (cell_at k r = NaN /\ exists v, r' = set_cell k v r)).
Proof.
  revert last i; induction rs as [|r0 rs IH]; intros last i H.
  - destruct i; discriminate.
  - destruct i as [|i]; simpl in H.
    + injection H; intros ->. simpl. destruct (cell_at k r) eqn:E; simpl;
        eexists; (split; [reflexivity|]); eauto.
    + simpl. destruct (cell_at k r0); simpl; apply IH; assumption.
Qed.

(** X13: the forward fill of line 26 touches nothing but empty category
    cells: the table keeps its number of rows, each row keeps its length and
    every cell outside the category column, a filled category cell stays as
    it is, and a row with no filled category cell at or above it keeps its
    empty one. *)
Theorem ffill_touches_only_empty_categories (k : nat) (rs : list row) :
  List.length (ffill k NaN rs) = List.length rs
  /\ forall i r, nth_error rs i = Some r ->
       exists r',
         nth_error (ffill k NaN rs) i = Some r'
         /\ List.length r' = List.length r
         /\ (forall j, j <> k -> cell_at j r' = cell_at j r)
         /\ (cell_at k r <> NaN -> r' = r)
         /\ ((forall m r0, (m <= i)%nat -> nth_error rs m = Some r0 ->
                           cell_at k r0 = NaN) ->
             cell_at k r' = NaN).
Proof.
  split; [apply ffill_length|]. intros i r Hi.
  destruct (ffill_row k NaN rs i Hi) as (r' & Hr' & Hcase).
  exists r'. split; [exact Hr'|].
  split; [|split; [|split]].
  - destruct Hcase as [-> | (_ & v & ->)];
      [reflexivity | apply set_cell_length].
  - intros j Hj. destruct Hcase as [-> | (_ & v & ->)];
      [reflexivity | apply cell_at_set_cell_other; assumption].
  - intros Hfilled. destruct Hcase as [-> | (Hnan & _)]; [reflexivity | tauto].
  - intros Hgap. rewrite (ffill_run_of_gaps k rs NaN Hgap Hi) in Hr'.
    injection Hr'; intros <-. rewrite cell_at_set_cell.
    destruct (Nat.ltb k (List.length r)); reflexivity.
Qed.

Lemma rename_column_named (c : pystr) :
  rename_column (strip (rename_column (strip c))) = rename_column (strip c).
Proof.
  unfold rename_column.
  destruct (str_eqb (strip c) (ustr "Unnamed: 0")) eqn:E0; [reflexivity|].
  destruct (str_eqb (strip c) (ustr "Unnamed: 1")) eqn:E1; [reflexivity|].
  rewrite strip_idem, E0, E1; reflexivity.
Qed.

Section Headers.

Context {lib : PyLib}.

Lemma consolidate_named (df0 df1 : DataFrame) (ais : csv_source) (w : world) :
  named_table df0 = named_table df1 ->
  consolidate (Table df0) ais w = consolidate (Table df1) ais w.
Proof.
  intros H. unfold consolidate, read_csv.
  unfold bind at 1, ret at 1. symmetry. unfold bind at 1, ret at 1.
  cbv zeta. rewrite H. reflexivity.
Qed.

(** X14: the run sees the headers only through lines 13-23: two tables
    with the same rows whose headers agree once stripped and renamed give the
    same run, and so does a table whose headers have already been stripped
    and renamed. *)
Theorem headers_count_only_once_named (df0 : DataFrame) (ais : csv_source)
    (w : world) :
  (forall df1,
     map rename_column (map strip (columns df1))
     = map rename_column (map strip (columns df0)) ->
     rows df1 = rows df0 ->
     create_consolidated_json (Table df1) ais w
     = create_consolidated_json (Table df0) ais w)
  /\ create_consolidated_json (Table (named_table df0)) ais w
     = create_consolidated_json (Table df0) ais w.
Proof.
  assert (Hgen : forall df1, named_table df1 = named_table df0 ->
            create_consolidated_json (Table df1) ais w
            = create_consolidated_json (Table df0) ais w).
  { intros df1 H. unfold create_consolidated_json, try_except, bind.
    rewrite consolidate_named with (df1 := df0) by exact H. reflexivity. }
  split.
  - intros df1 Hc Hr. apply Hgen.
    unfold named_table, rename_unnamed, strip_columns; simpl.
    rewrite Hc, Hr; reflexivity.
  - apply Hgen. unfold named_table, rename_unnamed, strip_columns; simpl.
    f_equal. rewrite !map_map. apply map_ext. intros c.
    apply rename_column_named.
Qed.

Lemma reshaped_label (df0 : DataFrame) (r : FactorRecord) :
  In r (reshaped df0) -> In (fr_time_range r) (time_vars (factors_table df0)).
Proof.
  unfold reshaped, dropna_factor_value, melted; intros H.
  apply filter_In in H; destruct H as [H _].
  apply in_flat_map in H; destruct H as (tv & Htv & H).
  apply in_map_iff in H; destruct H as (x & <- & _). exact Htv.
Qed.

(** X15: the labels of the output are headers of the table: every hourly
    record is labelled with a stripped header that holds a colon and a
    hyphen and is not one of the two label columns (line 33), and there are
    at most as many records as there are such headers. *)
Theorem labels_are_time_headers (df0 : DataFrame) (ais : csv_source)
    (out : list HourlyRecord) (w w' : world) :
  consolidate (Table df0) ais w = (w', Return out) ->
  (forall h, In h out ->
     In (time_range h) (columns (named_table df0))
     /\ contains COLON (time_range h) = true
     /\ contains HYPHEN (time_range h) = true
     /\ str_in (time_range h) id_vars = false)
  /\ (List.length out <= List.length (time_vars (factors_table df0)))%nat.
Proof.
  intros E. apply consolidate_shape in E.
  destruct E as (_ & _ & _ & _ & _ & _ & Hm & _ & _).
  destruct (valid_labels_spec (reshaped df0)) as [Hs Hi].
  assert (Hin : forall t, In t (map time_range out) ->
                          In t (time_vars (factors_table df0))).
  { intros t Ht. rewrite Hm in Ht. apply Hi in Ht.
    destruct Ht as [(r & Hr & <-) _]. apply reshaped_label, Hr. }
  split.
  - intros h Hh. specialize (Hin _ (in_map time_range _ _ Hh)).
    unfold time_vars in Hin. apply filter_In in Hin. destruct Hin as [Hc Ht].
    rewrite columns_factors_table in Hc.
    apply andb_true_iff in Ht; destruct Ht as [Ht H3].
    apply andb_true_iff in Ht; destruct Ht as [H1 H2].
    apply negb_true_iff in H1. auto.
  - rewrite <- (length_map time_range out). apply NoDup_incl_length.
    + rewrite Hm. apply StronglySorted_lt_NoDup, Hs.
    + exact Hin.
Qed.

(** X16: a table without a time column, that is without a header holding a
    colon and a hyphen, is no error: a run that gets through step 3 has no
    hourly record, and on a well-formed table with a loadable event log (no
    file, or a table with exactly one [Timestamp] header) the run writes the
    empty array. *)
Theorem no_time_column_gives_the_empty_array (df0 : DataFrame)
    (ais : csv_source) (w : world) :
  time_vars (factors_table df0) = [] ->
  (forall w' out, consolidate (Table df0) ais w = (w', Return out) -> out = [])
  /\ (well_formed df0 = true -> ais_loadable ais = true ->
      exists w',
        create_consolidated_json (Table df0) ais w = (w', Return tt)
        /\ output_file w' = Some (Whole (JArray []))).
Proof.
  intros Htv.
  assert (Hout : forall w' out,
             consolidate (Table df0) ais w = (w', Return out) -> out = []).
  { intros w' out E. apply consolidate_shape in E.
    destruct E as (_ & _ & _ & _ & _ & _ & Hm & _ & _).
    assert (Hr : reshaped df0 = [])
      by (unfold reshaped; rewrite Htv; reflexivity).
    rewrite Hr in Hm. simpl in Hm. destruct out; [reflexivity | discriminate]. }
  split; [exact Hout|]. intros Hwf Hl.
  destruct (consolidate_total df0 ais w Hwf Hl) as (w1 & out & E).
  pose proof (Hout _ _ E) as ->.
  eexists. erewrite create_consolidated_json_run; [| exact E | reflexivity].
  split; reflexivity.
Qed.

End Headers.

Lemma lstrip_In (c : N) (s : pystr) : In c (lstrip s) -> In c s.
Proof.
  induction s as [|x s IH]; simpl; [auto|].
  destruct (is_whitespace x); simpl; auto.
Qed.

Lemma lstrip_shorter (s : pystr) :
  (List.length (lstrip s) <= List.length s)%nat.
Proof.
  induction s as [|x s IH]; simpl; [lia|].
  destruct (is_whitespace x); simpl; lia.
Qed.

Lemma strip_In (c : N) (s : pystr) : In c (strip s) -> In c s.
Proof.
  unfold strip, rstrip; intros H.
  apply in_rev, lstrip_In, in_rev, lstrip_In in H. exact H.
Qed.

Lemma strip_shorter (s : pystr) : (List.length (strip s) <= List.length s)%nat.
Proof.
  unfold strip, rstrip. rewrite length_rev.
  pose proof (lstrip_shorter (rev (lstrip s))) as H1.
  rewrite length_rev in H1. pose proof (lstrip_shorter s). lia.
Qed.

(** X17: a key made by [normalize_time_range] (line 54) holds no en dash,
    no em dash and no space, has no whitespace at either end, is no longer
    than the label, and is made of the label's characters and hyphens
    only. *)
Theorem normalized_key_is_clean (s : pystr) :
  Forall (fun c => c <> EN_DASH /\ c <> EM_DASH /\ c <> SPACE)
         (normalize_time_range s)
  /\ strip (normalize_time_range s) = normalize_time_range s
  /\ (List.length (normalize_time_range s) <= List.length s)%nat
  /\ forall c, In c (normalize_time_range s) -> c = HYPHEN \/ In c s.
Proof.
  split; [apply normalize_time_range_clean|].
  rewrite normalize_time_range_eq.
  split; [apply strip_idem|]. split.
  - etransitivity; [apply strip_shorter|]. unfold remove_char.
    etransitivity; [apply filter_length_le|]. rewrite length_map; lia.
  - intros c Hc. apply strip_In in Hc. apply filter_In in Hc.
    destruct Hc as [Hc _]. apply in_map_iff in Hc.
    destruct Hc as (x & <- & Hx). unfold fold_dash.
    destruct ((x =? EN_DASH) || (x =? EM_DASH)); auto.
Qed.

Lemma dict_of_pairs_NoDup {V} (l acc : list (pystr * V)) :
  NoDup (dict_keys acc) ->
  NoDup (dict_keys (fold_left (fun d kv => dict_set d (fst kv) (snd kv)) l acc)).
Proof.
  revert acc; induction l as [|kv l IH]; intros acc H; simpl; [assumption|].
  apply IH, dict_set_NoDup, H.
Qed.

Section Shape.

Context {lib : PyLib}.

(** X18: no object of the document repeats a member name: an hourly
    record is written with its seven keys, all different, in the order of
    line 114; the factor names inside each of its four dictionaries are all
    different; and so are the keys of each of its events. *)
Theorem written_objects_have_distinct_names (df0 : DataFrame)
    (ais : csv_source) (out : list HourlyRecord) (w w' : world) :
  consolidate (Table df0) ais w = (w', Return out) ->
  forall h, In h out ->
    (exists members,
       json_of_record h = JObject members
       /\ map fst members = record_keys /\ NoDup record_keys)
    /\ (forall key d, bucket key h = Some d -> NoDup (dict_keys d))
    /\ (forall e, In e (ais_data h) -> NoDup (dict_keys e)).
Proof.
  intros E h Hh. apply consolidate_shape in E.
  destruct E as (scores & ais_df & w1 & w2 & _ & _ & _ & Hb & _).
  rewrite Forall_forall in Hb. specialize (Hb h Hh).
  split; [|split].
  - eexists. split; [reflexivity|]. split; [reflexivity|].
    apply distinct_NoDup; reflexivity.
  - intros key d Hd. eapply built_from_NoDup; eassumption.
  - destruct Hb as (sh & _ & Hd & _). rewrite Hd. unfold ais_in_hour.
    destruct (ais_empty ais_df); [intros e []|].
    intros e He. apply in_map_iff in He. destruct He as (p & <- & _).
    unfold event_record. apply dict_of_pairs_NoDup. constructor.
Qed.

End Shape.

(* ================================================================== *)
(** ** The further properties at work on the sample tables *)
(* ================================================================== *)

(** The unscored table runs through: its records under the two parsable
    labels are all processable. *)
Lemma unscored_run_met_processable_records :
  exists w' out,
    consolidate (Table unscored_table) NoFile initial_world = (w', Return out)
    /\ forall r, In r (reshaped unscored_table) ->
         hour_parses (fr_time_range r) = true ->
         is_str (fr_factor r) = true
         /\ str_in (canonical r) [K_TIME_RANGE; K_AIS_DATA; K_FINAL_SCORE]
            = false.
Proof.
  eexists; eexists. split; [vm_compute; reflexivity|].
  eapply (@finished_run_met_only_processable_records AsciiLib.ascii_lib
            unscored_table NoFile _ initial_world _).
  vm_compute; reflexivity.
Defined.

(** Its label "x:00 - y:00" is skipped with a warning. *)
Lemma unscored_run_skips_its_odd_label :
  exists w' out,
    consolidate (Table unscored_table) NoFile initial_world = (w', Return out)
    /\ forall r, In r (reshaped unscored_table) ->
         hour_parses (fr_time_range r) = false ->
         In (WarnSkipTimeRange (fr_time_range r)) (stdout w')
         /\ forall h, In h out -> time_range h <> fr_time_range r.
Proof.
  eexists; eexists. split; [vm_compute; reflexivity|].
  eapply (@unparsable_label_is_skipped_with_a_warning AsciiLib.ascii_lib
            unscored_table NoFile _ initial_world _).
  vm_compute; reflexivity.
Defined.

(** Its category "Weather" is warned about and leaves no trace. *)
Lemma unscored_run_warns_about_weather :
  exists w' out,
    consolidate (Table unscored_table) NoFile initial_world = (w', Return out)
    /\ forall r, In r (reshaped unscored_table) ->
         hour_parses (fr_time_range r) = true ->
         str_in (canonical r) record_keys = false ->
         In (WarnUnknownCategory (canonical r)) (stdout w')
         /\ forall pre post, reshaped unscored_table = pre ++ r :: post ->
              forall h key d,
                In h out -> bucket key h = Some d ->
                d = fold_left (file_record key)
                      (factors_in_hour (pre ++ post) (time_range h)) [].
Proof.
  eexists; eexists. split; [vm_compute; reflexivity|].
  eapply (@unknown_category_is_warned_and_left_out AsciiLib.ascii_lib
            unscored_table NoFile _ initial_world _).
  vm_compute; reflexivity.
Defined.

(** Every entry of the sample run's dictionaries is in the sample table. *)
Lemma sample_entries_come_from_the_table :
  exists w' out,
    consolidate (Table sample_table) NoFile initial_world = (w', Return out)
    /\ forall h key d name v,
         In h out -> bucket key h = Some d -> In (name, v) d ->
         exists r s,
           In r (reshaped sample_table)
           /\ fr_time_range r = time_range h /\ canonical r = key
           /\ fr_factor r = Str s /\ name = strip s
           /\ fr_value r = v /\ notna v = true.
Proof.
  eexists; eexists. split; [vm_compute; reflexivity|].
  eapply (@bucket_entries_come_from_the_table AsciiLib.ascii_lib
            sample_table NoFile _ initial_world _).
  vm_compute; reflexivity.
Defined.

(** When two headers share a key the later column's score wins for both:
    the bucket "0:00 - 1:00" shows 0.9, the score under "0:00-1:00". *)
Lemma colliding_headers_share_the_later_score :
  exists w' h rest,
    consolidate (Table colliding_table) NoFile initial_world
    = (w', Return (h :: rest))
    /\ time_range h = ustr "0:00 - 1:00"
    /\ final_score h = Some (Num (9 # 10)).
Proof.
  eexists; eexists; eexists. split; [vm_compute; reflexivity|].
  split; [reflexivity|].
  refine (proj1 (@final_score_is_read_from_the_score_row AsciiLib.ascii_lib
                   colliding_table NoFile _ initial_world _
                   [Txt "Final Score"; NaN; Num (5 # 10); Num (9 # 10)]
                   _ _ _ _)
            [ustr "0:00 - 1:00"] (ustr "0:00-1:00") [] _ _ _ _).
  - vm_compute; reflexivity.
  - reflexivity.
  - left; reflexivity.
  - reflexivity.
  - reflexivity.
  - reflexivity.
  - intros c [].
Defined.

(** No score of the sample run is a missing value. *)
Lemma sample_scores_are_filled :
  exists w' out,
    consolidate (Table sample_table) NoFile initial_world = (w', Return out)
    /\ forall h, In h out ->
         (final_score h = None
          \/ exists c, final_score h = Some c /\ notna c = true)
         /\ json_member K_FINAL_SCORE (json_of_record h) <> Some JNaN.
Proof.
  eexists; eexists. split; [vm_compute; reflexivity|].
  eapply (@final_score_is_null_or_filled AsciiLib.ascii_lib
            sample_table NoFile _ initial_world _).
  vm_compute; reflexivity.
Defined.

(** The first event of the sample log as it is written. *)
Lemma sample_event_is_written_with_its_text_stamp :
  dict_keys
    (event_record [ustr "MMSI"; ustr "Timestamp"]
       ({| AsciiLib.year := 2024; AsciiLib.month := 1; AsciiLib.day := 1;
           AsciiLib.hour := 0; AsciiLib.minute := 45 |},
        [Num 563001; Txt "01/01/2024 00:45"]))
  = [ustr "MMSI"; ustr "Timestamp"]
  /\ dict_get
       (event_record [ustr "MMSI"; ustr "Timestamp"]
          ({| AsciiLib.year := 2024; AsciiLib.month := 1; AsciiLib.day := 1;
              AsciiLib.hour := 0; AsciiLib.minute := 45 |},
           [Num 563001; Txt "01/01/2024 00:45"])) TIMESTAMP
     = Some (Txt "2024-01-01 00:45:00")
  /\ forall c j, index_of c [ustr "MMSI"; ustr "Timestamp"] = Some j ->
       j <> 1%nat ->
       dict_get
         (event_record [ustr "MMSI"; ustr "Timestamp"]
            ({| AsciiLib.year := 2024; AsciiLib.month := 1; AsciiLib.day := 1;
                AsciiLib.hour := 0; AsciiLib.minute := 45 |},
             [Num 563001; Txt "01/01/2024 00:45"])) c
       = Some (cell_at j [Num 563001; Txt "01/01/2024 00:45"]).
Proof.
  apply (@event_record_keeps_the_row AsciiLib.ascii_lib
           [ustr "MMSI"; ustr "Timestamp"]
           {| AsciiLib.year := 2024; AsciiLib.month := 1; AsciiLib.day := 1;
              AsciiLib.hour := 0; AsciiLib.minute := 45 |}
           [Num 563001; Txt "01/01/2024 00:45"] 1); reflexivity.
Defined.

(** The buckets of the sample run get the events of their hours. *)
Lemma sample_buckets_get_their_hours :
  exists w' out,
    consolidate (Table sample_table) (Table sample_ais) initial_world
    = (w', Return out)
    /\ forall h, In h out ->
         exists start_hour,
           py_int (first_field COLON (time_range h)) = Some start_hour
           /\ ais_data h
              = map (event_record (map strip (columns sample_ais)))
                  (filter (fun p => (dt_hour (fst p) =? start_hour)%Z)
                          (loaded_events sample_ais)).
Proof.
  eexists; eexists. split; [vm_compute; reflexivity|].
  eapply (@bucket_events_are_those_of_its_hour AsciiLib.ascii_lib
            sample_table sample_ais _ initial_world _).
  vm_compute; reflexivity.
Defined.

(** The two half-hour buckets of hour 1 carry the same events. *)
Lemma half_hour_buckets_share_their_events :
  exists w' h1 h2,
    consolidate (Table half_hour_table) (Table sample_ais) initial_world
    = (w', Return [h1; h2])
    /\ time_range h1 = ustr "1:00 - 1:30"
    /\ time_range h2 = ustr "1:30 - 2:00"
    /\ ais_data h1 <> []
    /\ ais_data h1 = ais_data h2.
Proof.
  eexists; eexists; eexists. split; [vm_compute; reflexivity|].
  split; [reflexivity|]. split; [reflexivity|]. split; [discriminate|].
  refine (@same_start_hour_same_events AsciiLib.ascii_lib half_hour_table
            (Table sample_ais) _ initial_world _ _ _ _ _ _ _).
  - vm_compute; reflexivity.
  - left; reflexivity.
  - right; left; reflexivity.
  - reflexivity.
Defined.

(** The labels of the sample run are two of its headers. *)
Lemma sample_labels_are_headers :
  exists w' out,
    consolidate (Table sample_table) NoFile initial_world = (w', Return out)
    /\ (forall h, In h out ->
          In (time_range h) (columns (named_table sample_table))
          /\ contains COLON (time_range h) = true
          /\ contains HYPHEN (time_range h) = true
          /\ str_in (time_range h) id_vars = false)
    /\ (List.length out
        <= List.length (time_vars (factors_table sample_table)))%nat.
Proof.
  eexists; eexists. split; [vm_compute; reflexivity|].
  eapply (@labels_are_time_headers AsciiLib.ascii_lib
            sample_table NoFile _ initial_world _).
  vm_compute; reflexivity.
Defined.

(** The table without time columns gives [[]]. *)
Lemma no_time_table_gives_the_empty_array :
  (forall w' out,
     consolidate (Table no_time_table) NoFile initial_world = (w', Return out) ->
     out = [])
  /\ (well_formed no_time_table = true -> ais_loadable NoFile = true ->
      exists w',
        create_consolidated_json (Table no_time_table) NoFile initial_world
        = (w', Return tt)
        /\ output_file w' = Some (Whole (JArray []))).
Proof.
  apply (@no_time_column_gives_the_empty_array AsciiLib.ascii_lib
           no_time_table NoFile initial_world).
  reflexivity.
Defined.

(** The sample table with its headers named and padded runs as the sample
    table does. *)
Lemma named_sample_runs_alike :
  create_consolidated_json (Table sample_table_named) (Table sample_ais)
    initial_world
  = create_consolidated_json (Table sample_table) (Table sample_ais)
      initial_world.
Proof.
  apply (proj1 (@headers_count_only_once_named AsciiLib.ascii_lib sample_table
                  (Table sample_ais) initial_world)); reflexivity.
Defined.

(** The objects of the sample run have distinct names. *)
Lemma sample_objects_have_distinct_names :
  exists w' out,
    consolidate (Table sample_table) (Table sample_ais) initial_world
    = (w', Return out)
    /\ forall h, In h out ->
         (exists members,
            json_of_record h = JObject members
            /\ map fst members = record_keys /\ NoDup record_keys)
         /\ (forall key d, bucket key h = Some d -> NoDup (dict_keys d))
         /\ (forall e, In e (ais_data h) -> NoDup (dict_keys e)).
Proof.
  eexists; eexists. split; [vm_compute; reflexivity|].
  eapply (@written_objects_have_distinct_names AsciiLib.ascii_lib
            sample_table (Table sample_ais) _ initial_world _).
  vm_compute; reflexivity.
Defined.

(* ================================================================== *)
(** ** Rows kept, names in order *)
(* ================================================================== *)



Lemma unique_from_same_seen (s1 s2 l : list pystr) :
  (forall x, In x s1 <-> In x s2) -> unique_from s1 l = unique_from s2 l.
Proof.
  revert s1 s2; induction l as [|y l IH]; intros s1 s2 H; simpl;
    [reflexivity|].
  assert (E : str_in y s1 = str_in y s2).
  { destruct (str_in y s1) eqn:E1; destruct (str_in y s2) eqn:E2;
      try reflexivity.
    - apply str_in_In in E1. apply str_in_not_In in E2. apply H in E1. tauto.
    - apply str_in_In in E2. apply str_in_not_In in E1. apply H in E2. tauto. }
  rewrite E. destruct (str_in y s2); [apply IH; assumption|].
  f_equal. apply IH. intros x; simpl. rewrite H; reflexivity.
Qed.

Lemma dict_set_keys {V} (d : dict V) (k : pystr) (v : V) :
  dict_keys (dict_set d k v)
  = if str_in k (dict_keys d) then dict_keys d else dict_keys d ++ [k].
Proof.
  unfold dict_keys, str_in; induction d as [|[k0 v0] d IH]; simpl;
    [reflexivity|].
  destruct (str_eqb k k0); simpl; [reflexivity|].
  rewrite IH. destruct (existsb (str_eqb k) (map fst d)); reflexivity.
Qed.

Section NameOrder.

Context {lib : PyLib}.

Lemma fold_file_record_keys (key : pystr) (rs : list FactorRecord)
    (d : dict cell) :
  dict_keys (fold_left (file_record key) rs d)
  = dict_keys d
    ++ unique_from (dict_keys d)
         (map factor_name
              (filter (fun r => str_eqb (canonical r) key) rs)).
Proof.
  revert d; induction rs as [|r rs IH]; intros d; simpl.
  - rewrite app_nil_r; reflexivity.
  - rewrite IH. unfold file_record.
    destruct (str_eqb (canonical r) key); [|reflexivity].
    simpl. rewrite dict_set_keys.
    destruct (str_in (factor_name r) (dict_keys d)) eqn:E; [reflexivity|].
    rewrite <- app_assoc; simpl. do 2 f_equal.
    apply unique_from_same_seen. intros x; simpl.
    rewrite in_app_iff; simpl; tauto.
Qed.

(** X20: inside a dictionary of an hourly record the factor names stand in
    the order in which they first appear, trimmed, among the label's records
    of that category in the reshaped data; overwriting a name (line 141)
    does not move it. *)
Theorem factor_names_keep_their_first_order (df0 : DataFrame)
    (ais : csv_source) (out : list HourlyRecord) (w w' : world) :
  consolidate (Table df0) ais w = (w', Return out) ->
  forall h key d, In h out -> bucket key h = Some d ->
    dict_keys d
    = unique (map factor_name
                (filter (fun r => str_eqb (canonical r) key)
                        (factors_in_hour (reshaped df0) (time_range h)))).
Proof.
  intros E h key d Hh Hd. apply consolidate_shape in E.
  destruct E as (scores & ais_df & w1 & w2 & _ & _ & _ & Hb & _).
  rewrite Forall_forall in Hb. destruct (Hb h Hh) as (sh & _ & _ & _ & Hfold).
  rewrite (Hfold key d Hd), fold_file_record_keys. reflexivity.
Qed.

End NameOrder.

(* ================================================================== *)
(** ** The forward fill as the run has it *)
(* ================================================================== *)

Section FilledCategory.

Context {lib : PyLib}.

(** A run that gets through step 3 has filled the categories and reshaped
    the table on its way. *)
Lemma consolidate_stages (df0 : DataFrame) (ais : csv_source)
    (out : list HourlyRecord) (w w' : world) :
  consolidate (Table df0) ais w = (w', Return out) ->
  fill_categories (named_table df0) w = (w, Return (factors_table df0))
  /\ factors_long_df (factors_table df0) w = (w, Return (reshaped df0)).
Proof.
  unfold consolidate; intros H.
  apply bind_Return in H; destruct H as (df & w0 & Hr & H).
  unfold read_csv, ret in Hr; injection Hr; intros <- <-.
  apply bind_Return in H; destruct H as (fdf & w0 & Hf & H).
  assert (fdf = factors_table df0 /\ w0 = w) as [-> ->].
  { unfold fill_categories in Hf; unfold factors_table, category_index.
    destruct (index_of FACTOR_CATEGORY (columns (named_table df0)));
      unfold ret, raise in Hf; inversion Hf; auto. }
  apply bind_Return in H; destruct H as (long & w0 & Hl & H).
  assert (long = reshaped df0 /\ w0 = w) as [-> ->].
  { unfold factors_long_df in Hl.
    apply bind_Return in Hl; destruct Hl as (m & w3 & Hm & Hl).
    unfold melt in Hm.
    destruct (str_in VALUE (columns (factors_table df0))); [discriminate|].
    destruct (index_of FACTOR_CATEGORY (columns (factors_table df0)));
      [|discriminate].
    destruct (index_of FACTOR (columns (factors_table df0))); [|discriminate].
    unfold ret in Hm, Hl; injection Hm; intros <- <-.
    injection Hl; intros <- <-. auto. }
  split; assumption.
Qed.

(** C9: in a table with one category column, a row whose category cell is
    empty, with a filled category cell somewhere above it, takes the value
    [c] of the nearest filled cell above.  This is what lines 26-29 of the
    run make of the table
    ([fill_categories]); the row stays in [factors_df]; every record the
    reshape makes of it carries the category [c] into the reshaped factor
    data, which is the long table of any run that gets through step 3; and
    such a run files the record's factor under the canonical name of [c], in
    the hourly record of the record's label. *)
Theorem forward_fill_nearest_category (df0 : DataFrame) (k i j : nat)
    (rj ri : row) (c : cell) :
  rectangular df0 = true ->
  count_of FACTOR_CATEGORY (columns (named_table df0)) = 1%nat ->
  category_index df0 = Some k ->
  (j < i)%nat ->
  nth_error (rows df0) j = Some rj -> cell_at k rj = c -> c <> NaN ->
  (forall m r, (j < m <= i)%nat -> nth_error (rows df0) m = Some r ->
               cell_at k r = NaN) ->
  nth_error (rows df0) i = Some ri ->
  nth_error (ffill k NaN (rows df0)) i = Some (set_cell k c ri)
  /\ (forall w,
        fill_categories (named_table df0) w = (w, Return (factors_table df0)))
  /\ In (set_cell k c ri) (rows (factors_table df0))
  /\ forall tv,
       let record := melt_row (factors_table df0) tv (set_cell k c ri) in
       fr_category record = c
       /\ (In tv (time_vars (factors_table df0)) ->
           notna (fr_factor record) = true -> notna (fr_value record) = true ->
           In record (reshaped df0)
           /\ forall ais w w' out,
                consolidate (Table df0) ais w = (w', Return out) ->
                factors_long_df (factors_table df0) w
                = (w, Return (reshaped df0))
                /\ (hour_parses tv = true ->
                    exists h,
                      In h out /\ time_range h = tv
                      /\ forall d,
                           bucket (format_category_name c) h = Some d ->
                           In (factor_name record) (dict_keys d))).
Proof.
  intros Hrect _ Hk Hji Hj Hc Hn Hgap Hi.
  assert (Hlen : (k <? List.length ri)%nat = true).
  { apply Nat.ltb_lt. unfold rectangular in Hrect.
    rewrite forallb_forall in Hrect.
    specialize (Hrect ri (nth_error_In _ _ Hi)).
    apply Nat.eqb_eq in Hrect; rewrite Hrect.
    apply index_of_lt in Hk. unfold named_table in Hk; simpl in Hk.
    rewrite !length_map in Hk; exact Hk. }
  assert (Hcell : cell_at k (set_cell k c ri) = c)
    by (rewrite cell_at_set_cell, Hlen; reflexivity).
  assert (Hfill : nth_error (ffill k NaN (rows df0)) i = Some (set_cell k c ri))
    by (eapply ffill_nearest; eassumption).
  assert (Hrow : In (set_cell k c ri) (rows (factors_table df0))).
  { unfold factors_table; rewrite Hk; simpl. apply filter_In. split.
    - eapply nth_error_In; exact Hfill.
    - apply (@filled_row_survives k); congruence. }
  split; [exact Hfill|]. split.
  { intros w. unfold fill_categories, factors_table.
    pose proof Hk as Hk'. unfold category_index in Hk'. rewrite Hk, Hk'.
    reflexivity. }
  split; [exact Hrow|].
  intros tv record.
  assert (Hcat : fr_category record = c).
  { unfold record, melt_row, column_cell; simpl.
    rewrite columns_factors_table. unfold category_index in Hk; rewrite Hk.
    exact Hcell. }
  split; [exact Hcat|]. intros Htv Hf Hv.
  assert (Hrec : In record (reshaped df0)).
  { unfold reshaped, dropna_factor_value.
    apply filter_In. split; [|rewrite Hf, Hv; reflexivity].
    unfold melted. apply in_flat_map. exists tv. split; [assumption|].
    apply in_map; assumption. }
  split; [exact Hrec|]. intros ais w w' out E.
  split; [eapply consolidate_stages; exact E|]. intros Hp.
  apply consolidate_shape in E.
  destruct E as (scores & ais_df & w1 & w2 & _ & _ & Hm & Hb & _).
  assert (Hin : In tv (map time_range out)).
  { rewrite Hm. apply (proj2 (valid_labels_spec (reshaped df0))).
    split; [|exact Hp]. exists record; split; [exact Hrec | reflexivity]. }
  apply in_map_iff in Hin; destruct Hin as (h & Eh & Hin).
  exists h. split; [exact Hin|]. split; [exact Eh|].
  intros d Hd. rewrite Forall_forall in Hb.
  destruct (Hb h Hin) as (sh & _ & _ & _ & Hfold).
  rewrite (Hfold _ d Hd), fold_file_record_keys. simpl.
  apply unique_In, in_map, filter_In. split.
  - apply filter_In. split; [exact Hrec|]. rewrite Eh; apply str_eqb_refl.
  - unfold canonical. rewrite Hcat. apply str_eqb_refl.
Qed.

End FilledCategory.

(** In the sample table the second row has no category of its own and takes
    "Ship Factors" from the first; its draft is filed under [ship_factors]. *)
Lemma sample_second_row_is_filled :
  nth_error (ffill 0 NaN (rows sample_table)) 1
  = Some [Txt "Ship Factors"; Txt " Draft"; Num 7; NaN; Txt "m"]
  /\ (forall w,
        fill_categories (named_table sample_table) w
        = (w, Return (factors_table sample_table)))
  /\ In [Txt "Ship Factors"; Txt " Draft"; Num 7; NaN; Txt "m"]
        (rows (factors_table sample_table))
  /\ forall tv,
       let record :=
         melt_row (factors_table sample_table) tv
           [Txt "Ship Factors"; Txt " Draft"; Num 7; NaN; Txt "m"] in
       fr_category record = Txt "Ship Factors"
       /\ (In tv (time_vars (factors_table sample_table)) ->
           notna (fr_factor record) = true -> notna (fr_value record) = true ->
           In record (reshaped sample_table)
           /\ forall ais w w' out,
                consolidate (Table sample_table) ais w = (w', Return out) ->
                factors_long_df (factors_table sample_table) w
                = (w, Return (reshaped sample_table))
                /\ (hour_parses tv = true ->
                    exists h,
                      In h out /\ time_range h = tv
                      /\ forall d,
                           bucket (format_category_name (Txt "Ship Factors")) h
                           = Some d ->
                           In (factor_name record) (dict_keys d))).
Proof.
  apply (@forward_fill_nearest_category AsciiLib.ascii_lib sample_table 0 1 0
           [Txt "Ship Factors"; Txt "Speed"; Num (25 # 2); Num 13; NaN]
           [NaN; Txt " Draft"; Num 7; NaN; Txt "m"] (Txt "Ship Factors")).
  - reflexivity.
  - reflexivity.
  - reflexivity.
  - lia.
  - reflexivity.
  - reflexivity.
  - discriminate.
  - intros m r Hm Hr. assert (m = 1%nat) by lia. subst m.
    injection Hr; intros <-; reflexivity.
  - reflexivity.
Defined.


(** In the sample run "Speed" comes before "Draft", as in the table. *)
Lemma sample_names_are_in_table_order :
  exists w' out,
    consolidate (Table sample_table) NoFile initial_world = (w', Return out)
    /\ forall h key d, In h out -> bucket key h = Some d ->
         dict_keys d
         = unique (map factor_name
                     (filter (fun r => str_eqb (canonical r) key)
                             (factors_in_hour (reshaped sample_table)
                                (time_range h)))).
Proof.
  eexists; eexists. split; [vm_compute; reflexivity|].
  eapply (@factor_names_keep_their_first_order AsciiLib.ascii_lib
            sample_table NoFile _ initial_world _).
  vm_compute; reflexivity.
Defined.
